(** * hospital_mock: the findings pipeline and the report services

    A shallow embedding of [app/services/analysis_service.py] and
    [app/services/report_service.py], with the properties of the
    enrichment, summary, storage, composition and formatting steps.

    Conventions of the embedding.
    - A Python [str] is a [string]; its characters are code points below
      128, and the string methods below follow CPython on that range
      ([ascii_text]; beyond it [str.strip], [str.title] and [len] differ, so
      a property that depends on them is stated for such texts).
    - Python values are the JSON-shaped values the services exchange
      ([pyval]); numbers are integers.
    - A [dict] is an association list in insertion order, as iteration
      order is observable in the composed report; a dict of Python has no
      two equal keys ([dict_wf]).
    - A raised exception is an [Err] result and carries its class and its
      message; code that touches the file system, the logger or standard
      output threads a [world].
    - The file system maps a path to the content of a file; directories are
      not modelled ([os.makedirs] does nothing here).  A JSON file holds the
      document that [json.dump] wrote, an object at top level.
    - A path stands for itself: the file map is keyed by the path string, so
      the map is that of a file system seen through paths none of which
      names the file of another ([abc] and [./abc] are two keys), and a file
      can be written wherever its path points.  A property that needs a file
      to be found, or a write to succeed, is stated for file names
      ([file_name]: no [/], no NUL, at most 255 characters).
    - The values drawn from [uuid.uuid4()] and [datetime.now()] are
      arguments of the functions that draw them.
    - The pictographs that open some log messages are left out. *)

From Stdlib Require Import ZArith String Ascii List Bool Lia.
From stdpp Require Import base option list gmap strings pretty.
From Equations Require Import Equations.

Set Warnings "-register-all".

Local Open Scope string_scope.
Local Open Scope Z_scope.
Local Open Scope list_scope.

(** ** Python string methods *)

Module PyStr.

Definition nl : string := String "010"%char "".

(** The double quote character. *)
Definition dquote : ascii := "034"%char.

(** [str.isspace] on one character (code points below 128). *)
Definition is_space (c : ascii) : bool :=
  let n := nat_of_ascii c in
  ((9 <=? n)%nat && (n <=? 13)%nat) || ((28 <=? n)%nat && (n <=? 32)%nat).

Definition is_lower (c : ascii) : bool :=
  let n := nat_of_ascii c in (97 <=? n)%nat && (n <=? 122)%nat.

Definition is_upper (c : ascii) : bool :=
  let n := nat_of_ascii c in (65 <=? n)%nat && (n <=? 90)%nat.

Definition to_upper (c : ascii) : ascii :=
  if is_lower c then ascii_of_nat (nat_of_ascii c - 32) else c.

Definition to_lower (c : ascii) : ascii :=
  if is_upper c then ascii_of_nat (nat_of_ascii c + 32) else c.

(** [s.lstrip(chars)], the set of characters given as a predicate. *)
Fixpoint lstrip_by (p : ascii -> bool) (s : string) : string :=
  match s with
  | String c s' => if p c then lstrip_by p s' else s
  | EmptyString => EmptyString
  end.

(** [s.rstrip(chars)]. *)
Fixpoint rstrip_by (p : ascii -> bool) (s : string) : string :=
  match s with
  | String c s' =>
      match rstrip_by p s' with
      | EmptyString => if p c then EmptyString else String c EmptyString
      | r => String c r
      end
  | EmptyString => EmptyString
  end.

Definition strip_by (p : ascii -> bool) (s : string) : string :=
  rstrip_by p (lstrip_by p s).

(** [s.strip()] *)
Definition strip (s : string) : string := strip_by is_space s.

(** [s.strip(chars)] *)
Fixpoint mem_char (c : ascii) (chars : string) : bool :=
  match chars with
  | String d r => if Ascii.eqb c d then true else mem_char c r
  | EmptyString => false
  end.

Definition strip_chars (chars s : string) : string :=
  strip_by (fun c => mem_char c chars) s.

(** [s.startswith(p)] *)
Definition startswith (s p : string) : bool := String.prefix p s.

(** [s.endswith(p)] *)
Definition endswith (s p : string) : bool :=
  String.prefix (String.rev p) (String.rev s).

(** [s.count(c)] for a one-character [c]. *)
Fixpoint count_char (c : ascii) (s : string) : nat :=
  match s with
  | String d r => (if Ascii.eqb d c then 1 else 0) + count_char c r
  | EmptyString => 0
  end.

(** Number of characters [c] the string starts with. *)
Fixpoint leading (c : ascii) (s : string) : nat :=
  match s with
  | String d r => if Ascii.eqb d c then S (leading c r) else 0
  | EmptyString => 0
  end.

(** [s[:n]] *)
Fixpoint take (n : nat) (s : string) : string :=
  match n, s with
  | S n', String c r => String c (take n' r)
  | _, _ => EmptyString
  end.

(** [s.split(sep)] for a non-empty [sep]: occurrences are found left to
    right and do not overlap.  [skip] counts the characters of a matched
    separator still to be passed over, [cur] is the piece being read, in
    reverse. *)
Fixpoint split_go (sep : string) (skip : nat) (cur : string) (s : string)
  : list string :=
  match s with
  | EmptyString => [String.rev cur]
  | String c r =>
      match skip with
      | S k => split_go sep k cur r
      | O =>
          if String.prefix sep s
          then String.rev cur :: split_go sep (String.length sep - 1) "" r
          else split_go sep 0 (String c cur) r
      end
  end.

Definition split (sep s : string) : list string := split_go sep 0 "" s.

(** [sep.join(parts)] *)
Definition join (sep : string) (parts : list string) : string :=
  String.concat sep parts.

(** [s.replace(a, b)] for one-character [a] and [b]. *)
Fixpoint replace_char (a b : ascii) (s : string) : string :=
  match s with
  | String c r => String (if Ascii.eqb c a then b else c) (replace_char a b r)
  | EmptyString => EmptyString
  end.

(** [s.title()]: a letter is upper-cased when the character before it is
    not a letter and lower-cased otherwise. *)
Fixpoint title_go (prev_cased : bool) (s : string) : string :=
  match s with
  | String c r =>
      String (if prev_cased then to_lower c else to_upper c)
             (title_go (is_lower c || is_upper c) r)
  | EmptyString => EmptyString
  end.

Definition title (s : string) : string := title_go false s.

(** The characters of a string, each as a one-character string. *)
Fixpoint chars (s : string) : list string :=
  match s with
  | String c r => String c "" :: chars r
  | EmptyString => []
  end.

End PyStr.

(** ** Python values *)

(** Hashable values, the keys of a [dict]. *)
Inductive pykey :=
| KNone
| KBool (b : bool)
| KInt (z : Z)
| KStr (s : string).

Inductive pyval :=
| PNone
| PBool (b : bool)
| PInt (z : Z)
| PStr (s : string)
| PList (l : list pyval)
| PDict (d : list (pykey * pyval)).

Abbreviation pydict := (list (pykey * pyval)).

Global Instance pykey_eq_dec : EqDecision pykey.
Proof. solve_decision. Defined.

(** [True == 1] and [False == 0]: keys are compared after this. *)
Definition key_norm (k : pykey) : pykey :=
  match k with
  | KBool b => KInt (Z.b2z b)
  | _ => k
  end.

Definition key_eqb (a b : pykey) : bool :=
  bool_decide (key_norm a = key_norm b).

(** [hash(v)]: lists and dicts are unhashable. *)
Definition to_key (v : pyval) : option pykey :=
  match v with
  | PNone => Some KNone
  | PBool b => Some (KBool b)
  | PInt z => Some (KInt z)
  | PStr s => Some (KStr s)
  | PList _ | PDict _ => None
  end.

Definition of_key (k : pykey) : pyval :=
  match k with
  | KNone => PNone
  | KBool b => PBool b
  | KInt z => PInt z
  | KStr s => PStr s
  end.

Definition type_name (v : pyval) : string :=
  match v with
  | PNone => "NoneType"
  | PBool _ => "bool"
  | PInt _ => "int"
  | PStr _ => "str"
  | PList _ => "list"
  | PDict _ => "dict"
  end.

(** [bool(v)] *)
Definition truthy (v : pyval) : bool :=
  match v with
  | PNone => false
  | PBool b => b
  | PInt z => negb (z =? 0)
  | PStr s => negb (String.eqb s "")
  | PList l => match l with [] => false | _ => true end
  | PDict d => match d with [] => false | _ => true end
  end.

(** [a or b] *)
Definition py_or (a b : pyval) : pyval := if truthy a then a else b.

(** *** [repr] and [str] *)

Definition hex_digit (n : nat) : ascii :=
  if (n <? 10)%nat then ascii_of_nat (48 + n) else ascii_of_nat (87 + n).

Definition repr_char (quote c : ascii) : string :=
  let n := nat_of_ascii c in
  if Ascii.eqb c quote || Ascii.eqb c "\"%char then String "\"%char (String c "")
  else if (n =? 9)%nat then "\t"
  else if (n =? 10)%nat then "\n"
  else if (n =? 13)%nat then "\r"
  else if (n <? 32)%nat || (n =? 127)%nat
       then String "\"%char (String "x"%char
              (String (hex_digit (n / 16)) (String (hex_digit (n mod 16)) "")))
  else String c "".

Fixpoint repr_chars (quote : ascii) (s : string) : string :=
  match s with
  | String c r => repr_char quote c +:+ repr_chars quote r
  | EmptyString => EmptyString
  end.

(** [repr(s)]: single quotes, unless the text has a single quote and no
    double quote. *)
Definition repr_str (s : string) : string :=
  let quote : ascii :=
    if PyStr.mem_char "'"%char s && negb (PyStr.mem_char PyStr.dquote s)
    then PyStr.dquote else "'"%char in
  String quote (repr_chars quote s +:+ String quote "").

Definition repr_key (k : pykey) : string :=
  match k with
  | KNone => "None"
  | KBool true => "True"
  | KBool false => "False"
  | KInt z => pretty z
  | KStr s => repr_str s
  end.

Fixpoint py_repr (v : pyval) : string :=
  match v with
  | PNone => "None"
  | PBool true => "True"
  | PBool false => "False"
  | PInt z => pretty z
  | PStr s => repr_str s
  | PList l => "[" +:+ PyStr.join ", " (List.map py_repr l) +:+ "]"
  | PDict d =>
      "{" +:+ PyStr.join ", "
               (List.map (fun kv => repr_key (fst kv) +:+ ": " +:+ py_repr (snd kv)) d)
          +:+ "}"
  end.

(** [str(v)], also what an f-string field [{v}] renders. *)
Definition py_str (v : pyval) : string :=
  match v with
  | PStr s => s
  | _ => py_repr v
  end.

Definition key_str (k : pykey) : string := py_str (of_key k).

(** *** Dictionaries *)

Fixpoint dict_lookup (k : pykey) (d : pydict) : option pyval :=
  match d with
  | [] => None
  | (k', v) :: r => if key_eqb k' k then Some v else dict_lookup k r
  end.

(** [d[k] = v]: an existing key keeps its position (and its key object),
    a new key goes last. *)
Fixpoint dict_set (k : pykey) (v : pyval) (d : pydict) : pydict :=
  match d with
  | [] => [(k, v)]
  | (k', v') :: r =>
      if key_eqb k' k then (k', v) :: r else (k', v') :: dict_set k v r
  end.

(** The dict built by inserting the items from left to right. *)
Definition dict_of_items (items : pydict) : pydict :=
  fold_left (fun acc kv => dict_set (fst kv) (snd kv) acc) items [].

(** [{**a, **b}] *)
Definition dict_merge (a b : pydict) : pydict := dict_of_items (a ++ b).

(** [d.get(k, default)] on a dict with a string key. *)
Definition dict_get (d : pydict) (k : string) (default : pyval) : pyval :=
  match dict_lookup (KStr k) d with
  | Some v => v
  | None => default
  end.

(** ** Exceptions *)

Inductive exn_kind :=
| Exception
| ValueError
| TypeError
| AttributeError
| KeyError
| FileNotFoundError
| JSONDecodeError.

(** An exception object: its class and [str(e)].  The text of the errors
    the interpreter raises follows CPython's wording. *)
Inductive exn := Raise (kind : exn_kind) (msg : string).

Definition exn_kind_of (e : exn) : exn_kind := let 'Raise k _ := e in k.
Definition exn_str (e : exn) : string := let 'Raise _ m := e in m.

Inductive result (A : Type) :=
| Ok (a : A)
| Err (e : exn).
Arguments Ok {A} a.
Arguments Err {A} e.

Global Instance result_ret : MRet result := fun A a => Ok a.
Global Instance result_bind : MBind result := fun A B f m =>
  match m with
  | Ok a => f a
  | Err e => Err e
  end.
Global Instance result_fmap : FMap result := fun A B f m =>
  match m with
  | Ok a => Ok (f a)
  | Err e => Err e
  end.

Definition no_attribute {A} (v : pyval) (attr : string) : result A :=
  Err (Raise AttributeError
         ("'" +:+ type_name v +:+ "' object has no attribute '" +:+ attr +:+ "'")).

Definition type_error {A} (msg : string) : result A := Err (Raise TypeError msg).

(** [v.get(k, default)] *)
Definition py_get (v : pyval) (k : string) (default : pyval) : result pyval :=
  match v with
  | PDict d => Ok (dict_get d k default)
  | _ => no_attribute v "get"
  end.

(** [v.items()] *)
Definition py_items (v : pyval) : result pydict :=
  match v with
  | PDict d => Ok d
  | _ => no_attribute v "items"
  end.

(** [v.strip()] *)
Definition py_strip (v : pyval) : result string :=
  match v with
  | PStr s => Ok (PyStr.strip s)
  | _ => no_attribute v "strip"
  end.

(** [len(v)] *)
Definition py_len (v : pyval) : result Z :=
  match v with
  | PStr s => Ok (Z.of_nat (String.length s))
  | PList l => Ok (Z.of_nat (length l))
  | PDict d => Ok (Z.of_nat (length d))
  | _ => type_error ("object of type '" +:+ type_name v +:+ "' has no len()")
  end.

(** [k.startswith(p)] on a dict key. *)
Definition key_startswith (k : pykey) (p : string) : result bool :=
  match k with
  | KStr s => Ok (PyStr.startswith s p)
  | _ => no_attribute (of_key k) "startswith"
  end.

(** [sep.join(parts)] on a list of values: every part must be a [str]. *)
Fixpoint join_items (i : nat) (parts : list pyval) : result (list string) :=
  match parts with
  | [] => Ok []
  | PStr s :: r => rest ← join_items (S i) r; Ok (s :: rest)
  | v :: _ =>
      type_error ("sequence item " +:+ pretty i +:+ ": expected str instance, "
                    +:+ type_name v +:+ " found")
  end.

(** [sep.join(v)]: a list is joined item by item, a [str] character by
    character, a [dict] key by key. *)
Definition py_join (sep : string) (v : pyval) : result string :=
  match v with
  | PList l => parts ← join_items 0 l; Ok (PyStr.join sep parts)
  | PStr s => Ok (PyStr.join sep (PyStr.chars s))
  | PDict d => parts ← join_items 0 (List.map (fun kv => of_key (fst kv)) d);
               Ok (PyStr.join sep parts)
  | _ => type_error "can only join an iterable"
  end.

(** ** The world: files, logger, standard output *)

(** A block of a python-docx document. *)
Inductive block :=
| Heading (text : string) (level : Z)
| Paragraph (text : string).

(** A file holds text, a JSON document (the JSON files of the data
    directory hold an object at top level) or a Word document. *)
Inductive file :=
| FText (content : string)
| FJson (doc : pydict)
| FDocx (blocks : list block).

Inductive log_level := DEBUG | INFO | WARNING | ERROR.

Record world := World {
  fs : gmap string file;
  log : list (log_level * string);
  stdout : list string
}.

(** A computation that may raise and may change the world; the changes
    made before an exception is raised stay. *)
Definition Py (A : Type) : Type := world -> result A * world.

Global Instance Py_ret : MRet Py := fun A a w => (Ok a, w).
Global Instance Py_bind : MBind Py := fun A B f m w =>
  match m w with
  | (Ok a, w') => f a w'
  | (Err e, w') => (Err e, w')
  end.

Definition raise {A} (e : exn) : Py A := fun w => (Err e, w).

Definition lift {A} (r : result A) : Py A := fun w => (r, w).

(** [try: m  except Exception as e: h e] *)
Definition try_except {A} (m : Py A) (h : exn -> Py A) : Py A := fun w =>
  match m w with
  | (Ok a, w') => (Ok a, w')
  | (Err e, w') => h e w'
  end.

Definition logger (lvl : log_level) (msg : string) : Py unit := fun w =>
  (Ok tt, World (fs w) (log w ++ [(lvl, msg)]) (stdout w)).

Definition print (msg : string) : Py unit := fun w =>
  (Ok tt, World (fs w) (log w) (stdout w ++ [msg])).

(** [os.path.exists(path)] *)
Definition path_exists (path : string) : Py bool := fun w =>
  (Ok (bool_decide (is_Some (fs w !! path))), w).

Definition write_file (path : string) (f : file) : Py unit := fun w =>
  (Ok tt, World (<[path := f]> (fs w)) (log w) (stdout w)).

(** [os.path.join(a, b)] (posixpath) *)
Definition path_join2 (a b : string) : string :=
  if PyStr.startswith b "/" then b
  else if String.eqb a "" || PyStr.endswith a "/" then a +:+ b
  else a +:+ "/" +:+ b.

(** [os.path.join(a, *p)] *)
Definition path_join (a : string) (p : list string) : string :=
  fold_left path_join2 p a.

(** ** The [json] module *)

Module json.

(** The key an object member gets for a dict key. *)
Definition key_text (k : pykey) : string :=
  match k with
  | KStr s => s
  | KInt z => pretty z
  | KBool true => "true"
  | KBool false => "false"
  | KNone => "null"
  end.

(** The value [json.load] reads back from what [json.dump] wrote for
    [v]: keys have become strings, and of two members with one key the
    last one stays. *)
Fixpoint doc (v : pyval) : pyval :=
  match v with
  | PList l => PList (List.map doc l)
  | PDict d =>
      PDict (dict_of_items
               (List.map (fun kv => (KStr (key_text (fst kv)), doc (snd kv))) d))
  | _ => v
  end.

Definition doc_dict (d : pydict) : pydict :=
  dict_of_items (List.map (fun kv => (KStr (key_text (fst kv)), doc (snd kv))) d).

Definition hex4 (n : nat) : string :=
  String (hex_digit (n / 4096)) (String (hex_digit (n / 256 mod 16))
    (String (hex_digit (n / 16 mod 16)) (String (hex_digit (n mod 16)) ""))).

(** One character of a string literal ([ensure_ascii]). *)
Definition escape_char (c : ascii) : string :=
  let n := nat_of_ascii c in
  if (n =? 34)%nat then String "\"%char (String PyStr.dquote "") else if (n =? 92)%nat then "\\"
  else if (n =? 8)%nat then "\b" else if (n =? 12)%nat then "\f"
  else if (n =? 10)%nat then "\n" else if (n =? 13)%nat then "\r"
  else if (n =? 9)%nat then "\t"
  else if (n <? 32)%nat || (126 <? n)%nat then "\u" +:+ hex4 n
  else String c "".

Fixpoint escape (s : string) : string :=
  match s with
  | String c r => escape_char c +:+ escape r
  | EmptyString => EmptyString
  end.

Definition quote (s : string) : string :=
  String PyStr.dquote (escape s +:+ String PyStr.dquote "").

Fixpoint pad (n : nat) : string :=
  match n with
  | O => ""
  | S k => " " +:+ pad k
  end.

(** [json.dumps(v, indent=2)] at nesting depth [depth]. *)
Fixpoint dumps_at (depth : nat) (v : pyval) : string :=
  let inner := PyStr.nl +:+ pad (2 * S depth) in
  match v with
  | PNone => "null"
  | PBool true => "true"
  | PBool false => "false"
  | PInt z => pretty z
  | PStr s => quote s
  | PList [] => "[]"
  | PList l =>
      "[" +:+ inner +:+ PyStr.join ("," +:+ inner) (List.map (dumps_at (S depth)) l)
          +:+ PyStr.nl +:+ pad (2 * depth) +:+ "]"
  | PDict [] => "{}"
  | PDict d =>
      "{" +:+ inner
          +:+ PyStr.join ("," +:+ inner)
               (List.map (fun kv => quote (key_text (fst kv)) +:+ ": "
                                      +:+ dumps_at (S depth) (snd kv)) d)
          +:+ PyStr.nl +:+ pad (2 * depth) +:+ "}"
  end.

Definition dumps (v : pyval) : string := dumps_at 0 v.

End json.

(** [with open(path, 'w') as f: json.dump(v, f, indent=2)] *)
Definition json_dump_file (path : string) (v : pydict) : Py unit :=
  write_file path (FJson (json.doc_dict v)).

(** [with open(path, 'r') as f: return json.load(f)], for a path that
    exists.  A text file stands for a text that is no JSON document; of the
    message of the decoder, and of that of the codec for a file that is no
    text, only the part that does not depend on the content is kept. *)
Definition json_load_file (path : string) : Py pydict := fun w =>
  match fs w !! path with
  | Some (FJson d) => (Ok d, w)
  | Some (FText _) => (Err (Raise JSONDecodeError "Expecting value"), w)
  | Some (FDocx _) => (Err (Raise ValueError "'utf-8' codec can't decode"), w)
  | None => (Err (Raise FileNotFoundError
                    ("[Errno 2] No such file or directory: " +:+ repr_str path)), w)
  end.

(** [with open(path, 'r') as f: return f.read()], for a text file. *)
Definition read_file (path : string) : Py string := fun w =>
  match fs w !! path with
  | Some (FText s) => (Ok s, w)
  | Some (FJson d) => (Ok (json.dumps (PDict d)), w)
  | Some (FDocx _) => (Err (Raise ValueError "'utf-8' codec can't decode"), w)
  | None => (Err (Raise FileNotFoundError
                    ("[Errno 2] No such file or directory: " +:+ repr_str path)), w)
  end.

Definition unhashable {A} (v : pyval) : result A :=
  type_error ("unhashable type: '" +:+ type_name v +:+ "'").

(** [v in d] for a dict [d] *)
Definition dict_contains (d : pydict) (v : pyval) : result bool :=
  match to_key v with
  | Some k => Ok (bool_decide (is_Some (dict_lookup k d)))
  | None => unhashable v
  end.

(** [d[v]] for a key known to be in [d] *)
Definition dict_item (d : pydict) (v : pyval) : result pyval :=
  match to_key v with
  | Some k =>
      match dict_lookup k d with
      | Some x => Ok x
      | None => Err (Raise KeyError (py_repr v))
      end
  | None => unhashable v
  end.

(** [{**a, **b}] on values *)
Definition py_merge (a b : pyval) : result pyval :=
  match a, b with
  | PDict da, PDict db => Ok (PDict (dict_merge da db))
  | PDict _, _ => type_error ("'" +:+ type_name b +:+ "' object is not a mapping")
  | _, _ => type_error ("'" +:+ type_name a +:+ "' object is not a mapping")
  end.

(** [v + n] for an integer [n] *)
Definition py_add_int (v : pyval) (n : Z) : result pyval :=
  match v with
  | PInt z => Ok (PInt (z + n))
  | PBool b => Ok (PInt (Z.b2z b + n))
  | _ => type_error ("unsupported operand type(s) for +: '" +:+ type_name v
                       +:+ "' and 'int'")
  end.

(** ** [app/services/repo_info_service.py] *)

Module RepoInfoExtractor.

(** The four traversals of the cloned repository. *)
Record t := {
  _extract_readme : string -> Py pyval;
  _extract_policies : string -> Py pydict;
  _extract_dependencies : string -> Py pydict;
  _extract_documentation : string -> Py pydict
}.

(** The [info] dict of [extract]. *)
Definition info (readme : pyval) (policies dependencies documentation : pydict)
  : pydict :=
  [ (KStr "readme", readme);
    (KStr "policies", PDict policies);
    (KStr "dependencies", PDict dependencies);
    (KStr "documentation", PDict documentation) ].

Definition extract (self : t) (repo_path : string) : Py pydict :=
  _ ← logger INFO ("Extracting repository information from: " +:+ repo_path);
  readme ← _extract_readme self repo_path;
  policies ← _extract_policies self repo_path;
  dependencies ← _extract_dependencies self repo_path;
  documentation ← _extract_documentation self repo_path;
  _ ← logger INFO ("Extracted: " +:+ pretty (length policies) +:+ " policies, "
                     +:+ pretty (length dependencies) +:+ " dependency files");
  mret (info readme policies dependencies documentation).

End RepoInfoExtractor.

(** ** [app/services/analysis_service.py] *)

Module AnalysisService.

Record t := {
  data_dir : string;
  plan : pyval;
  (** [analysis_engine.codet5_analyzer.CodeT5Analyzer.analyze] *)
  codet5_analyzer : string -> pydict -> Py (list pyval);
  repo_extractor : RepoInfoExtractor.t
}.

Definition dict_path (self : t) : string :=
  path_join (data_dir self) ["findings_dictionary.json"].

(** One turn of the loop of [_enrich_findings]. *)
Definition enrich_one (findings_dict : pydict) (finding : pyval) : Py pyval :=
  keyword ← lift (py_get finding "shortform_keyword" PNone);
  hit ← lift (dict_contains findings_dict keyword);
  if hit : bool then
    entry ← lift (dict_item findings_dict keyword);
    lift (py_merge finding entry)
  else
    _ ← logger DEBUG ("   Finding '" +:+ py_str keyword
                        +:+ "' not in dictionary, keeping as-is");
    mret finding.

(** The loop of [_enrich_findings]; [enriched] is the list built so far. *)
Fixpoint enrich_loop (findings_dict : pydict) (findings enriched : list pyval)
  : Py (list pyval) :=
  match findings with
  | [] => mret enriched
  | finding :: rest =>
      enriched_finding ← enrich_one findings_dict finding;
      enrich_loop findings_dict rest (enriched ++ [enriched_finding])
  end.

Definition _enrich_findings (self : t) (findings : list pyval) : Py (list pyval) :=
  present ← path_exists (dict_path self);
  if negb present then
    _ ← logger WARNING ("Findings dictionary not found at: " +:+ dict_path self);
    mret findings
  else
    findings_dict ← json_load_file (dict_path self);
    enrich_loop findings_dict findings [].

(** The loop of [_generate_summary]. *)
Fixpoint count_severities (findings : list pyval) (severity_counts : pydict)
  : result pydict :=
  match findings with
  | [] => Ok severity_counts
  | finding :: rest =>
      severity ← py_get finding "severity" (PStr "UNKNOWN");
      match to_key severity with
      | None => unhashable severity
      | Some k =>
          let old := default (PInt 0) (dict_lookup k severity_counts) in
          new ← py_add_int old 1;
          count_severities rest (dict_set k new severity_counts)
      end
  end.

Definition _generate_summary (findings : list pyval) : result pydict :=
  severity_counts ← count_severities findings [];
  Ok [ (KStr "total_findings", PInt (Z.of_nat (length findings)));
       (KStr "severity_breakdown", PDict severity_counts) ].

Definition results_path (data_dir scan_id : string) : string :=
  path_join data_dir ["scanned_results"; scan_id +:+ ".json"].

Definition _save_scan_results (self : t) (scan_id : string) (results : pydict)
  : Py unit :=
  let results_path := results_path (data_dir self) scan_id in
  _ ← json_dump_file results_path results;
  logger INFO ("Scan results saved to: " +:+ results_path).

(** The [scan_results] dict of [analyze_codebase]. *)
Definition scan_results_dict (scan_id timestamp repo_path : string)
    (sector_hint plan_used : pyval) (repo_info : pydict)
    (findings : list pyval) (summary : pydict) : pydict :=
  [ (KStr "scan_id", PStr scan_id);
    (KStr "timestamp", PStr timestamp);
    (KStr "repository_path", PStr repo_path);
    (KStr "sector_hint", sector_hint);
    (KStr "plan_used", plan_used);
    (KStr "repository_info", PDict repo_info);
    (KStr "findings", PList findings);
    (KStr "summary", PDict summary) ].

(** [scan_id] and [timestamp] are the values [uuid.uuid4()] and
    [datetime.now().isoformat()] give in this run. *)
Definition analyze_codebase (self : t) (scan_id timestamp : string)
    (repo_path : string) (sector_hint : pyval) : Py pydict :=
  try_except
    (_ ← logger INFO ("Starting comprehensive analysis for: " +:+ repo_path);
     _ ← logger INFO ("Using plan: " +:+ py_str (plan self));
     _ ← logger INFO "Extracting repository context...";
     repo_info ← RepoInfoExtractor.extract (repo_extractor self) repo_path;
     _ ← logger INFO ("Running security analysis with " +:+ py_str (plan self)
                        +:+ " plan...");
     code_findings ← codet5_analyzer self repo_path repo_info;
     _ ← logger INFO "Enriching findings with knowledge base...";
     enriched_findings ← _enrich_findings self code_findings;
     summary ← lift (_generate_summary enriched_findings);
     let scan_results :=
       scan_results_dict scan_id timestamp repo_path sector_hint (plan self)
         repo_info enriched_findings summary in
     _ ← _save_scan_results self scan_id scan_results;
     _ ← logger INFO ("Analysis complete: " +:+ pretty (length enriched_findings)
                        +:+ " findings");
     mret scan_results)
    (fun e =>
       _ ← logger ERROR ("Analysis failed: " +:+ exn_str e);
       raise (Raise Exception ("Analysis failed: " +:+ exn_str e))).

End AnalysisService.

(** ** python-docx and the external generator *)

Module docx.

(** A character that a text of the document may hold.  python-docx
    writes the text into XML, and lxml refuses a control character other
    than the tab, the line feed and the carriage return. *)
Definition xml_char (c : ascii) : bool :=
  let n := nat_of_ascii c in
  (n =? 9)%nat || (n =? 10)%nat || (n =? 13)%nat || (32 <=? n)%nat.

Fixpoint xml_text (s : string) : bool :=
  match s with
  | String c r => xml_char c && xml_text r
  | EmptyString => true
  end.

(** The [ValueError] of lxml for a text it refuses. *)
Definition incompatible : exn :=
  Raise ValueError
    "All strings must be XML compatible: Unicode or ASCII, no NULL bytes or control characters".

(** [doc.add_paragraph(text)] *)
Definition add_paragraph (doc : list block) (text : string) : result (list block) :=
  if xml_text text then Ok (doc ++ [Paragraph text]) else Err incompatible.

(** [doc.add_heading(text, level)]: the level is checked first, then the
    text is added as a paragraph is. *)
Definition add_heading (doc : list block) (text : string) (level : Z)
  : result (list block) :=
  if (0 <=? level) && (level <=? 9) then
    if xml_text text then Ok (doc ++ [Heading text level]) else Err incompatible
  else Err (Raise ValueError ("level must be in range 0-9, got " +:+ pretty level)).

End docx.

(** What reading an attribute of a foreign object does. *)
Inductive attr :=
| AttrMissing
| AttrRaises (e : exn)
| AttrValue (v : pyval).

(** The response object of [genai]: its [text] attribute and [str(response)]. *)
Record response := {
  response_text : attr;
  response_str : result string
}.

(** [genai.GenerativeModel]: what [generate_content(prompt)] does. *)
Record GenerativeModel := {
  generate_content : string -> result response
}.

(** [getattr(response, 'text', str(response))]: the default is evaluated
    first; only a missing attribute selects it. *)
Definition getattr_text (r : response) : result pyval :=
  default ← response_str r;
  match response_text r with
  | AttrMissing => Ok (PStr default)
  | AttrRaises e => Err e
  | AttrValue v => Ok v
  end.

(** [v.replace(a, b)] for one-character [a] and [b] *)
Definition py_replace_char (v : pyval) (a b : ascii) : result string :=
  match v with
  | PStr s => Ok (PyStr.replace_char a b s)
  | _ => no_attribute v "replace"
  end.

(** [v.split(sep)] *)
Definition py_split (v : pyval) (sep : string) : result (list string) :=
  match v with
  | PStr s => Ok (PyStr.split sep s)
  | _ => no_attribute v "split"
  end.

(** [for x in v]: the values a loop over [v] visits. *)
Definition py_iter (v : pyval) : result (list pyval) :=
  match v with
  | PList l => Ok l
  | PStr s => Ok (List.map PStr (PyStr.chars s))
  | PDict d => Ok (List.map (fun kv => of_key (fst kv)) d)
  | _ => type_error ("'" +:+ type_name v +:+ "' object is not iterable")
  end.

(** ** [app/services/report_service.py] *)

Module ReportService.

Record t := {
  data_dir : string;
  templates_dir : string;
  model : option GenerativeModel
}.

Definition template_mapping : pydict :=
  [ (KStr "regulatory_compliance", PStr "regulatory_compliance_template.md");
    (KStr "technical_operational", PStr "technical_operational_template.md");
    (KStr "business_focused", PStr "business_focused_template.md") ].

Definition _load_template (self : t) (report_type : pyval) : Py string :=
  template_file ← lift (match to_key report_type with
                        | Some k => Ok (default PNone (dict_lookup k template_mapping))
                        | None => unhashable report_type
                        end);
  if negb (truthy template_file) then
    raise (Raise ValueError ("Unknown report type: " +:+ py_str report_type))
  else
    let template_path := path_join (templates_dir self) [py_str template_file] in
    present ← path_exists template_path;
    if negb present then
      raise (Raise FileNotFoundError ("Template not found: " +:+ template_path))
    else read_file template_path.

Definition prompt (scan_results : pydict) (template report_name : string) : string :=
  PyStr.join PyStr.nl
    [ "";
      "        You are a professional security report generator. Use the provided template and security scan data to create a comprehensive "
        +:+ report_name +:+ " report.";
      "";
      "        TEMPLATE:";
      "        " +:+ template;
      "";
      "        SECURITY SCAN DATA:";
      "        " +:+ json.dumps (PDict scan_results);
      "";
      "        Instructions:";
      "        1. Follow the template structure exactly";
      "        2. Replace placeholders with actual data from the scan results";
      "        3. Write in professional, clear language";
      "        4. Include specific findings with file paths and line numbers where applicable";
      "        5. Provide actionable recommendations";
      "        6. Ensure compliance mappings are accurate";
      "        ";
      "        Generate the complete report:";
      "        " ].

(** *** The local generator, section by section *)

(** The loop that looks for a README among [repo_info['found']]. *)
Fixpoint find_readme (items : pydict) : result pyval :=
  match items with
  | [] => Ok PNone
  | (k, v) :: rest =>
      is_readme ← key_startswith k "README";
      if is_readme : bool then py_get v "content" PNone else find_readme rest
  end.

(** [excerpt + ('...' if len(text) > n else '')] with
    [excerpt = text.strip()[:n]] *)
Definition excerpt_of (n : nat) (text : pyval) : result string :=
  stripped ← py_strip text;
  len ← py_len text;
  Ok (PyStr.take n stripped +:+ (if Z.of_nat n <? len then "..." else "")).

Definition executive_summary (repo_info : pyval) (parts : list pyval)
  : result (list pyval) :=
  let parts := parts ++ [PStr (PyStr.nl +:+ PyStr.nl +:+ "## Executive Summary")] in
  found ← py_get repo_info "found" (PDict []);
  items ← py_items found;
  readme_text ← find_readme items;
  if truthy readme_text then
    excerpt ← excerpt_of 1200 readme_text;
    Ok (parts ++ [PStr "Context from repository README:"; PStr excerpt])
  else
    Ok (parts ++ [PStr "No README found; executive summary is derived from scan findings and templates."]).

Definition scan_summary (scan_results : pydict) (parts : list pyval)
  : result (list pyval) :=
  let parts := parts ++ [PStr (PyStr.nl +:+ PyStr.nl +:+ "## Scan Summary")] in
  let summary := dict_get scan_results "summary" (PDict []) in
  total ← py_get summary "total_findings" (PInt 0);
  let parts := parts ++ [PStr ("- Total findings: " +:+ py_str total)] in
  severity ← py_get summary "severity_breakdown" (PDict []);
  items ← py_items severity;
  Ok (parts ++ List.map (fun kv => PStr ("- " +:+ key_str (fst kv) +:+ ": "
                                          +:+ py_str (snd kv))) items).

(** The body of the loop over the findings; [idx] counts from 1. *)
Definition finding_block (idx : nat) (f : pyval) (parts : list pyval)
  : result (list pyval) :=
  title ← py_get f "title" PNone;
  title ← (if truthy title then Ok title else py_get f "shortform_keyword" PNone);
  short ← py_get f "shortform_keyword" PNone;
  path ← py_get f "file_path" PNone;
  let path := py_or path (PStr "N/A") in
  line ← py_get f "line_number" PNone;
  sev ← py_get f "severity" PNone;
  desc ← py_get f "description" PNone;
  let desc := py_or desc (PStr "") in
  snippet ← py_get f "context_snippet" PNone;
  let snippet := py_or snippet (PStr "") in
  remediation ← py_get f "remediation" PNone;
  let remediation := py_or remediation (PStr "Refer to template remediation.") in
  compliance ← py_get f "compliance" PNone;
  let compliance := py_or compliance (PList []) in
  let parts := parts ++
    [ PStr ("### " +:+ pretty idx +:+ ". " +:+ py_str title +:+ " (" +:+ py_str short +:+ ")");
      PStr ("- Severity: " +:+ py_str sev);
      PStr ("- Location: " +:+ py_str path +:+ ":" +:+ py_str line) ] in
  let parts := if truthy desc
               then parts ++ [PStr ("- Description: " +:+ py_str desc)] else parts in
  parts ← (if truthy snippet then
             stripped ← py_strip snippet;
             Ok (parts ++ [ PStr (PyStr.nl +:+ "**Evidence (code snippet):**");
                            PStr "```";
                            PStr (PyStr.take 800 stripped);
                            PStr "```" ])
           else Ok parts);
  let parts := parts ++ [PStr ("- Recommendation: " +:+ py_str remediation)] in
  parts ← (if truthy compliance then
             joined ← py_join ", " compliance;
             Ok (parts ++ [PStr ("- Compliance mappings: " +:+ joined)])
           else Ok parts);
  Ok (parts ++ [PStr PyStr.nl]).

Fixpoint findings_loop (idx : nat) (findings : list pyval) (parts : list pyval)
  : result (list pyval) :=
  match findings with
  | [] => Ok parts
  | f :: rest =>
      parts ← finding_block idx f parts;
      findings_loop (S idx) rest parts
  end.

Definition detailed_findings (scan_results : pydict) (parts : list pyval)
  : result (list pyval) :=
  let parts := parts ++ [PStr (PyStr.nl +:+ PyStr.nl +:+ "## Detailed Findings and Analysis")] in
  let findings := dict_get scan_results "findings" (PList []) in
  if negb (truthy findings) then
    Ok (parts ++ [PStr "No findings detected during automated analysis."])
  else
    items ← py_iter findings;
    findings_loop 1 items parts.

Definition gemini_section (scan_results : pydict) (parts : list pyval)
  : result (list pyval) :=
  let gemini_analysis := dict_get scan_results "gemini_analysis" (PDict []) in
  if truthy gemini_analysis then
    let parts := parts ++ [PStr (PyStr.nl +:+ PyStr.nl +:+ "## Gemini Analysis")] in
    items ← py_items gemini_analysis;
    Ok (parts ++ flat_map (fun kv => [PStr ("### " +:+ key_str (fst kv)); snd kv]) items)
  else Ok parts.

Fixpoint policy_loop (items : pydict) (parts : list pyval) : result (list pyval) :=
  match items with
  | [] => Ok parts
  | (ppath, content) :: rest =>
      excerpt ← excerpt_of 1000 content;
      policy_loop rest (parts ++ [PStr ("### " +:+ key_str ppath); PStr excerpt])
  end.

Definition policy_section (repo_info : pyval) (parts : list pyval)
  : result (list pyval) :=
  policy_files ← py_get repo_info "policy_files" PNone;
  if truthy policy_files then
    let parts := parts ++ [PStr (PyStr.nl +:+ PyStr.nl +:+ "## Repository Policies (excerpts)")] in
    policy_files ← py_get repo_info "policy_files" (PDict []);
    items ← py_items policy_files;
    policy_loop items parts
  else Ok parts.

Definition closing_parts : list pyval :=
  [ PStr (PyStr.nl +:+ PyStr.nl +:+ "## Methodology");
    PStr "Automated scanners used:";
    PStr "- CodeT5-based static heuristics (pattern checks)";
    PStr "- SCA heuristics scanning requirements.txt and package.json";
    PStr "- Repository context extractor for README and policy files";
    PStr (PyStr.nl +:+ PyStr.nl +:+ "## Limitations");
    PStr "- The CodeT5 analyzer currently only processes Python files; other languages may not be covered.";
    PStr "- SCA is heuristic-based and does not perform CVE lookups or transitive analysis.";
    PStr "- This automated report is intended as a starting point; manual review is recommended for high-severity findings.";
    PStr (PyStr.nl +:+ PyStr.nl +:+ "-- End of report (generated locally) --") ].

(** The list [parts] of [_local_generate] before the final join. *)
Definition local_parts (scan_results : pydict) (template : string)
    (report_type : pyval) : result (list pyval) :=
  report_name ← py_replace_char report_type "_" " ";
  let parts := [ PStr ("# " +:+ PyStr.title report_name +:+ " (Local Generated)");
                 PStr PyStr.nl;
                 PStr template ] in
  let repo_info := dict_get scan_results "repo_info" (PDict []) in
  parts ← executive_summary repo_info parts;
  parts ← scan_summary scan_results parts;
  parts ← detailed_findings scan_results parts;
  parts ← gemini_section scan_results parts;
  parts ← policy_section repo_info parts;
  Ok (parts ++ closing_parts).

Definition _local_generate (scan_results : pydict) (template : string)
    (report_type : pyval) : result string :=
  parts ← local_parts scan_results template report_type;
  strs ← join_items 0 parts;
  Ok (PyStr.join (PyStr.nl +:+ PyStr.nl) strs).

Definition _generate_with_gemini (self : t) (scan_results : pydict)
    (template : string) (report_type : pyval) : Py pyval :=
  report_name ← lift (py_replace_char report_type "_" " ");
  let prompt := prompt scan_results template report_name in
  match model self with
  | None => lift (PStr <$> _local_generate scan_results template report_type)
  | Some m =>
      try_except
        (response ← lift (generate_content m prompt);
         lift (getattr_text response))
        (fun e =>
           _ ← print ("[ReportService] Gemini generation failed: " +:+ exn_str e);
           lift (PStr <$> _local_generate scan_results template report_type))
  end.

Definition _load_scan_results (self : t) (scan_id : pyval) : Py pydict :=
  let results_path :=
    path_join (data_dir self) ["scanned_results"; py_str scan_id +:+ ".json"] in
  present ← path_exists results_path;
  if negb present then
    raise (Raise FileNotFoundError
             ("Scan results not found for ID: " +:+ py_str scan_id))
  else json_load_file results_path.

(** The loop of [_format_and_save_report] over the blocks of the content. *)
Fixpoint format_blocks (paragraphs : list string) (doc : list block)
  : result (list block) :=
  match paragraphs with
  | [] => Ok doc
  | paragraph :: rest =>
      if negb (String.eqb (PyStr.strip paragraph) "") then
        if PyStr.startswith paragraph "#" then
          let level := Z.of_nat (PyStr.count_char "#" paragraph) in
          let text := PyStr.strip (PyStr.strip_chars "#" paragraph) in
          doc ← docx.add_heading doc text level;
          format_blocks rest doc
        else
          doc ← docx.add_paragraph doc (PyStr.strip paragraph);
          format_blocks rest doc
      else format_blocks rest doc
  end.

(** [timestamp] is [datetime.now().strftime("%Y%m%d_%H%M%S")]. *)
Definition _format_and_save_report (self : t) (timestamp : string)
    (content scan_id report_type : pyval) : Py string :=
  let reports_dir := path_join (data_dir self) ["generated_reports"] in
  let filename := py_str report_type +:+ "_" +:+ py_str scan_id +:+ "_"
                    +:+ timestamp +:+ ".docx" in
  let report_path := path_join reports_dir [filename] in
  report_name ← lift (py_replace_char report_type "_" " ");
  doc ← lift (docx.add_heading []
                ("Security " +:+ PyStr.title report_name +:+ " Report") 0);
  paragraphs ← lift (py_split content (PyStr.nl +:+ PyStr.nl));
  doc ← lift (format_blocks paragraphs doc);
  _ ← write_file report_path (FDocx doc);
  mret report_path.

Definition generate_report (self : t) (timestamp : string)
    (scan_id report_type : pyval) : Py string :=
  try_except
    (_ ← print ("[ReportService] generate_report called with scan_id="
                  +:+ py_str scan_id +:+ ", report_type=" +:+ py_str report_type);
     scan_results ← _load_scan_results self scan_id;
     n ← lift (py_len (dict_get scan_results "findings" (PList [])));
     _ ← print ("[ReportService] Loaded scan results for " +:+ py_str scan_id
                  +:+ "; findings=" +:+ pretty n);
     template ← _load_template self report_type;
     _ ← print ("[ReportService] Loaded template for " +:+ py_str report_type
                  +:+ " (length=" +:+ pretty (String.length template) +:+ " chars)");
     report_content ← _generate_with_gemini self scan_results template report_type;
     _format_and_save_report self timestamp report_content scan_id report_type)
    (fun e => raise (Raise Exception ("Report generation failed: " +:+ exn_str e))).

End ReportService.

(** ** Well-formed inputs *)

(** The keys of a dict are pairwise different (as Python compares them). *)
Definition dict_wf (d : pydict) : Prop := NoDup (key_norm <$> d.*1).

Global Instance dict_wf_dec (d : pydict) : Decision (dict_wf d).
Proof. unfold dict_wf. apply _. Defined.

(** [finding.get('shortform_keyword')] *)
Definition keyword_of (fd : pydict) : pyval := dict_get fd "shortform_keyword" PNone.

(** A finding the enrichment loop accepts: a dict whose keyword is
    hashable and whose knowledge-base entry, if there is one, is a dict. *)
Definition enrichable (findings_dict : pydict) (finding : pyval) : bool :=
  match finding with
  | PDict fd =>
      match to_key (keyword_of fd) with
      | Some k =>
          match dict_lookup k findings_dict with
          | Some (PDict _) | None => true
          | Some _ => false
          end
      | None => false
      end
  | _ => false
  end.

(** The findings the enrichment accepts under the knowledge base [K]
    ([None]: the dictionary file is absent, and nothing is looked at). *)
Definition findings_ok (K : option pydict) (F : list pyval) : bool :=
  match K with
  | Some Kd => forallb (enrichable Kd) F
  | None => true
  end.

(** The knowledge-base entry of a finding, if it has one. *)
Definition entry_of (findings_dict : pydict) (finding : pyval) : option pyval :=
  match finding with
  | PDict fd => k ← to_key (keyword_of fd); dict_lookup k findings_dict
  | _ => None
  end.

(** An analysis service on [data_dir] whose collaborators find nothing. *)
Definition idle_extractor : RepoInfoExtractor.t :=
  {| RepoInfoExtractor._extract_readme := fun _ => mret PNone;
     RepoInfoExtractor._extract_policies := fun _ => mret [];
     RepoInfoExtractor._extract_dependencies := fun _ => mret [];
     RepoInfoExtractor._extract_documentation := fun _ => mret [] |}.

Definition idle_service (data_dir : string) : AnalysisService.t :=
  {| AnalysisService.data_dir := data_dir;
     AnalysisService.plan := PStr "basic";
     AnalysisService.codet5_analyzer := fun _ _ => mret [];
     AnalysisService.repo_extractor := idle_extractor |}.

(** ** Sample data *)

(** A world whose data directory [data] holds the knowledge base [K]. *)
Definition kb_world (K : pydict) : world :=
  World {[ "data/findings_dictionary.json" := FJson K ]} [] [].

Definition empty_world : world := World ∅ [] [].

Definition secret_low : pydict :=
  [ (KStr "shortform_keyword", PStr "HARDCODED_SECRET");
    (KStr "severity", PStr "LOW");
    (KStr "file_path", PStr "app/config.py") ].

Definition weak_hash : pydict :=
  [ (KStr "shortform_keyword", PStr "WEAK_HASH"); (KStr "severity", PStr "LOW") ].

Definition secret_entry : pydict :=
  [ (KStr "title", PStr "Hardcoded secret"); (KStr "severity", PStr "HIGH") ].

Definition small_kb : pydict := [ (KStr "HARDCODED_SECRET", PDict secret_entry) ].

(** ** Reading a summary *)

(** [finding.get('severity', 'UNKNOWN')] as a dict key; [None] for a
    finding that is no dict or whose severity is unhashable. *)
Definition severity_of (finding : pyval) : option pykey :=
  match finding with
  | PDict fd => to_key (dict_get fd "severity" (PStr "UNKNOWN"))
  | _ => None
  end.

(** The findings [_generate_summary] accepts. *)
Definition summarizable (F : list pyval) : bool :=
  forallb (fun f => bool_decide (is_Some (severity_of f))) F.

Definition has_severity (k : pykey) (finding : pyval) : bool :=
  match severity_of finding with
  | Some k' => key_eqb k' k
  | None => false
  end.

(** How many findings of [F] have the severity [k]. *)
Definition count_severity (k : pykey) (F : list pyval) : nat :=
  length (List.filter (has_severity k) F).

(** The member of the breakdown for a severity seen [n] times. *)
Definition breakdown_entry (n : nat) : option pyval :=
  match n with
  | O => None
  | S _ => Some (PInt (Z.of_nat n))
  end.

Definition int_of (v : pyval) : Z :=
  match v with
  | PInt z => z
  | _ => 0
  end.

(** The sum of the counts of a breakdown. *)
Definition dict_total (d : pydict) : Z :=
  foldr (fun kv s => int_of (snd kv) + s) 0 d.

(** Every value of the dict is a positive integer. *)
Definition positive_counts (d : pydict) : Prop :=
  Forall (fun kv => exists n : Z, snd kv = PInt n /\ 0 < n) d.

Definition no_severity : pydict :=
  [ (KStr "shortform_keyword", PStr "OPEN_REDIRECT") ].

Definition three_findings : list pyval :=
  [ PDict secret_low; PDict no_severity; PDict weak_hash ].

(** ** The store of scan records *)

(** A value that [json.dump] and [json.load] give back as it is: every
    dict in it has string keys, no two of them equal. *)
Fixpoint json_stable (v : pyval) : bool :=
  match v with
  | PList l => forallb json_stable l
  | PDict d =>
      forallb (fun kv => match fst kv with KStr _ => json_stable (snd kv) | _ => false end) d
      && bool_decide (dict_wf d)
  | _ => true
  end.


(** The world after the records of [saves] are saved, in order. *)
Definition store_after (a : AnalysisService.t) (saves : list (string * pydict))
    (w : world) : world :=
  fold_left (fun w s => snd (AnalysisService._save_scan_results a (fst s) (snd s) w))
    saves w.

Definition plain_report_service (data_dir : string) : ReportService.t :=
  {| ReportService.data_dir := data_dir;
     ReportService.templates_dir := "templates";
     ReportService.model := None |}.

(** ** The generator and the report type *)




(** The scan record of a run on a repository with a README. *)
Definition sample_record : pydict :=
  AnalysisService.scan_results_dict
    "0b8e3c1a-5d2f-4e7a-9c31-7f6a2d9e4b10" "2024-05-01T10:00:00" "PulledCode/portal"
    (PStr "healthcare") (PStr "basic")
    (RepoInfoExtractor.info (PStr "Patient portal for the clinic.") [] [] [])
    three_findings
    [ (KStr "total_findings", PInt 3);
      (KStr "severity_breakdown",
       PDict [ (KStr "LOW", PInt 2); (KStr "UNKNOWN", PInt 1) ]) ].

Definition sample_id : string := "0b8e3c1a-5d2f-4e7a-9c31-7f6a2d9e4b10".

(** A world that holds [sample_record] and the three templates. *)
Definition report_world : world :=
  World
    (<[ "data/scanned_results/0b8e3c1a-5d2f-4e7a-9c31-7f6a2d9e4b10.json"
          := FJson sample_record ]>
       (<[ "templates/regulatory_compliance_template.md" := FText "# Compliance" ]>
          (<[ "templates/technical_operational_template.md" := FText "# Technical" ]>
             (<[ "templates/business_focused_template.md" := FText "# Business" ]> ∅))))
    [] [].

(** ** Records the local generator accepts *)

Definition is_str (v : pyval) : bool :=
  match v with
  | PStr _ => true
  | _ => false
  end.

Definition is_ok {A} (r : result A) : bool :=
  match r with
  | Ok _ => true
  | Err _ => false
  end.

(** A finding the local generator can render: a dict whose code snippet,
    when it has one, is a string, and whose compliance mappings, when it has
    some, can be joined. *)
Definition renderable (f : pyval) : bool :=
  match f with
  | PDict fd =>
      let snippet := py_or (dict_get fd "context_snippet" PNone) (PStr "") in
      let compliance := py_or (dict_get fd "compliance" PNone) (PList []) in
      (negb (truthy snippet) || is_str snippet)
      && (negb (truthy compliance) || is_ok (py_join ", " compliance))
  | _ => false
  end.

(** The record [analyze_codebase] builds, with a summary of the shape
    [_generate_summary] returns. *)
Definition analysis_record (scan_id timestamp repo_path : string)
    (sector_hint plan_used : pyval) (repo_info : pydict) (F : list pyval)
    (n : Z) (counts : pydict) : pydict :=
  AnalysisService.scan_results_dict scan_id timestamp repo_path sector_hint
    plan_used repo_info F
    [ (KStr "total_findings", PInt n);
      (KStr "severity_breakdown", PDict counts) ].

(** An analysis service on a repository with a README, whose analyzer
    reports [three_findings]. *)
Definition portal_extractor : RepoInfoExtractor.t :=
  {| RepoInfoExtractor._extract_readme :=
       fun _ => mret (PStr "Patient portal for the clinic.");
     RepoInfoExtractor._extract_policies := fun _ => mret [];
     RepoInfoExtractor._extract_dependencies := fun _ => mret [];
     RepoInfoExtractor._extract_documentation := fun _ => mret [] |}.

Definition portal_service : AnalysisService.t :=
  {| AnalysisService.data_dir := "data";
     AnalysisService.plan := PStr "basic";
     AnalysisService.codet5_analyzer := fun _ _ => mret three_findings;
     AnalysisService.repo_extractor := portal_extractor |}.

(** A world with the three templates and nothing else. *)
Definition templates_world : world :=
  World
    (<[ "templates/regulatory_compliance_template.md" := FText "# Compliance" ]>
       (<[ "templates/technical_operational_template.md" := FText "# Technical" ]>
          (<[ "templates/business_focused_template.md" := FText "# Business" ]> ∅)))
    [] [].

(** The path of the report of [sample_id] made at [20240501_100000]. *)
Definition sample_report_path : string :=
  "data/generated_reports/regulatory_compliance_0b8e3c1a-5d2f-4e7a-9c31-7f6a2d9e4b10_20240501_100000.docx".

(** The blocks of the Word document at [path], if there is one. *)
Definition docx_at (w : world) (path : string) : option (list block) :=
  match fs w !! path with
  | Some (FDocx blocks) => Some blocks
  | _ => None
  end.

(** A finding whose title has a [#] in it. *)
Definition csharp_finding : pydict :=
  [ (KStr "shortform_keyword", PStr "UNSAFE_DESERIALIZATION");
    (KStr "title", PStr "Unsafe C# deserialization");
    (KStr "severity", PStr "HIGH") ].

(** A record of the shape [analyze_codebase] stores, whose findings the
    local generator can render. *)
Definition of_analysis (scan_results : pydict) : Prop :=
  exists scan_id timestamp repo_path sector_hint plan_used repo_info F n counts,
    scan_results
    = analysis_record scan_id timestamp repo_path sector_hint plan_used
        repo_info F n counts /\
    forallb renderable F = true.

(** ** Texts and file names *)

(** Every character of the text is a code point below 128. *)
Fixpoint ascii_text (s : string) : bool :=
  match s with
  | String c r => (nat_of_ascii c <? 128)%nat && ascii_text r
  | EmptyString => true
  end.

(** A file name: a non-empty text of at most 255 characters below 128
    that has no [/] and no NUL and is not [.] or [..]. *)
Definition file_name (s : string) : bool :=
  negb (String.eqb s "") && negb (String.eqb s ".") && negb (String.eqb s "..")
  && negb (PyStr.mem_char "/" s) && negb (PyStr.mem_char "000" s)
  && ascii_text s && (String.length s <=? 255)%nat.

(** ** Enriching, finding by finding *)

(** The finding with the fields of its knowledge-base entry laid over
    it, or the finding itself when it has no entry. *)
Definition enriched (findings_dict : pydict) (finding : pyval) : pyval :=
  match finding with
  | PDict fd =>
      match entry_of findings_dict finding with
      | Some (PDict e) => PDict (dict_merge fd e)
      | _ => finding
      end
  | _ => finding
  end.

(** ** Report types *)



(** ** A finding without a severity string *)


(** ** The formatter, block by block *)

(** [paragraph.strip()] is not empty. *)
Definition nonblank (paragraph : string) : bool :=
  negb (String.eqb (PyStr.strip paragraph) "").

(** The level [format_blocks] gives a heading block. *)
Definition heading_level (paragraph : string) : Z :=
  Z.of_nat (PyStr.count_char "#" paragraph).

(** The block a non-blank piece of the content becomes. *)
Definition block_of (paragraph : string) : block :=
  if PyStr.startswith paragraph "#"
  then Heading (PyStr.strip (PyStr.strip_chars "#" paragraph)) (heading_level paragraph)
  else Paragraph (PyStr.strip paragraph).

(** No heading block among the pieces has more than nine [#]. *)
Definition levels_ok (paragraphs : list string) : bool :=
  forallb (fun p => negb (nonblank p && PyStr.startswith p "#")
                    || (heading_level p <=? 9)) paragraphs.

(** The text of a block. *)
Definition block_text (b : block) : string :=
  match b with
  | Heading text _ => text
  | Paragraph text => text
  end.

(** What stands in a saved report: a heading of level 1 to 9, or a
    paragraph with some text. *)
Definition content_block (b : block) : Prop :=
  match b with
  | Heading _ level => 1 <= level <= 9
  | Paragraph text => text <> ""
  end.

(** ** The report file *)

(** The path [_format_and_save_report] saves the report at. *)
Definition report_path_of (self : ReportService.t) (timestamp : string)
    (scan_id report_type : pyval) : string :=
  path_join (path_join (ReportService.data_dir self) ["generated_reports"])
    [py_str report_type +:+ "_" +:+ py_str scan_id +:+ "_" +:+ timestamp +:+ ".docx"].

(** [w'] has the files and the log of [w]. *)
Definition same_files (w w' : world) : Prop :=
  fs w' = fs w /\ log w' = log w.

(** ** Layout of dicts *)

(** The keys of [ks] in the order in which they are first seen; keys that
    are equal as dict keys ([True] and [1]) count as one. *)
Fixpoint first_seen (ks : list pykey) : list pykey :=
  match ks with
  | [] => []
  | k :: rest => k :: List.filter (fun k' => negb (key_eqb k k')) (first_seen rest)
  end.

(** The severities of the findings, in their order. *)
Definition severities (F : list pyval) : list pykey := omap severity_of F.

(** The item [kv] with the value [b] gives for its key, if it gives one. *)
Definition overlay (b : pydict) (kv : pykey * pyval) : pykey * pyval :=
  (fst kv, default (snd kv) (dict_lookup (fst kv) b)).

(** The key of [kv] is not a key of [a]. *)
Definition fresh_in (a : pydict) (kv : pykey * pyval) : bool :=
  negb (bool_decide (is_Some (dict_lookup (fst kv) a))).

(** The items of [a] in their places, with the values of [b] laid over
    them, then the items of [b] that are new. *)
Definition merge_layout (a b : pydict) : pydict :=
  List.map (overlay b) a ++ List.filter (fresh_in a) b.

(** Every finding is a dict (no key twice). *)
Definition findings_wf (F : list pyval) : bool :=
  forallb (fun f => match f with
                    | PDict fd => bool_decide (dict_wf fd)
                    | _ => false
                    end) F.

(** Every entry of the knowledge base is a dict (no key twice) that does
    not define [shortform_keyword]. *)
Definition entries_plain (K : pydict) : bool :=
  forallb (fun kv => match snd kv with
                     | PDict e =>
                         bool_decide (dict_wf e)
                         && negb (bool_decide
                                    (is_Some (dict_lookup (KStr "shortform_keyword") e)))
                     | _ => false
                     end) K.

(** A summary whose breakdown has a key that is no string (a finding
    with severity [None]). *)
Definition null_severity_summary : pydict :=
  [ (KStr "total_findings", PInt 1);
    (KStr "severity_breakdown", PDict [ (KNone, PInt 1) ]) ].

(** ** Generators *)

(** A generator whose response has [text] as its text. *)
Definition answering_model (text : pyval) : GenerativeModel :=
  {| generate_content := fun _ =>
       Ok {| response_text := AttrValue text; response_str := Ok "response" |} |}.

(** A report service on [data_dir] with the generator [m]. *)
Definition generator_service (data_dir : string) (m : GenerativeModel)
  : ReportService.t :=
  {| ReportService.data_dir := data_dir;
     ReportService.templates_dir := "templates";
     ReportService.model := Some m |}.

(** The title [_format_and_save_report] gives the document. *)
Definition report_title (report_type : string) : block :=
  Heading ("Security " +:+ PyStr.title (PyStr.replace_char "_" " " report_type)
             +:+ " Report") 0.

(** * The constructors, the repository services and the routes

    [app/services/github_service.py], the traversals of
    [app/services/repo_info_service.py], the constructors of the two
    services and the handlers of [app/routes/main.py].

    Further conventions.
    - What the code asks of git, of the directories of the operating
      system, of the analyzer and of the generator is a field of a record
      of collaborators; a collaborator is any computation on the world, so
      it may raise and may change files.
    - A request handler gets the value of [request.get_json()] and returns
      the response it makes; the global [CURRENT_PLAN] is passed in and
      out. *)

(** ** More of Python *)

(** [s.replace(old, new)] for a non-empty [old]: occurrences are replaced
    left to right and do not overlap.  [skip] counts the characters of a
    matched occurrence still to be passed over. *)
Fixpoint replace_go (old new : string) (skip : nat) (s : string) : string :=
  match s with
  | EmptyString => EmptyString
  | String c r =>
      match skip with
      | S k => replace_go old new k r
      | O =>
          if String.prefix old s
          then new +:+ replace_go old new (String.length old - 1) r
          else String c (replace_go old new 0 r)
      end
  end.

Definition str_replace (old new s : string) : string := replace_go old new 0 s.

(** [v == s] for a string [s] *)
Definition py_eq_str (v : pyval) (s : string) : bool :=
  match v with
  | PStr t => String.eqb t s
  | _ => false
  end.

(** [v[k]] for a string [k] *)
Definition py_subscript (v : pyval) (k : string) : result pyval :=
  match v with
  | PDict d =>
      match dict_lookup (KStr k) d with
      | Some x => Ok x
      | None => Err (Raise KeyError (repr_str k))
      end
  | PList _ => type_error "list indices must be integers or slices, not str"
  | PStr _ => type_error "string indices must be integers, not 'str'"
  | _ => type_error ("'" +:+ type_name v +:+ "' object is not subscriptable")
  end.

(** ** The Flask application *)

(** [current_app.config], as [create_app] fills it. *)
Record app_config := {
  PULLED_CODE_DIR : string;
  DATA_DIR : string;
  TEMPLATES_DIR : string
}.

(** ** [app/services/analysis_service.py]: the constructor *)

(** The values of the configuration of the analyzer. *)
Inductive cfg :=
| CfgBool (b : bool)
| CfgInt (z : Z)
| CfgFloat (q : QArith_base.Q)
| CfgDict (items : list (string * cfg)).

(** [CodeT5Analyzer.analyze] *)
Definition analyzer : Type := string -> pydict -> Py (list pyval).

Definition inspect {A} (a : A) : {b | a = b} := exist _ a eq_refl.

(** The nested calls [_get_plan_config] may still make for [plan]. *)
Definition plan_rank (plan : pyval) : nat :=
  if py_eq_str plan "basic" then 0 else 1.

Module AnalysisServiceInit.

Equations _get_plan_config (plan : pyval) : cfg by wf (plan_rank plan) lt :=
  _get_plan_config plan with inspect (py_eq_str plan "basic") := {
    | exist _ true _ =>
        CfgDict
          [ ("regex", CfgDict [("enabled", CfgBool false); ("timeout", CfgInt 30)]);
            ("ast", CfgDict [("enabled", CfgBool false); ("timeout", CfgInt 120)]);
            ("external_tools",
             CfgDict [("enabled", CfgBool true); ("timeout", CfgInt 180)]);
            ("llm", CfgDict [("enabled", CfgBool false); ("timeout", CfgInt 120);
                             ("max_cost", CfgFloat (QArith_base.Qmake 2 1))]);
            ("deduplicate", CfgBool true);
            ("filter_low_confidence", CfgBool true) ];
    | exist _ false not_basic with py_eq_str plan "full" := {
        | true =>
            CfgDict
              [ ("regex", CfgDict [("enabled", CfgBool true); ("timeout", CfgInt 30)]);
                ("ast", CfgDict [("enabled", CfgBool true); ("timeout", CfgInt 120)]);
                ("external_tools",
                 CfgDict [("enabled", CfgBool true); ("timeout", CfgInt 180)]);
                ("llm", CfgDict [("enabled", CfgBool true); ("timeout", CfgInt 120);
                                 ("max_cost", CfgFloat (QArith_base.Qmake 2 1))]);
                ("deduplicate", CfgBool true);
                ("filter_low_confidence", CfgBool true) ];
        | false => _get_plan_config (PStr "basic") } }.
Next Obligation.
  unfold plan_rank. rewrite not_basic. simpl. lia.
Qed.

(** [AnalysisService(plan=plan)]; [CodeT5Analyzer] is the constructor of
    the analyzer, [extractor] the [RepoInfoExtractor()] it makes. *)
Definition __init__ (config : app_config) (CodeT5Analyzer : cfg -> Py analyzer)
    (extractor : RepoInfoExtractor.t) (plan : pyval) : Py AnalysisService.t :=
  let plan_config := _get_plan_config plan in
  codet5_analyzer ← CodeT5Analyzer plan_config;
  let self := {| AnalysisService.data_dir := DATA_DIR config;
                 AnalysisService.plan := plan;
                 AnalysisService.codet5_analyzer := codet5_analyzer;
                 AnalysisService.repo_extractor := extractor |} in
  _ ← logger INFO ("AnalysisService initialized with plan: " +:+ py_str plan);
  mret self.

End AnalysisServiceInit.

(** ** [app/services/repo_info_service.py]: the traversals *)

Module RepoInfo.

(** What the traversals ask of the operating system: the text of a file
    ([open(path, 'r', encoding='utf-8', errors='ignore')] and [read]),
    [os.path.isdir] and [os.listdir]. *)
Record os := {
  open_read : string -> Py string;
  isdir : string -> Py bool;
  listdir : string -> Py (list string)
}.

Definition readme_files : list string :=
  ["README.md"; "readme.md"; "README.MD"; "Readme.md"].

(** The loop of [_extract_readme] over the names still to try. *)
Fixpoint readme_loop (os : os) (repo_path : string) (names : list string)
  : Py pyval :=
  match names with
  | [] =>
      _ ← logger DEBUG "   No README found";
      mret PNone
  | readme_name :: rest =>
      let readme_path := path_join repo_path [readme_name] in
      present ← path_exists readme_path;
      if present : bool then
        found ← try_except
                  (content ← open_read os readme_path;
                   _ ← logger DEBUG ("   Found README: " +:+ readme_name);
                   mret (Some content))
                  (fun e =>
                     _ ← logger WARNING ("Error reading " +:+ readme_name +:+ ": "
                                           +:+ exn_str e);
                     mret None);
        match found with
        | Some content => mret (PStr content)
        | None => readme_loop os repo_path rest
        end
      else readme_loop os repo_path rest
  end.

Definition _extract_readme (os : os) (repo_path : string) : Py pyval :=
  readme_loop os repo_path readme_files.

(** The loop of [_extract_policies] over the names of the policy
    directory. *)
Fixpoint policy_dir_loop (os : os) (policy_dir : string) (names : list string)
    (policies : pydict) : Py pydict :=
  match names with
  | [] => mret policies
  | filename :: rest =>
      if PyStr.endswith filename ".md" then
        let file_path := path_join policy_dir [filename] in
        policies ← try_except
                     (content ← open_read os file_path;
                      let policies := dict_set (KStr filename) (PStr content) policies in
                      _ ← logger DEBUG ("   Found policy: " +:+ filename);
                      mret policies)
                     (fun e =>
                        _ ← logger WARNING ("Error reading policy " +:+ filename +:+ ": "
                                              +:+ exn_str e);
                        mret policies);
        policy_dir_loop os policy_dir rest policies
      else policy_dir_loop os policy_dir rest policies
  end.

Definition common_policy_files : list string :=
  [ "SECURITY.md"; "security.md"; "PRIVACY.md"; "privacy.md";
    "COMPLIANCE.md"; "compliance.md"; "CODE_OF_CONDUCT.md" ].

(** The loop of [_extract_policies] over the policy files of the root. *)
Fixpoint common_policy_loop (os : os) (repo_path : string) (names : list string)
    (policies : pydict) : Py pydict :=
  match names with
  | [] => mret policies
  | filename :: rest =>
      let file_path := path_join repo_path [filename] in
      present ← path_exists file_path;
      if present : bool then
        policies ← try_except
                     (content ← open_read os file_path;
                      let policies := dict_set (KStr filename) (PStr content) policies in
                      _ ← logger DEBUG ("   Found policy: " +:+ filename);
                      mret policies)
                     (fun e =>
                        _ ← logger WARNING ("Error reading " +:+ filename +:+ ": "
                                              +:+ exn_str e);
                        mret policies);
        common_policy_loop os repo_path rest policies
      else common_policy_loop os repo_path rest policies
  end.

(** [os.path.exists(policy_dir) and os.path.isdir(policy_dir)] is
    [isdir]: directories are not in the file map. *)
Definition _extract_policies (os : os) (repo_path : string) : Py pydict :=
  let policy_dir := path_join repo_path ["policies"] in
  is_dir ← isdir os policy_dir;
  policies ← (if is_dir : bool then
                names ← listdir os policy_dir;
                policy_dir_loop os policy_dir names []
              else mret []);
  common_policy_loop os repo_path common_policy_files policies.

Definition dependency_files : list (string * list string) :=
  [ ("python", ["requirements.txt"; "Pipfile"; "pyproject.toml"; "setup.py"]);
    ("javascript", ["package.json"; "package-lock.json"; "yarn.lock"]);
    ("java", ["pom.xml"; "build.gradle"; "gradle.lockfile"]);
    ("ruby", ["Gemfile"; "Gemfile.lock"]);
    ("php", ["composer.json"; "composer.lock"]);
    ("go", ["go.mod"; "go.sum"]);
    ("rust", ["Cargo.toml"; "Cargo.lock"]);
    ("dotnet", ["packages.config"; "*.csproj"]) ].

(** The inner loop of [_extract_dependencies], over the files of one
    language. *)
Fixpoint dependency_loop (os : os) (repo_path language : string) (files : list string)
    (dependencies : pydict) : Py pydict :=
  match files with
  | [] => mret dependencies
  | filename :: rest =>
      let file_path := path_join repo_path [filename] in
      present ← path_exists file_path;
      if present : bool then
        dependencies ←
          try_except
            (content ← open_read os file_path;
             let dependencies :=
               dict_set (KStr filename)
                 (PDict [ (KStr "language", PStr language);
                          (KStr "content", PStr content) ]) dependencies in
             _ ← logger DEBUG ("   Found dependency file: " +:+ filename +:+ " ("
                                 +:+ language +:+ ")");
             mret dependencies)
            (fun e =>
               _ ← logger WARNING ("Error reading " +:+ filename +:+ ": " +:+ exn_str e);
               mret dependencies);
        dependency_loop os repo_path language rest dependencies
      else dependency_loop os repo_path language rest dependencies
  end.

(** The outer loop, over the languages. *)
Fixpoint language_loop (os : os) (repo_path : string)
    (table : list (string * list string)) (dependencies : pydict) : Py pydict :=
  match table with
  | [] => mret dependencies
  | (language, files) :: rest =>
      dependencies ← dependency_loop os repo_path language files dependencies;
      language_loop os repo_path rest dependencies
  end.

Definition _extract_dependencies (os : os) (repo_path : string) : Py pydict :=
  language_loop os repo_path dependency_files [].

(** [RepoInfoExtractor()]; [walk_documentation] is
    [_extract_documentation], a walk through the documentation directories. *)
Definition new (os : os) (walk_documentation : string -> Py pydict)
  : RepoInfoExtractor.t :=
  {| RepoInfoExtractor._extract_readme := _extract_readme os;
     RepoInfoExtractor._extract_policies := _extract_policies os;
     RepoInfoExtractor._extract_dependencies := _extract_dependencies os;
     RepoInfoExtractor._extract_documentation := walk_documentation |}.

End RepoInfo.

(** ** [app/services/github_service.py] *)

Module GitHubService.

(** What cloning asks of the operating system and of git:
    [os.path.exists] on a directory, [shutil.rmtree(path,
    onerror=_remove_readonly)], [os.makedirs(path, exist_ok=True)] and
    [git.Repo.clone_from(url, to_path)]. *)
Record ops := {
  dir_exists : string -> Py bool;
  rmtree : string -> Py unit;
  makedirs : string -> Py unit;
  clone_from : string -> string -> Py unit
}.

Record t := {
  pulled_code_dir : string;
  git : ops
}.

Definition __init__ (config : app_config) (git : ops) : t :=
  {| pulled_code_dir := PULLED_CODE_DIR config; git := git |}.

(** [github_url.split('/')[-1].replace('.git', '')]; a split has a last
    piece. *)
Definition repo_name_of (github_url : string) : string :=
  str_replace ".git" "" (List.last (PyStr.split "/" github_url) "").

(** [timestamp] is [datetime.now().isoformat()]. *)
Definition _log_clone_operation (timestamp : string) (github_url clone_path : string)
  : Py unit :=
  let log_entry :=
    [ (KStr "timestamp", PStr timestamp);
      (KStr "github_url", PStr github_url);
      (KStr "local_path", PStr clone_path);
      (KStr "status", PStr "success") ] in
  print ("Repository cloned: " +:+ py_repr (PDict log_entry)).

Definition clone_repository (self : t) (timestamp : string) (github_url : pyval)
  : Py string :=
  try_except
    (present ← dir_exists (git self) (pulled_code_dir self);
     _ ← (if present : bool then rmtree (git self) (pulled_code_dir self) else mret tt);
     _ ← makedirs (git self) (pulled_code_dir self);
     parts ← lift (py_split github_url "/");
     let url := py_str github_url in
     let repo_name := str_replace ".git" "" (List.last parts "") in
     let clone_path := path_join (pulled_code_dir self) [repo_name] in
     _ ← print ("Cloning " +:+ url +:+ " to " +:+ clone_path);
     _ ← clone_from (git self) url clone_path;
     _ ← _log_clone_operation timestamp url clone_path;
     mret clone_path)
    (fun e => raise (Raise Exception ("Failed to clone repository: " +:+ exn_str e))).

End GitHubService.

(** ** [app/services/report_service.py]: the constructor *)

Module ReportServiceInit.

(** [ReportService()]; [gemini_key] is [os.getenv('GEMINI_API_KEY')],
    [GenerativeModel key name] is [genai.configure(api_key=key)] followed by
    [genai.GenerativeModel(name)]. *)
Definition __init__ (config : app_config) (gemini_key : option string)
    (GenerativeModel : string -> string -> result GenerativeModel)
  : Py ReportService.t :=
  let self model := {| ReportService.data_dir := DATA_DIR config;
                       ReportService.templates_dir := TEMPLATES_DIR config;
                       ReportService.model := model |} in
  match gemini_key with
  | Some (String c key) =>
      try_except
        (model ← lift (GenerativeModel (String c key) "gemini-2.5-pro");
         mret (self (Some model)))
        (fun e =>
           _ ← print ("[ReportService] Gemini init failed: " +:+ exn_str e);
           mret (self None))
  | _ =>
      _ ← print "[ReportService] GEMINI_API_KEY not set — using local report generator fallback.";
      mret (self None)
  end.

End ReportServiceInit.

(** ** [app/routes/main.py] *)

Module Main.

(** What a request handler returns: [jsonify(body)] with its status (200
    when none is given), or [send_file(path, as_attachment=True)]. *)
Inductive http_response :=
| JsonResponse (status : Z) (body : pydict)
| FileResponse (path : string).

(** The application around the handlers: its configuration, the
    environment variable of the generator, and the collaborators the
    services construct. *)
Record env := {
  config : app_config;
  GEMINI_API_KEY : option string;
  GenerativeModel : string -> string -> result GenerativeModel;
  CodeT5Analyzer : cfg -> Py analyzer;
  os : RepoInfo.os;
  walk_documentation : string -> Py pydict;
  git : GitHubService.ops
}.

(** [send_file(path, as_attachment=True)] *)
Definition send_file (path : string) : Py http_response :=
  present ← path_exists path;
  if present : bool then mret (FileResponse path)
  else raise (Raise FileNotFoundError
                ("[Errno 2] No such file or directory: " +:+ repr_str path)).

Definition error_response (status : Z) (message : string) : http_response :=
  JsonResponse status [ (KStr "status", PStr "error"); (KStr "message", PStr message) ].

(** [get_json] is [request.get_json()]; the handler returns its response
    and the value it leaves in the global [CURRENT_PLAN]. *)
Definition change_plan (get_json : result pyval) (CURRENT_PLAN : pyval)
  : Py (http_response * pyval) :=
  try_except
    (data ← lift get_json;
     new_plan ← lift (py_get data "plan" PNone);
     if negb (py_eq_str new_plan "basic" || py_eq_str new_plan "full") then
       mret (error_response 400 "Invalid plan", CURRENT_PLAN)
     else
       let CURRENT_PLAN := new_plan in
       _ ← print ("[/api/change-plan] Plan changed to: " +:+ py_str new_plan);
       mret (JsonResponse 200
               [ (KStr "status", PStr "success");
                 (KStr "plan", new_plan);
                 (KStr "message", PStr ("Plan changed to " +:+ py_str new_plan)) ],
             CURRENT_PLAN))
    (fun e => mret (error_response 500 (exn_str e), CURRENT_PLAN)).

Definition get_plan (CURRENT_PLAN : pyval) : http_response :=
  JsonResponse 200 [ (KStr "status", PStr "success"); (KStr "plan", CURRENT_PLAN) ].

(** [clone_time], [scan_id] and [timestamp] are the values of
    [datetime.now().isoformat()] in [_log_clone_operation] and of
    [uuid.uuid4()] and [datetime.now().isoformat()] in [analyze_codebase]. *)
Definition analyze_repository (env : env) (get_json : result pyval)
    (clone_time scan_id timestamp : string) (CURRENT_PLAN : pyval)
  : Py http_response :=
  try_except
    (data ← lift get_json;
     github_url ← lift (py_get data "github_url" PNone);
     sector_hint ← lift (py_get data "sector_hint" (PStr ""));
     plan ← lift (py_get data "plan" CURRENT_PLAN);
     _ ← print "[/api/analyze] Received request";
     _ ← print ("[/api/analyze] GitHub URL: " +:+ py_str github_url +:+ ", Sector: "
                  +:+ py_str sector_hint +:+ ", Plan: " +:+ py_str plan);
     _ ← print "[/api/analyze] Phase 1: Cloning repository...";
     let github_service := GitHubService.__init__ (config env) (git env) in
     repo_path ← GitHubService.clone_repository github_service clone_time github_url;
     _ ← print ("[/api/analyze] Repository cloned to: " +:+ repo_path);
     _ ← print ("[/api/analyze] Phase 2: Starting codebase analysis with plan: "
                  +:+ py_str plan +:+ "...");
     analysis_service ←
       AnalysisServiceInit.__init__ (config env) (CodeT5Analyzer env)
         (RepoInfo.new (os env) (walk_documentation env)) plan;
     scan_results ← AnalysisService.analyze_codebase analysis_service scan_id timestamp
                      repo_path sector_hint;
     scan_id ← lift (py_subscript (PDict scan_results) "scan_id");
     summary ← lift (py_subscript (PDict scan_results) "summary");
     total_findings ← lift (py_subscript summary "total_findings");
     mret (JsonResponse 200
             [ (KStr "status", PStr "success");
               (KStr "scan_id", scan_id);
               (KStr "plan_used", plan);
               (KStr "total_findings", total_findings);
               (KStr "message", PStr ("Analysis completed successfully using "
                                        +:+ py_str plan +:+ " plan")) ]))
    (fun e =>
       _ ← print ("[/api/analyze] ERROR: " +:+ exn_str e);
       mret (error_response 500 (exn_str e))).

(** [timestamp] is [datetime.now().strftime("%Y%m%d_%H%M%S")] in
    [_format_and_save_report]. *)
Definition generate_report (env : env) (get_json : result pyval) (timestamp : string)
  : Py http_response :=
  try_except
    (data ← lift get_json;
     scan_id ← lift (py_get data "scan_id" PNone);
     report_type ← lift (py_get data "report_type" PNone);
     _ ← print ("[/api/generate-report] Scan ID: " +:+ py_str scan_id +:+ ", Type: "
                  +:+ py_str report_type);
     report_service ← ReportServiceInit.__init__ (config env) (GEMINI_API_KEY env)
                        (GenerativeModel env);
     report_path ← ReportService.generate_report report_service timestamp scan_id
                     report_type;
     send_file report_path)
    (fun e =>
       _ ← print ("[/api/generate-report] ERROR: " +:+ exn_str e);
       mret (error_response 500 (exn_str e))).

(** A request to the application, with the values its handler draws. *)
Inductive request :=
| ChangePlan (get_json : result pyval)
| GetPlan
| Analyze (get_json : result pyval) (clone_time scan_id timestamp : string)
| GenerateReport (get_json : result pyval) (timestamp : string).

(** The state between two requests: the global [CURRENT_PLAN] and the
    world. *)
Record app_state := {
  CURRENT_PLAN : pyval;
  app_world : world
}.

(** The module sets [CURRENT_PLAN = 'basic'] when it is loaded. *)
Definition initial_state (w : world) : app_state :=
  {| CURRENT_PLAN := PStr "basic"; app_world := w |}.

(** The handlers catch every exception, so a request has a response. *)
Definition response_of (r : result http_response) : http_response :=
  match r with
  | Ok resp => resp
  | Err e => error_response 500 (exn_str e)
  end.

Definition handle (env : env) (req : request) (st : app_state)
  : http_response * app_state :=
  match req with
  | ChangePlan get_json =>
      match change_plan get_json (CURRENT_PLAN st) (app_world st) with
      | (Ok (resp, plan), w) => (resp, {| CURRENT_PLAN := plan; app_world := w |})
      | (Err e, w) =>
          (error_response 500 (exn_str e),
           {| CURRENT_PLAN := CURRENT_PLAN st; app_world := w |})
      end
  | GetPlan => (get_plan (CURRENT_PLAN st), st)
  | Analyze get_json clone_time scan_id timestamp =>
      let (r, w) := analyze_repository env get_json clone_time scan_id timestamp
                      (CURRENT_PLAN st) (app_world st) in
      (response_of r, {| CURRENT_PLAN := CURRENT_PLAN st; app_world := w |})
  | GenerateReport get_json timestamp =>
      let (r, w) := generate_report env get_json timestamp (app_world st) in
      (response_of r, {| CURRENT_PLAN := CURRENT_PLAN st; app_world := w |})
  end.

(** The responses to a sequence of requests, and the state after them. *)
Fixpoint serve (env : env) (reqs : list request) (st : app_state)
  : list http_response * app_state :=
  match reqs with
  | [] => ([], st)
  | req :: rest =>
      let (resp, st) := handle env req st in
      let (resps, st) := serve env rest st in
      (resp :: resps, st)
  end.

End Main.

(** ** Reading a configuration *)

(** The member [k] of a configuration dict. *)
Definition cfg_item (k : string) (c : cfg) : option cfg :=
  match c with
  | CfgDict items => snd <$> List.find (fun kv => String.eqb (fst kv) k) items
  | _ => None
  end.

(** [config[stage]['enabled']] *)
Definition stage_enabled (stage : string) (c : cfg) : option bool :=
  match cfg_item stage c with
  | Some s => match cfg_item "enabled" s with
              | Some (CfgBool b) => Some b
              | _ => None
              end
  | None => None
  end.

(** [config[k]] for a flag at top level *)
Definition cfg_flag (k : string) (c : cfg) : option bool :=
  match cfg_item k c with
  | Some (CfgBool b) => Some b
  | _ => None
  end.

(** ** Sample collaborators *)

(** Directory operations on the file map: a directory is there when a
    file lies under it, and removing it removes these files. *)
Definition under (dir path : string) : bool := String.prefix (dir +:+ "/") path.

Definition map_rmtree (dir : string) : Py unit := fun w =>
  (Ok tt, World (filter (fun kv => under dir (fst kv) = false) (fs w)) (log w) (stdout w)).

Definition map_dir_exists (dir : string) : Py bool := fun w =>
  (Ok (bool_decide (filter (fun kv => under dir (fst kv) = true) (fs w) <> ∅)), w).

(** A git that clones every repository as one README. *)
Definition readme_git (readme : string) : GitHubService.ops :=
  {| GitHubService.dir_exists := map_dir_exists;
     GitHubService.rmtree := map_rmtree;
     GitHubService.makedirs := fun _ => mret tt;
     GitHubService.clone_from := fun _ to_path =>
       write_file (path_join to_path ["README.md"]) (FText readme) |}.

(** A world with an earlier clone in the directory [PulledCode]. *)
Definition cloned_world : world :=
  World {[ "PulledCode/portal/README.md" := FText "Patient portal for the clinic." ]}
    [] [].

(** An operating system that reads the file map and has no directories. *)
Definition plain_os : RepoInfo.os :=
  {| RepoInfo.open_read := read_file;
     RepoInfo.isdir := fun _ => mret false;
     RepoInfo.listdir := fun _ => mret [] |}.

(** ** Reading the dependencies *)

(** An entry of the dependencies: a name of the table under its
    language, with some content. *)
Definition dependency_entry (kv : pykey * pyval) : Prop :=
  exists language files filename content,
    In (language, files) RepoInfo.dependency_files /\
    In filename files /\
    kv = (KStr filename,
          PDict [ (KStr "language", PStr language); (KStr "content", PStr content) ]).

(** A repository with a README under two names, a Python requirements
    file and a C# project file. *)
Definition mixed_repo : world :=
  World
    (<[ "repo/readme.md" := FText "lower case" ]>
       (<[ "repo/README.md" := FText "Upper case" ]>
          (<[ "repo/MyApp.csproj" := FText "<Project/>" ]>
             (<[ "repo/requirements.txt" := FText "flask" ]> ∅))))
    [] [].

(** ** Reading requests and responses *)

(** The status of a response; a file is sent with status 200. *)
Definition status_of (r : Main.http_response) : Z :=
  match r with
  | Main.JsonResponse status _ => status
  | Main.FileResponse _ => 200
  end.

(** The plans [change_plan] accepts. *)
Definition valid_plan (v : pyval) : bool :=
  py_eq_str v "basic" || py_eq_str v "full".

(** [data.get(key, default)] for the body of a request, when the body is
    a JSON object. *)
Definition requested (get_json : result pyval) (key : string) (default : pyval)
  : option pyval :=
  match get_json with
  | Ok (PDict d) => Some (dict_get d key default)
  | _ => None
  end.

(** The body of a request with the given members. *)
Definition json_body (members : pydict) : result pyval := Ok (PDict members).

(** An application whose collaborators find three findings and clone a
    README; no generator is configured. *)
Definition portal_env : Main.env :=
  {| Main.config := {| PULLED_CODE_DIR := "PulledCode"; DATA_DIR := "data";
                       TEMPLATES_DIR := "templates" |};
     Main.GEMINI_API_KEY := None;
     Main.GenerativeModel := fun _ _ => Err (Raise Exception "no network");
     Main.CodeT5Analyzer := fun _ => mret (fun _ _ => mret three_findings);
     Main.os := plain_os;
     Main.walk_documentation := fun _ => mret [];
     Main.git := readme_git "Patient portal for the clinic." |}.

(** ** Reading the policies *)

(** An entry of the policies: the text of a file whose name ends in
    [.md]. *)
Definition policy_entry (kv : pykey * pyval) : Prop :=
  exists filename content,
    PyStr.endswith filename ".md" = true /\ kv = (KStr filename, PStr content).

(** An operating system whose answers depend on the path only: [read]
    gives the text of a file or the failure of reading it, [listing] the
    names in a directory, for the paths that are directories. *)
Definition pure_os (read : string -> result string)
    (listing : string -> option (list string)) : RepoInfo.os :=
  {| RepoInfo.open_read := fun path => lift (read path);
     RepoInfo.isdir := fun path => mret (bool_decide (is_Some (listing path)));
     RepoInfo.listdir := fun path =>
       lift (match listing path with
             | Some names => Ok names
             | None => Err (Raise FileNotFoundError
                              ("[Errno 2] No such file or directory: "
                                 +:+ repr_str path))
             end) |}.

(** [name] is one of [names]. *)
Definition listed (name : string) (names : list string) : bool :=
  existsb (String.eqb name) names.

(** The text read at [path], as a policy. *)
Definition policy_text (read : string -> result string) (path : string)
  : option pyval :=
  match read path with
  | Ok content => Some (PStr content)
  | Err _ => None
  end.

(** The policy that stands under [name]: the file of that name in the
    root of the repository, when [name] is a common policy file, the file is
    there and it can be read; otherwise the file of that name in the policy
    directory, when it is listed there, its name ends in [.md] and it can be
    read. *)
Definition policy_of (read : string -> result string)
    (listing : string -> option (list string)) (files : gmap string file)
    (repo_path name : string) : option pyval :=
  let policy_dir := path_join repo_path ["policies"] in
  let in_root :=
    if listed name RepoInfo.common_policy_files
       && bool_decide (is_Some (files !! path_join repo_path [name]))
    then policy_text read (path_join repo_path [name])
    else None in
  let in_dir :=
    if listed name (default [] (listing policy_dir)) && PyStr.endswith name ".md"
    then policy_text read (path_join policy_dir [name])
    else None in
  match in_root with
  | Some text => Some text
  | None => in_dir
  end.

(** An operating system that reads the file map and lists [names] in
    every directory it is asked for. *)
Definition listing_os (names : list string) : RepoInfo.os :=
  {| RepoInfo.open_read := read_file;
     RepoInfo.isdir := fun _ => mret true;
     RepoInfo.listdir := fun _ => mret names |}.

(** A repository with a security policy in the policy directory and
    another one in the root. *)
Definition policy_repo : world :=
  World
    (<[ "repo/policies/SECURITY.md" := FText "directory policy" ]>
       (<[ "repo/policies/notes.txt" := FText "notes" ]>
          (<[ "repo/SECURITY.md" := FText "root policy" ]> ∅)))
    [] [].

(** Reading the files of a file map, as a function of the path. *)
Definition read_of (files : gmap string file) (path : string) : result string :=
  match files !! path with
  | Some (FText s) => Ok s
  | Some (FJson d) => Ok (json.dumps (PDict d))
  | Some (FDocx _) => Err (Raise ValueError "'utf-8' codec can't decode")
  | None => Err (Raise FileNotFoundError
                   ("[Errno 2] No such file or directory: " +:+ repr_str path))
  end.

(** The policy directory of [policy_repo] lists a policy, some notes and
    a policy that cannot be read. *)
Definition policy_listing (path : string) : option (list string) :=
  if String.eqb path "repo/policies"
  then Some ["SECURITY.md"; "notes.txt"; "HIPAA.md"]
  else None.

(** * Properties *)

Example split_ex1 : PyStr.split (PyStr.nl +:+ PyStr.nl) ("a" +:+ PyStr.nl +:+ PyStr.nl +:+ PyStr.nl +:+ "b")
  = ["a"; PyStr.nl +:+ "b"].
Proof. reflexivity. Qed.

Example title_ex1 : PyStr.title (PyStr.replace_char "_" " " "regulatory_compliance")
  = "Regulatory Compliance".
Proof. reflexivity. Qed.

Example strip_ex1 : PyStr.strip_chars "#" "## Title ##" = " Title ".
Proof. reflexivity. Qed.

Example strip_ex2 : PyStr.strip "  a b  " = "a b".
Proof. reflexivity. Qed.

Example repr_ex1 : py_repr (PList [PStr "a"; PInt (-3); PNone; PDict [(KStr "it's", PBool true)]])
  = "['a', -3, None, {" +:+ String PyStr.dquote "it's" +:+ String PyStr.dquote ": True}]".
Proof. reflexivity. Qed.

Example merge_ex1 :
  dict_merge [(KStr "a", PInt 1); (KStr "b", PInt 2)] [(KStr "b", PInt 3); (KStr "c", PInt 4)]
  = [(KStr "a", PInt 1); (KStr "b", PInt 3); (KStr "c", PInt 4)].
Proof. reflexivity. Qed.

(** ** Dictionaries *)

Lemma key_eqb_eq a b : key_eqb a b = true <-> key_norm a = key_norm b.
Proof. unfold key_eqb. apply bool_decide_eq_true. Qed.

Lemma key_eqb_refl a : key_eqb a a = true.
Proof. by apply key_eqb_eq. Qed.

Lemma key_eqb_trans_l a b c :
  key_eqb a b = true -> key_eqb a c = key_eqb b c.
Proof.
  intros H%key_eqb_eq. unfold key_eqb. by rewrite H.
Qed.

Lemma key_eqb_str a b : key_eqb (KStr a) (KStr b) = bool_decide (a = b).
Proof.
  unfold key_eqb. simpl. apply bool_decide_ext. split; congruence.
Qed.

Lemma dict_lookup_set k k' v d :
  dict_lookup k (dict_set k' v d)
  = if key_eqb k' k then Some v else dict_lookup k d.
Proof.
  induction d as [|[k0 v0] d IH]; simpl.
  - done.
  - destruct (key_eqb k0 k') eqn:E0; simpl.
    + rewrite (key_eqb_trans_l _ _ k E0). by destruct (key_eqb k' k).
    + rewrite IH. destruct (key_eqb k0 k) eqn:E1; [|done].
      destruct (key_eqb k' k) eqn:E2; [|done].
      exfalso. apply key_eqb_eq in E1, E2.
      assert (key_eqb k0 k' = true) by (apply key_eqb_eq; congruence).
      congruence.
Qed.

Lemma dict_lookup_app k a b :
  dict_lookup k (a ++ b)
  = match dict_lookup k a with Some v => Some v | None => dict_lookup k b end.
Proof.
  induction a as [|[k0 v0] a IH]; simpl; [done|].
  by destruct (key_eqb k0 k).
Qed.

Lemma dict_lookup_None_notin k d :
  dict_lookup k d = None <-> key_norm k ∉ key_norm <$> d.*1.
Proof.
  induction d as [|[k0 v0] d IH]; simpl.
  - split; [intros _; apply not_elem_of_nil | done].
  - rewrite not_elem_of_cons. destruct (key_eqb k0 k) eqn:E.
    + apply key_eqb_eq in E. split; [done | intros [? _]; congruence].
    + rewrite IH. split; [|tauto]. intros H. split; [|done].
      intros Heq.
      assert (key_eqb k0 k = true) by (by apply key_eqb_eq). congruence.
Qed.

Lemma dict_set_fresh k v d :
  dict_lookup k d = None -> dict_set k v d = d ++ [(k, v)].
Proof.
  induction d as [|[k0 v0] d IH]; simpl; [done|].
  destruct (key_eqb k0 k); [done|]. intros H. by rewrite IH.
Qed.

Lemma fold_dict_set_lookup k items acc :
  dict_lookup k (fold_left (fun acc kv => dict_set (fst kv) (snd kv) acc) items acc)
  = match dict_lookup k (rev items) with
    | Some v => Some v
    | None => dict_lookup k acc
    end.
Proof.
  revert acc. induction items as [|[k0 v0] items IH]; intros acc; simpl; [done|].
  rewrite IH, dict_lookup_app, dict_lookup_set. simpl.
  destruct (dict_lookup k (rev items)); [done|].
  by destruct (key_eqb k0 k).
Qed.

Lemma dict_lookup_rev k d :
  dict_wf d -> dict_lookup k (rev d) = dict_lookup k d.
Proof.
  unfold dict_wf. induction d as [|[k0 v0] d IH]; [done|].
  rewrite !fmap_cons, NoDup_cons. intros [Hk Hd]. simpl in *.
  rewrite dict_lookup_app, IH by done. simpl.
  destruct (key_eqb k0 k) eqn:E.
  - apply key_eqb_eq in E. rewrite E in Hk.
    apply dict_lookup_None_notin in Hk. by rewrite Hk.
  - by destruct (dict_lookup k d).
Qed.

(** Looking a key up in [{**a, **b}]: the value of [b] when [b] has the
    key, else the value of [a]. *)
Lemma dict_lookup_merge k a b :
  dict_wf a -> dict_wf b ->
  dict_lookup k (dict_merge a b)
  = match dict_lookup k b with Some v => Some v | None => dict_lookup k a end.
Proof.
  intros Ha Hb. unfold dict_merge, dict_of_items.
  rewrite fold_dict_set_lookup, rev_app_distr, dict_lookup_app.
  rewrite !dict_lookup_rev by done. simpl.
  by destruct (dict_lookup k b), (dict_lookup k a).
Qed.

(** Building a dict from the items of a dict gives the dict back. *)
Lemma fold_dict_set_wf items acc :
  dict_wf (acc ++ items) ->
  fold_left (fun acc kv => dict_set (fst kv) (snd kv) acc) items acc = acc ++ items.
Proof.
  revert acc. induction items as [|[k0 v0] items IH]; intros acc Hwf; simpl.
  - by rewrite app_nil_r.
  - rewrite dict_set_fresh.
    + rewrite IH; rewrite <- app_assoc; done.
    + apply dict_lookup_None_notin. unfold dict_wf in Hwf.
      rewrite !fmap_app in Hwf. apply NoDup_app in Hwf as (_ & Hd & _).
      intros Hin. apply (Hd _ Hin). rewrite !fmap_cons. simpl. left.
Qed.

Lemma dict_of_items_wf d : dict_wf d -> dict_of_items d = d.
Proof. intros H. unfold dict_of_items. by rewrite fold_dict_set_wf. Qed.

(** ** Enrichment *)

Import AnalysisService.

Lemma enrich_one_hit (K fd e : pydict) (k : pykey) (w : world) :
  to_key (keyword_of fd) = Some k ->
  dict_lookup k K = Some (PDict e) ->
  enrich_one K (PDict fd) w = (Ok (PDict (dict_merge fd e)), w).
Proof.
  intros Hk He. unfold enrich_one, mbind, Py_bind, lift, dict_contains, dict_item.
  simpl. fold (keyword_of fd). rewrite Hk, He. simpl. done.
Qed.

Lemma enrich_one_miss (K fd : pydict) (k : pykey) (w : world) :
  to_key (keyword_of fd) = Some k ->
  dict_lookup k K = None ->
  enrich_one K (PDict fd) w
  = (Ok (PDict fd),
     World (fs w)
       (log w ++ [(DEBUG, "   Finding '" +:+ py_str (keyword_of fd)
                            +:+ "' not in dictionary, keeping as-is")])
       (stdout w)).
Proof.
  intros Hk He. unfold enrich_one, mbind, Py_bind, lift, dict_contains, logger.
  simpl. fold (keyword_of fd). rewrite Hk, He. simpl. done.
Qed.

(** What one turn of the loop returns does not depend on the world, and
    the turn leaves the files alone. *)
Lemma enrich_one_ok (K : pydict) (f : pyval) :
  enrichable K f = true ->
  exists o, forall w, exists w',
    enrich_one K f w = (Ok o, w') /\ fs w' = fs w /\ stdout w' = stdout w.
Proof.
  unfold enrichable. destruct f as [| | | | |fd]; try done.
  destruct (to_key (keyword_of fd)) as [k|] eqn:Hk; [|done].
  destruct (dict_lookup k K) as [e|] eqn:He.
  - destruct e as [| | | | |e]; try done. intros _.
    exists (PDict (dict_merge fd e)). intros w. exists w.
    by rewrite (enrich_one_hit K fd e k).
  - intros _. exists (PDict fd). intros w. eexists.
    rewrite (enrich_one_miss K fd k) by done. done.
Qed.

Lemma enrich_loop_ok (K : pydict) (F : list pyval) :
  Forall (fun f => enrichable K f = true) F ->
  exists out,
    Forall2 (fun f o => forall w, (enrich_one K f w).1 = Ok o) F out /\
    forall acc w, exists w',
      enrich_loop K F acc w = (Ok (acc ++ out), w') /\
      fs w' = fs w /\ stdout w' = stdout w.
Proof.
  induction 1 as [|f F Hf _ (out & Hout & IH)].
  - exists []. split; [constructor|]. intros acc w. exists w.
    simpl. by rewrite app_nil_r.
  - destruct (enrich_one_ok K f Hf) as (o & Ho).
    exists (o :: out). split.
    + constructor; [|done]. intros w. by destruct (Ho w) as (w' & -> & _).
    + intros acc w. destruct (Ho w) as (w1 & E1 & Hfs1 & Hso1).
      destruct (IH (acc ++ [o]) w1) as (w2 & E2 & Hfs2 & Hso2).
      exists w2. simpl. unfold mbind, Py_bind. rewrite E1.
      fold (enrich_loop K F). rewrite E2, <- app_assoc. simpl.
      split; [done|]. split; congruence.
Qed.

Lemma enrich_findings_absent (self : t) (F : list pyval) (w : world) :
  fs w !! dict_path self = None ->
  _enrich_findings self F w
  = (Ok F,
     World (fs w)
       (log w ++ [(WARNING, "Findings dictionary not found at: " +:+ dict_path self)])
       (stdout w)).
Proof.
  intros H. unfold _enrich_findings, mbind, Py_bind, path_exists.
  rewrite H. simpl. done.
Qed.

Lemma enrich_findings_present (self : t) (K : pydict) (F : list pyval) (w : world) :
  fs w !! dict_path self = Some (FJson K) ->
  _enrich_findings self F w = enrich_loop K F [] w.
Proof.
  intros H. unfold _enrich_findings, mbind, Py_bind, path_exists, json_load_file.
  rewrite H. simpl. rewrite H. done.
Qed.

Lemma findings_ok_Forall (Kd : pydict) (F : list pyval) :
  findings_ok (Some Kd) F = true -> Forall (fun f => enrichable Kd f = true) F.
Proof.
  simpl. intros H. apply Forall_forall. intros f Hf.
  rewrite forallb_forall in H. apply H. by apply list_elem_of_In.
Qed.

(** The run of [_enrich_findings], with the knowledge base [K] the
    dictionary file holds ([None] when the file is absent). *)
Lemma enrich_findings_run (self : t) (K : option pydict) (F : list pyval) (w : world) :
  fs w !! dict_path self = FJson <$> K ->
  findings_ok K F = true ->
  exists out w',
    _enrich_findings self F w = (Ok out, w') /\
    fs w' = fs w /\
    match K with
    | Some Kd => Forall2 (fun f o => forall w0, (enrich_one Kd f w0).1 = Ok o) F out
    | None =>
        out = F /\
        log w' = log w ++ [(WARNING, "Findings dictionary not found at: "
                                       +:+ dict_path self)]
    end.
Proof.
  intros Hfile HF. destruct K as [Kd|]; simpl in Hfile.
  - destruct (enrich_loop_ok Kd F (findings_ok_Forall _ _ HF)) as (out & Hout & Hrun).
    destruct (Hrun [] w) as (w' & E & Hfs & _).
    exists out, w'. by rewrite (enrich_findings_present self Kd).
  - eexists F, _. rewrite enrich_findings_absent by done. done.
Qed.

(** What a turn of the loop makes of a finding it accepts. *)
Lemma enrich_one_enriched (K : pydict) (f : pyval) (w : world) :
  enrichable K f = true -> (enrich_one K f w).1 = Ok (enriched K f).
Proof.
  unfold enrichable, enriched. destruct f as [| | | | |fd]; try done.
  cbn [entry_of]. destruct (to_key (keyword_of fd)) as [k|] eqn:Hk; [|done].
  cbn [mbind option_bind]. destruct (dict_lookup k K) as [e|] eqn:He.
  - destruct e as [| | | | |e]; try done. intros _.
    by rewrite (enrich_one_hit K fd e k).
  - intros _. by rewrite (enrich_one_miss K fd k).
Qed.

Lemma dict_lookup_rev_Some k d :
  is_Some (dict_lookup k d) -> is_Some (dict_lookup k (rev d)).
Proof.
  intros H. destruct (dict_lookup k (rev d)) eqn:E; [by eexists|].
  exfalso. apply dict_lookup_None_notin in E.
  destruct (dict_lookup k d) eqn:E'; [|by destruct H].
  assert (dict_lookup k d <> None) as Hne by congruence.
  apply Hne. apply dict_lookup_None_notin. intros Hin. apply E.
  apply list_elem_of_fmap in Hin as (k0 & Hk0 & Hin).
  apply list_elem_of_fmap. exists k0. split; [done|].
  apply list_elem_of_fmap in Hin as (kv & -> & Hin).
  apply list_elem_of_fmap. exists kv. split; [done|].
  apply list_elem_of_In, in_rev. rewrite rev_involutive. by apply list_elem_of_In.
Qed.

(** No field of the left dict is lost in a merge. *)
Lemma dict_merge_keeps_fields k a b :
  is_Some (dict_lookup k a) -> is_Some (dict_lookup k (dict_merge a b)).
Proof.
  intros H. unfold dict_merge, dict_of_items. rewrite fold_dict_set_lookup.
  assert (is_Some (dict_lookup k (rev (a ++ b)))) as [v ->]; [|by eexists].
  apply dict_lookup_rev_Some. rewrite dict_lookup_app.
  destruct H as [v ->]. by eexists.
Qed.

Lemma enriched_keeps_fields (K fd : pydict) :
  exists od, enriched K (PDict fd) = PDict od /\
             forall x, is_Some (dict_lookup x fd) -> is_Some (dict_lookup x od).
Proof.
  unfold enriched. destruct (entry_of K (PDict fd)) as [[| | | | |e]|];
    try (by exists fd).
  exists (dict_merge fd e). split; [done|]. intros x. apply dict_merge_keeps_fields.
Qed.

(** C5: for findings that are dicts with a hashable keyword, and a
    knowledge base whose entries are dicts, the enriched list has the length
    of the input and its i-th element is the i-th finding, enriched
    ([enriched]: its entry laid over it, or the finding as it is): nothing is
    dropped, added or moved, and every field of the i-th finding is a field
    of the i-th element.  With the dictionary file absent the list is
    returned as it is. *)
Theorem enrich_keeps_length_and_order
    (self : t) (K : option pydict) (F : list pyval) (w : world) :
  fs w !! dict_path self = FJson <$> K ->
  findings_ok K F = true ->
  exists out w',
    _enrich_findings self F w = (Ok out, w') /\
    length out = length F /\
    out = match K with
          | Some Kd => List.map (enriched Kd) F
          | None => F
          end /\
    (forall i fd,
       F !! i = Some (PDict fd) ->
       exists od,
         out !! i = Some (PDict od) /\
         forall x, is_Some (dict_lookup x fd) -> is_Some (dict_lookup x od)).
Proof.
  intros Hfile HF.
  destruct (enrich_findings_run self K F w Hfile HF) as (out & w' & E & _ & H).
  exists out, w'. split; [done|].
  assert (out = match K with
                | Some Kd => List.map (enriched Kd) F
                | None => F
                end) as Hout.
  { destruct K as [Kd|]; [|by destruct H as [-> _]].
    apply findings_ok_Forall in HF. clear E Hfile.
    induction H as [|f o F out Hfo _ IH]; [done|].
    apply Forall_cons in HF as [Hf HF]. cbn [List.map].
    specialize (Hfo w). rewrite (enrich_one_enriched Kd f w Hf) in Hfo.
    injection Hfo as <-. f_equal. by apply IH. }
  split; [|split; [exact Hout|]].
  - rewrite Hout. destruct K; [by rewrite length_map|done].
  - intros i fd Hi. rewrite Hout. destruct K as [Kd|].
    + destruct (enriched_keeps_fields Kd fd) as (od & Hod & Hfields).
      exists od. split; [|done].
      change (List.map (enriched Kd) F) with (enriched Kd <$> F).
      by rewrite list_lookup_fmap, Hi, <- Hod.
    + by exists fd.
Qed.

(** C6: under the typing of C5, a finding whose keyword has no entry in
    the knowledge base comes out as it went in, and with the dictionary file
    absent every finding does; the run returns, and the absent file is
    reported by a warning in the log, not by an exception. *)
Theorem enrich_passes_through
    (self : t) (K : option pydict) (F : list pyval) (w : world) :
  fs w !! dict_path self = FJson <$> K ->
  findings_ok K F = true ->
  exists out w',
    _enrich_findings self F w = (Ok out, w') /\
    (forall i f, F !! i = Some f ->
                 (forall Kd, K = Some Kd -> entry_of Kd f = None) ->
                 out !! i = Some f) /\
    (K = None ->
     out = F /\
     log w' = log w ++ [(WARNING, "Findings dictionary not found at: "
                                    +:+ dict_path self)]).
Proof.
  intros Hfile HF.
  destruct (enrich_findings_run self K F w Hfile HF) as (out & w' & E & _ & H).
  exists out, w'. split; [done|]. destruct K as [Kd|].
  - split; [|done]. intros i f Hi Hmiss. specialize (Hmiss Kd eq_refl).
    destruct (Forall2_lookup_l _ _ _ _ _ H Hi) as (o & Ho & Hrun).
    rewrite Ho. f_equal.
    assert (enrichable Kd f = true) as Hf.
    { apply findings_ok_Forall in HF. rewrite Forall_forall in HF.
      apply HF. by eapply list_elem_of_lookup_2. }
    unfold enrichable in Hf. destruct f as [| | | | |fd]; try done.
    simpl in Hmiss. destruct (to_key (keyword_of fd)) as [k|] eqn:Hk; [|done].
    simpl in Hmiss. specialize (Hrun w).
    rewrite (enrich_one_miss Kd fd k) in Hrun by done. simpl in Hrun. congruence.
  - destruct H as [-> Hlog]. split; [|done]. by intros i f Hi _.
Qed.

(** C1, as the code has it: in the merge [{**finding, **entry}] the
    knowledge-base entry is laid over the finding, so for a finding whose
    keyword has an entry, a field the entry defines comes out with the
    entry's value, and the finding's value stays only for the fields the
    entry does not define. *)
Theorem kb_fields_take_precedence
    (self : t) (Kd : pydict) (F : list pyval) (w : world)
    (i : nat) (fd e : pydict) (x : string) :
  fs w !! dict_path self = Some (FJson Kd) ->
  findings_ok (Some Kd) F = true ->
  F !! i = Some (PDict fd) ->
  entry_of Kd (PDict fd) = Some (PDict e) ->
  dict_wf fd -> dict_wf e ->
  exists out w' o,
    _enrich_findings self F w = (Ok out, w') /\
    out !! i = Some (PDict o) /\
    dict_lookup (KStr x) o
    = match dict_lookup (KStr x) e with
      | Some v => Some v
      | None => dict_lookup (KStr x) fd
      end.
Proof.
  intros Hfile HF Hi He Hwf Hwe.
  destruct (enrich_findings_run self (Some Kd) F w Hfile HF)
    as (out & w' & E & _ & H).
  destruct (Forall2_lookup_l _ _ _ _ _ H Hi) as (o & Ho & Hrun).
  simpl in He. destruct (to_key (keyword_of fd)) as [k|] eqn:Hk; [|done].
  simpl in He. specialize (Hrun w).
  rewrite (enrich_one_hit Kd fd e k) in Hrun by done. simpl in Hrun.
  exists out, w', (dict_merge fd e). split; [done|]. split; [congruence|].
  by apply dict_lookup_merge.
Qed.

(** Outside [enrichable] a turn of the loop raises, and so does the loop. *)
Lemma enrich_one_raises (K : pydict) (f : pyval) (w : world) :
  enrichable K f = false -> exists e w', enrich_one K f w = (Err e, w').
Proof.
  unfold enrichable, enrich_one.
  destruct f as [| | | | |fd]; try (intros _; eexists _, _; reflexivity).
  unfold mbind, Py_bind, lift. cbn [py_get]. fold (keyword_of fd).
  unfold dict_contains, dict_item.
  destruct (to_key (keyword_of fd)) as [k|] eqn:Hk;
    [|intros _; eexists _, _; reflexivity].
  destruct (dict_lookup k K) as [e|] eqn:He; [|done].
  rewrite bool_decide_eq_true_2 by eauto.
  destruct e; try done; intros _; eexists _, _; reflexivity.
Qed.

Lemma enrich_loop_raises (K : pydict) (F acc : list pyval) (w : world) :
  findings_ok (Some K) F = false ->
  exists e w', enrich_loop K F acc w = (Err e, w').
Proof.
  simpl. revert acc w. induction F as [|f F IH]; intros acc w HF; [done|].
  simpl in HF. simpl. unfold mbind, Py_bind.
  destruct (enrichable K f) eqn:Hf.
  - destruct (enrich_one_ok K f Hf) as (o & Ho).
    destruct (Ho w) as (w1 & -> & _). by apply IH.
  - destruct (enrich_one_raises K f w Hf) as (e & w1 & ->). by eexists _, _.
Qed.

(** ** Enrichment on a concrete run *)

Lemma enrich_keeps_length_and_order_witness :
  fs (kb_world small_kb) !! dict_path (idle_service "data") = FJson <$> Some small_kb /\
  findings_ok (Some small_kb) [PDict secret_low; PDict weak_hash] = true /\
  exists out w',
    _enrich_findings (idle_service "data") [PDict secret_low; PDict weak_hash]
      (kb_world small_kb) = (Ok out, w') /\
    length out = length [PDict secret_low; PDict weak_hash] /\
    out = List.map (enriched small_kb) [PDict secret_low; PDict weak_hash] /\
    (forall i fd,
       [PDict secret_low; PDict weak_hash] !! i = Some (PDict fd) ->
       exists od,
         out !! i = Some (PDict od) /\
         forall x, is_Some (dict_lookup x fd) -> is_Some (dict_lookup x od)).
Proof.
  split; [vm_compute; reflexivity|]. split; [reflexivity|].
  apply (enrich_keeps_length_and_order (idle_service "data") (Some small_kb)
           [PDict secret_low; PDict weak_hash] (kb_world small_kb)).
  - vm_compute. reflexivity.
  - reflexivity.
Defined.

Lemma enrich_passes_through_witness :
  fs (kb_world small_kb) !! dict_path (idle_service "data") = FJson <$> Some small_kb /\
  findings_ok (Some small_kb) [PDict secret_low; PDict weak_hash] = true /\
  exists out w',
    _enrich_findings (idle_service "data") [PDict secret_low; PDict weak_hash]
      (kb_world small_kb)
    = (Ok out, w') /\
    (forall i f, [PDict secret_low; PDict weak_hash] !! i = Some f ->
                 (forall Kd, Some small_kb = Some Kd -> entry_of Kd f = None) ->
                 out !! i = Some f) /\
    (Some small_kb = None ->
     out = [PDict secret_low; PDict weak_hash] /\
     log w' = log (kb_world small_kb)
                ++ [(WARNING, "Findings dictionary not found at: "
                                +:+ dict_path (idle_service "data"))]).
Proof.
  split; [vm_compute; reflexivity|]. split; [reflexivity|].
  apply (enrich_passes_through (idle_service "data") (Some small_kb)
           [PDict secret_low; PDict weak_hash] (kb_world small_kb)).
  - vm_compute. reflexivity.
  - reflexivity.
Defined.

(** With no dictionary file the findings come back as they are, whatever
    they are, and the log gets one warning. *)
Example enrich_without_dictionary :
  _enrich_findings (idle_service "data") [PDict secret_low; PList []] empty_world
  = (Ok [PDict secret_low; PList []],
     World ∅ [(WARNING, "Findings dictionary not found at: data/findings_dictionary.json")] []).
Proof. vm_compute. reflexivity. Qed.

(** With the dictionary of the sample, the first finding is merged with its
    entry and the second, which has none, is kept. *)
Example enrich_with_dictionary :
  (_enrich_findings (idle_service "data") [PDict secret_low; PDict weak_hash]
     (kb_world small_kb)).1
  = Ok [ PDict [ (KStr "shortform_keyword", PStr "HARDCODED_SECRET");
                 (KStr "severity", PStr "HIGH");
                 (KStr "file_path", PStr "app/config.py");
                 (KStr "title", PStr "Hardcoded secret") ];
         PDict weak_hash ].
Proof. vm_compute. reflexivity. Qed.

Lemma kb_fields_take_precedence_witness :
  fs (kb_world small_kb) !! dict_path (idle_service "data") = Some (FJson small_kb) /\
  findings_ok (Some small_kb) [PDict weak_hash; PDict secret_low] = true /\
  [PDict weak_hash; PDict secret_low] !! 1%nat = Some (PDict secret_low) /\
  entry_of small_kb (PDict secret_low) = Some (PDict secret_entry) /\
  dict_wf secret_low /\ dict_wf secret_entry /\
  exists out w' o,
    _enrich_findings (idle_service "data") [PDict weak_hash; PDict secret_low]
      (kb_world small_kb) = (Ok out, w') /\
    out !! 1%nat = Some (PDict o) /\
    dict_lookup (KStr "severity") o
    = match dict_lookup (KStr "severity") secret_entry with
      | Some v => Some v
      | None => dict_lookup (KStr "severity") secret_low
      end.
Proof.
  assert (dict_wf secret_low) as H1 by (apply (bool_decide_unpack _); vm_compute; exact I).
  assert (dict_wf secret_entry) as H2 by (apply (bool_decide_unpack _); vm_compute; exact I).
  split; [vm_compute; reflexivity|]. split; [reflexivity|].
  split; [reflexivity|]. split; [reflexivity|].
  split; [exact H1|]. split; [exact H2|].
  apply (kb_fields_take_precedence (idle_service "data") small_kb
           [PDict weak_hash; PDict secret_low] (kb_world small_kb)
           1 secret_low secret_entry "severity").
  - vm_compute. reflexivity.
  - reflexivity.
  - reflexivity.
  - reflexivity.
  - exact H1.
  - exact H2.
Defined.

(** C1 as the specification words it fails: the finding says LOW, its
    knowledge-base entry says HIGH, and the enriched finding says HIGH. *)
Lemma finding_fields_do_not_win :
  exists o w',
    _enrich_findings (idle_service "data") [PDict secret_low] (kb_world small_kb)
    = (Ok [PDict o], w') /\
    entry_of small_kb (PDict secret_low) = Some (PDict secret_entry) /\
    dict_lookup (KStr "severity") secret_low = Some (PStr "LOW") /\
    dict_lookup (KStr "severity") secret_entry = Some (PStr "HIGH") /\
    dict_lookup (KStr "severity") o = Some (PStr "HIGH") /\
    dict_lookup (KStr "severity") o <> dict_lookup (KStr "severity") secret_low.
Proof.
  eexists _, _. split; [vm_compute; reflexivity|].
  repeat split; try reflexivity. vm_compute. discriminate.
Qed.

(** ** Summary *)

Lemma dict_lookup_key_eqb k k' d :
  key_eqb k k' = true -> dict_lookup k d = dict_lookup k' d.
Proof.
  intros H. induction d as [|[k0 v0] d IH]; simpl; [done|].
  assert (key_eqb k0 k = key_eqb k0 k') as ->.
  { apply key_eqb_eq in H. unfold key_eqb. by rewrite H. }
  by rewrite IH.
Qed.

Lemma dict_set_keys k v d :
  key_norm <$> (dict_set k v d).*1
  = match dict_lookup k d with
    | Some _ => key_norm <$> d.*1
    | None => (key_norm <$> d.*1) ++ [key_norm k]
    end.
Proof.
  induction d as [|[k0 v0] d IH]; [done|].
  cbn [dict_set dict_lookup].
  destruct (key_eqb k0 k) eqn:E; [done|].
  rewrite !fmap_cons, IH. cbn [fst]. by destruct (dict_lookup k d).
Qed.

Lemma dict_set_wf k v d : dict_wf d -> dict_wf (dict_set k v d).
Proof.
  unfold dict_wf. rewrite dict_set_keys.
  destruct (dict_lookup k d) eqn:E; [done|].
  intros H. apply NoDup_app. split; [done|]. split; [|apply NoDup_singleton].
  intros x Hx Hx'. apply list_elem_of_singleton in Hx'. subst x.
  by apply dict_lookup_None_notin in E.
Qed.

Lemma count_severity_app k P F :
  count_severity k (P ++ F) = (count_severity k P + count_severity k F)%nat.
Proof. unfold count_severity. by rewrite List.filter_app, length_app. Qed.

Lemma count_severity_single k f :
  count_severity k [f] = if has_severity k f then 1%nat else 0%nat.
Proof. unfold count_severity. simpl. by destruct (has_severity k f). Qed.

Lemma has_severity_eqb k0 k f :
  severity_of f = Some k0 -> has_severity k f = key_eqb k0 k.
Proof. unfold has_severity. by intros ->. Qed.

Lemma count_severity_key_eqb k k' F :
  key_eqb k k' = true -> count_severity k F = count_severity k' F.
Proof.
  intros H. unfold count_severity. f_equal. apply List.filter_ext. intros f.
  unfold has_severity. destruct (severity_of f) as [k0|]; [|done].
  apply key_eqb_eq in H. unfold key_eqb. by rewrite H.
Qed.

(** The loop of [_generate_summary], from a dict that counts the findings
    [P] seen so far. *)
Lemma count_severities_spec (F P : list pyval) (acc : pydict) :
  summarizable F = true ->
  (forall k, dict_lookup k acc = breakdown_entry (count_severity k P)) ->
  dict_wf acc ->
  exists out,
    count_severities F acc = Ok out /\
    (forall k, dict_lookup k out = breakdown_entry (count_severity k (P ++ F))) /\
    dict_wf out.
Proof.
  revert P acc. induction F as [|f F IH]; intros P acc HF Hacc Hwf.
  - exists acc. rewrite app_nil_r. done.
  - simpl in HF. apply andb_true_iff in HF as [Hf HF].
    apply bool_decide_eq_true in Hf as [k0 Hk0].
    destruct f as [| | | | |fd]; try done. simpl in Hk0.
    simpl. unfold mbind at 1, result_bind. rewrite Hk0.
    rewrite (Hacc k0).
    assert (default (PInt 0) (breakdown_entry (count_severity k0 P))
            = PInt (Z.of_nat (count_severity k0 P))) as ->.
    { by destruct (count_severity k0 P). }
    simpl.
    destruct (IH (P ++ [PDict fd])
                (dict_set k0 (PInt (Z.of_nat (count_severity k0 P) + 1)) acc) HF)
      as (out & E & Hout & Hwfo).
    + intros k. rewrite dict_lookup_set, count_severity_app.
      rewrite count_severity_single.
      rewrite (has_severity_eqb k0 k (PDict fd)) by done.
      destruct (key_eqb k0 k) eqn:Ek; simpl.
      * rewrite (count_severity_key_eqb k0 k) by done.
        rewrite Nat.add_1_r. simpl. do 2 f_equal. lia.
      * by rewrite Nat.add_0_r.
    + by apply dict_set_wf.
    + exists out. split; [done|]. split; [|done].
      intros k. rewrite (Hout k), <- app_assoc. done.
Qed.

Lemma dict_set_total k n d :
  positive_counts d ->
  default (PInt 0) (dict_lookup k d) = PInt n ->
  0 <= n /\
  positive_counts (dict_set k (PInt (n + 1)) d) /\
  dict_total (dict_set k (PInt (n + 1)) d) = dict_total d + 1.
Proof.
  unfold positive_counts, dict_total.
  induction d as [|[k0 v0] d IH]; simpl; intros Hd Hn.
  - injection Hn as <-. split; [lia|]. split; [|done].
    constructor; [|constructor]. exists 1. done.
  - apply Forall_cons in Hd as [(m & Hm & Hpos) Hd]. simpl in Hm.
    destruct (key_eqb k0 k) eqn:E; simpl in *.
    + subst v0. injection Hn as <-. simpl. split; [lia|]. split; [|lia].
      constructor; [|done]. exists (m + 1). simpl. split; [done|lia].
    + destruct (IH Hd Hn) as (? & ? & ->). split; [done|]. split; [|lia].
      constructor; [|done]. by exists m.
Qed.

Lemma positive_counts_lookup k d :
  positive_counts d -> exists n, default (PInt 0) (dict_lookup k d) = PInt n.
Proof.
  unfold positive_counts. induction d as [|[k0 v0] d IH]; simpl; intros Hd.
  - by exists 0.
  - apply Forall_cons in Hd as [(m & Hm & _) Hd]. simpl in Hm.
    destruct (key_eqb k0 k); [|by apply IH]. exists m. by subst v0.
Qed.

Lemma count_severities_total (F : list pyval) (acc : pydict) :
  summarizable F = true ->
  positive_counts acc ->
  exists out,
    count_severities F acc = Ok out /\
    positive_counts out /\
    dict_total out = dict_total acc + Z.of_nat (length F).
Proof.
  revert acc. induction F as [|f F IH]; intros acc HF Hacc.
  - exists acc. simpl. split; [done|]. split; [done|lia].
  - simpl in HF. apply andb_true_iff in HF as [Hf HF].
    apply bool_decide_eq_true in Hf as [k0 Hk0].
    destruct f as [| | | | |fd]; try done. simpl in Hk0.
    cbn [count_severities py_get]. unfold mbind at 1, result_bind. rewrite Hk0.
    destruct (positive_counts_lookup k0 acc Hacc) as (n & Hold). rewrite Hold.
    destruct (dict_set_total k0 n acc Hacc Hold) as (Hn & Hpos & Htot).
    simpl. destruct (IH _ HF Hpos) as (out & E & Hout & Hsum).
    exists out. split; [done|]. split; [done|].
    rewrite Hsum, Htot. cbn [length]. lia.
Qed.

(** C7: the summary of a list of findings (dicts with a hashable
    severity): [total_findings] is the length of the list, and
    [severity_breakdown] has, for each severity, the number of findings with
    it when there is one and no member otherwise; a finding with no
    [severity] counts under UNKNOWN; the summary of the empty list is
    [{total_findings: 0, severity_breakdown: {}}]. *)
Theorem summary_counts_findings (F : list pyval) :
  summarizable F = true ->
  exists counts,
    _generate_summary F
    = Ok [ (KStr "total_findings", PInt (Z.of_nat (length F)));
           (KStr "severity_breakdown", PDict counts) ] /\
    (forall k, dict_lookup k counts = breakdown_entry (count_severity k F)) /\
    (forall fd, In (PDict fd) F -> dict_lookup (KStr "severity") fd = None ->
                has_severity (KStr "UNKNOWN") (PDict fd) = true) /\
    (F = [] -> counts = []).
Proof.
  intros HF.
  destruct (count_severities_spec F [] [] HF) as (counts & E & Hc & _).
  { done. }
  { unfold dict_wf. simpl. constructor. }
  exists counts. unfold _generate_summary. rewrite E. simpl.
  split; [done|]. split; [exact Hc|]. split.
  - intros fd _ Hfd. unfold has_severity, severity_of, dict_get. by rewrite Hfd.
  - intros ->. simpl in E. by injection E as <-.
Qed.

Lemma summary_counts_findings_witness :
  summarizable three_findings = true /\
  exists counts,
    _generate_summary three_findings
    = Ok [ (KStr "total_findings", PInt (Z.of_nat (length three_findings)));
           (KStr "severity_breakdown", PDict counts) ] /\
    (forall k, dict_lookup k counts = breakdown_entry (count_severity k three_findings)) /\
    (forall fd, In (PDict fd) three_findings ->
                dict_lookup (KStr "severity") fd = None ->
                has_severity (KStr "UNKNOWN") (PDict fd) = true) /\
    (three_findings = [] -> counts = []).
Proof.
  split; [reflexivity|].
  apply (summary_counts_findings three_findings). reflexivity.
Defined.

Example summary_of_three :
  _generate_summary three_findings
  = Ok [ (KStr "total_findings", PInt 3);
         (KStr "severity_breakdown",
          PDict [ (KStr "LOW", PInt 2); (KStr "UNKNOWN", PInt 1) ]) ].
Proof. reflexivity. Qed.

Example summary_of_none :
  _generate_summary []
  = Ok [ (KStr "total_findings", PInt 0); (KStr "severity_breakdown", PDict []) ].
Proof. reflexivity. Qed.

Lemma key_eqb_sym a b : key_eqb a b = key_eqb b a.
Proof. unfold key_eqb. apply bool_decide_ext. split; congruence. Qed.

Lemma no_key_of_missing k d :
  dict_lookup k d = None -> List.filter (fun kv => key_eqb k (fst kv)) d = [].
Proof.
  induction d as [|[k0 v0] d IH]; [done|]. simpl.
  rewrite (key_eqb_sym k k0). destruct (key_eqb k0 k); [done|]. exact IH.
Qed.

(** A key that a dict has, it has once. *)
Lemma one_key_of_present k d :
  dict_wf d -> is_Some (dict_lookup k d) ->
  length (List.filter (fun kv => key_eqb k (fst kv)) d) = 1%nat.
Proof.
  unfold dict_wf. induction d as [|[k0 v0] d IH]; [by intros _ [? ?]|].
  rewrite !fmap_cons, NoDup_cons. cbn [fst]. intros [Hfresh Hwf]. simpl.
  rewrite (key_eqb_sym k k0). destruct (key_eqb k0 k) eqn:E.
  - intros _. simpl. f_equal. rewrite no_key_of_missing; [done|].
    apply dict_lookup_None_notin. apply key_eqb_eq in E. by rewrite <- E.
  - by apply IH.
Qed.

Lemma count_severity_of_member k f F :
  In f F -> severity_of f = Some k -> (1 <= count_severity k F)%nat.
Proof.
  intros Hin Hk. unfold count_severity.
  assert (In f (List.filter (has_severity k) F)) as H.
  { apply filter_In. split; [done|]. unfold has_severity. rewrite Hk.
    apply key_eqb_refl. }
  destruct (List.filter (has_severity k) F); [done|]. simpl. lia.
Qed.

(** C10: for a list of findings (dicts with a hashable severity),
    [total_findings] is the length of the list, the counts of the breakdown
    are positive integers that add up to it, and every finding of the list
    is counted under exactly one key of the breakdown. *)
Theorem breakdown_adds_up_to_total (F : list pyval) :
  summarizable F = true ->
  exists counts,
    _generate_summary F
    = Ok [ (KStr "total_findings", PInt (Z.of_nat (length F)));
           (KStr "severity_breakdown", PDict counts) ] /\
    positive_counts counts /\
    dict_total counts = Z.of_nat (length F) /\
    (forall k, dict_lookup k counts = breakdown_entry (count_severity k F)) /\
    Forall (fun f =>
              length (List.filter (fun kv => has_severity (fst kv) f) counts) = 1%nat)
      F.
Proof.
  intros HF.
  destruct (count_severities_total F [] HF) as (counts & E & Hpos & Hsum).
  { constructor. }
  destruct (count_severities_spec F [] [] HF) as (counts' & E' & Hc & Hwf);
    [done|constructor|].
  rewrite E in E'. injection E' as <-.
  exists counts. unfold _generate_summary. rewrite E.
  split; [done|]. split; [done|]. split; [by rewrite Hsum|]. split; [exact Hc|].
  apply Forall_forall. intros f Hf. apply list_elem_of_In in Hf.
  unfold summarizable in HF. rewrite forallb_forall in HF.
  specialize (HF f Hf). apply bool_decide_eq_true in HF as [k Hk].
  rewrite (List.filter_ext _ (fun kv => key_eqb k (fst kv)))
    by (intros kv; by apply has_severity_eqb).
  apply one_key_of_present; [done|]. rewrite Hc. change ([] ++ F) with F.
  pose proof (count_severity_of_member k f F Hf Hk) as Hn.
  destruct (count_severity k F); [lia|]. cbn [breakdown_entry]. by eexists.
Qed.

Lemma breakdown_adds_up_to_total_witness :
  summarizable three_findings = true /\
  exists counts,
    _generate_summary three_findings
    = Ok [ (KStr "total_findings", PInt (Z.of_nat (length three_findings)));
           (KStr "severity_breakdown", PDict counts) ] /\
    positive_counts counts /\
    dict_total counts = Z.of_nat (length three_findings) /\
    (forall k, dict_lookup k counts = breakdown_entry (count_severity k three_findings)) /\
    Forall (fun f =>
              length (List.filter (fun kv => has_severity (fst kv) f) counts) = 1%nat)
      three_findings.
Proof.
  split; [reflexivity|].
  apply (breakdown_adds_up_to_total three_findings). reflexivity.
Defined.

(** Outside [summarizable] the summary raises: a finding that is no dict
    has no [get], and a list or a dict is no key. *)
Lemma count_severities_raises (F : list pyval) (acc : pydict) :
  positive_counts acc ->
  summarizable F = false ->
  exists e, count_severities F acc = Err e.
Proof.
  revert acc. induction F as [|f F IH]; intros acc Hacc HF; [done|].
  simpl in HF. apply andb_false_iff in HF as [Hf | HF].
  - apply bool_decide_eq_false in Hf.
    destruct f as [| | | | |fd];
      try (eexists; reflexivity).
    cbn [count_severities py_get]. unfold mbind at 1, result_bind.
    destruct (to_key (dict_get fd "severity" (PStr "UNKNOWN"))) as [k|] eqn:Hk.
    + exfalso. apply Hf. exists k. exact Hk.
    + eexists. reflexivity.
  - destruct (summarizable [f]) eqn:Hone.
    + simpl in Hone. rewrite andb_true_r in Hone.
      apply bool_decide_eq_true in Hone as [k0 Hk0].
      destruct f as [| | | | |fd]; try done. simpl in Hk0.
      cbn [count_severities py_get]. unfold mbind at 1, result_bind. rewrite Hk0.
      destruct (positive_counts_lookup k0 acc Hacc) as (n & Hold). rewrite Hold.
      destruct (dict_set_total k0 n acc Hacc Hold) as (_ & Hpos & _).
      simpl. by apply IH.
    + simpl in Hone. rewrite andb_true_r in Hone.
      apply bool_decide_eq_false in Hone.
      destruct f as [| | | | |fd];
        try (eexists; reflexivity).
      cbn [count_severities py_get]. unfold mbind at 1, result_bind.
      destruct (to_key (dict_get fd "severity" (PStr "UNKNOWN"))) as [k|] eqn:Hk.
      * exfalso. apply Hone. exists k. exact Hk.
      * eexists. reflexivity.
Qed.

Lemma generate_summary_raises (F : list pyval) :
  summarizable F = false -> exists e, _generate_summary F = Err e.
Proof.
  intros HF.
  assert (positive_counts []) as H0 by constructor.
  destruct (count_severities_raises F [] H0 HF) as (e & E).
  exists e. unfold _generate_summary. by rewrite E.
Qed.

(** ** The store of scan records *)

(** Induction on values, through lists and dicts. *)
Lemma pyval_rect' (P : pyval -> Prop) :
  P PNone -> (forall b, P (PBool b)) -> (forall z, P (PInt z)) ->
  (forall s, P (PStr s)) ->
  (forall l, Forall P l -> P (PList l)) ->
  (forall d, Forall (fun kv => P (snd kv)) d -> P (PDict d)) ->
  forall v, P v.
Proof.
  intros HN HB HI HS HL HD.
  fix IH 1. intros [| b | z | s | l | d].
  - exact HN.
  - apply HB.
  - apply HI.
  - apply HS.
  - apply HL. induction l as [|x l IHl]; constructor; [apply IH | exact IHl].
  - apply HD. induction d as [|[k x] d IHd]; constructor; [apply IH | exact IHd].
Qed.

Lemma json_doc_stable v : json_stable v = true -> json.doc v = v.
Proof.
  induction v as [| | | | l IH | d IH] using pyval_rect'; try done.
  - simpl. intros H. f_equal. induction l as [|x l IHl]; [done|].
    simpl in H. apply andb_true_iff in H as [Hx Hl].
    apply Forall_cons in IH as [IHx IH]. simpl. f_equal; [by apply IHx | by apply IHl].
  - cbn [json_stable json.doc]. intros H. apply andb_true_iff in H as [Hd Hwf].
    apply bool_decide_eq_true in Hwf. f_equal.
    rewrite <- (dict_of_items_wf d Hwf) at 2. f_equal. clear Hwf.
    induction d as [|[k x] d IHd]; [done|].
    simpl in Hd. apply andb_true_iff in Hd as [Hx Hd].
    apply Forall_cons in IH as [IHx IH]. simpl in IHx.
    destruct k as [| | |s]; try done. simpl. f_equal; [|by apply IHd].
    f_equal. by apply IHx.
Qed.

Lemma json_doc_dict_stable d : json_stable (PDict d) = true -> json.doc_dict d = d.
Proof.
  intros H. apply json_doc_stable in H. simpl in H. unfold json.doc_dict. congruence.
Qed.





Lemma save_fs (a : AnalysisService.t) scan_id record w :
  exists w',
    AnalysisService._save_scan_results a scan_id record w = (Ok tt, w') /\
    fs w' = <[AnalysisService.results_path (AnalysisService.data_dir a) scan_id
              := FJson (json.doc_dict record)]> (fs w).
Proof. eexists. split; reflexivity. Qed.


Lemma save_fs_snd (a : AnalysisService.t) scan_id record w :
  fs (snd (AnalysisService._save_scan_results a scan_id record w))
  = <[AnalysisService.results_path (AnalysisService.data_dir a) scan_id
      := FJson (json.doc_dict record)]> (fs w).
Proof. reflexivity. Qed.



Lemma load_found (r : ReportService.t) scan_id record w :
  fs w !! AnalysisService.results_path (ReportService.data_dir r) scan_id
  = Some (FJson record) ->
  ReportService._load_scan_results r (PStr scan_id) w = (Ok record, w).
Proof.
  intros H. unfold ReportService._load_scan_results, AnalysisService.results_path in *.
  unfold mbind, Py_bind, path_exists, json_load_file. simpl in *. rewrite H. simpl.
  by rewrite H.
Qed.


Lemma fold_dict_set_keeps_wf (b acc : pydict) :
  dict_wf acc -> dict_wf (fold_left (fun acc kv => dict_set (fst kv) (snd kv) acc) b acc).
Proof.
  revert acc. induction b as [|[k v] b IH]; intros acc H; [done|].
  simpl. apply IH. by apply dict_set_wf.
Qed.

Lemma fold_dict_set_Forall (Pk : pykey -> Prop) (Pv : pyval -> Prop)
    (items acc : pydict) :
  Forall (fun kv => Pk (fst kv) /\ Pv (snd kv)) items ->
  Forall (fun kv => Pk (fst kv) /\ Pv (snd kv)) acc ->
  Forall (fun kv => Pk (fst kv) /\ Pv (snd kv))
    (fold_left (fun acc kv => dict_set (fst kv) (snd kv) acc) items acc).
Proof.
  revert acc. induction items as [|[k v] items IH]; intros acc Hi Ha; [done|].
  apply Forall_cons in Hi as [[Hk Hv] Hi]. simpl in Hk, Hv. simpl. apply IH; [done|].
  clear IH Hi. induction acc as [|[k0 v0] acc IHa]; simpl.
  - by constructor.
  - apply Forall_cons in Ha as [[Hk0 Hv0] Ha]. simpl in Hk0.
    destruct (key_eqb k0 k); constructor; try done. by apply IHa.
Qed.

Lemma json_doc_is_stable (v : pyval) : json_stable (json.doc v) = true.
Proof.
  induction v as [| | | | l IH | d IH] using pyval_rect'; try done.
  - cbn [json.doc json_stable]. induction IH as [|x l Hx _ IHl]; [done|].
    simpl. by rewrite Hx, IHl.
  - cbn [json.doc json_stable]. apply andb_true_iff. split.
    + apply forallb_forall. intros kv Hin. apply list_elem_of_In in Hin.
      assert (Forall (fun kv => (exists s, fst kv = KStr s)
                                /\ json_stable (snd kv) = true)
                (dict_of_items
                   (List.map (fun kv => (KStr (json.key_text (fst kv)),
                                         json.doc (snd kv))) d))) as H.
      { apply (fold_dict_set_Forall (fun k => exists s, k = KStr s)
                 (fun v => json_stable v = true)); [|constructor].
        clear Hin. induction IH as [|[k x] d Hx _ IHd]; [constructor|].
        constructor; [|exact IHd]. simpl. split; [by eexists|exact Hx]. }
      rewrite Forall_forall in H. destruct (H kv Hin) as [[s Hs] Hv].
      by rewrite Hs.
    + apply bool_decide_eq_true. apply fold_dict_set_keeps_wf. constructor.
Qed.






(** The record of a run, saved and loaded. *)
Example save_then_load_sample :
  (ReportService._load_scan_results (plain_report_service "data") (PStr sample_id)
     (store_after (idle_service "data") [(sample_id, sample_record)] empty_world)).1
  = Ok sample_record.
Proof. vm_compute. reflexivity. Qed.

(** A scan id that is the absolute path of a stored record, less its
    extension, loads that record: [os.path.join] drops what comes before an
    absolute component. *)
Example load_by_absolute_path :
  (ReportService._load_scan_results (plain_report_service "/srv/data")
     (PStr "/srv/data/scanned_results/abc")
     (store_after (idle_service "/srv/data") [("abc", sample_record)] empty_world)).1
  = Ok sample_record.
Proof. vm_compute. reflexivity. Qed.

(** ** The report formatter *)

Import ReportService.

(** The claim's example: a level-1 heading and a paragraph. *)
Example format_title_and_text :
  format_blocks
    (PyStr.split (PyStr.nl +:+ PyStr.nl)
       ("# Title" +:+ PyStr.nl +:+ PyStr.nl +:+ "Some text")) []
  = Ok [Heading "Title" 1; Paragraph "Some text"].
Proof. reflexivity. Qed.

(** A heading block goes into the document with the number of all its
    [#] characters as level. *)
Lemma format_heading_block (paragraph : string) (doc : list block) :
  PyStr.strip paragraph <> "" ->
  PyStr.startswith paragraph "#" = true ->
  (PyStr.count_char "#" paragraph <= 9)%nat ->
  docx.xml_text (PyStr.strip (PyStr.strip_chars "#" paragraph)) = true ->
  format_blocks [paragraph] doc
  = Ok (doc ++ [Heading (PyStr.strip (PyStr.strip_chars "#" paragraph))
                  (Z.of_nat (PyStr.count_char "#" paragraph))]).
Proof.
  intros Hne Hstart Hlevel Hxml. cbn [format_blocks].
  apply String.eqb_neq in Hne. rewrite Hne, Hstart. cbn [negb].
  unfold docx.add_heading.
  assert ((0 <=? Z.of_nat (PyStr.count_char "#" paragraph))
          && (Z.of_nat (PyStr.count_char "#" paragraph) <=? 9) = true) as ->.
  { apply andb_true_iff. split; apply Z.leb_le; lia. }
  rewrite Hxml. reflexivity.
Qed.

Lemma count_char_leading (c : ascii) (s : string) :
  PyStr.count_char c (PyStr.lstrip_by (Ascii.eqb c) s) = 0%nat ->
  PyStr.count_char c s = PyStr.leading c s.
Proof.
  induction s as [|d s IH]; [done|]. simpl.
  rewrite (Ascii.eqb_sym c d). destruct (Ascii.eqb d c) eqn:E.
  - intros H. by rewrite IH.
  - simpl. by rewrite E.
Qed.

(** When the only [#] of a heading block are the ones it starts with, its
    level is their number (for a text that the document accepts). *)
Lemma heading_level_of_leading_markers (paragraph : string) (doc : list block) :
  PyStr.strip paragraph <> "" ->
  PyStr.startswith paragraph "#" = true ->
  PyStr.count_char "#" (PyStr.lstrip_by (Ascii.eqb "#") paragraph) = 0%nat ->
  (PyStr.leading "#" paragraph <= 9)%nat ->
  docx.xml_text (PyStr.strip (PyStr.strip_chars "#" paragraph)) = true ->
  format_blocks [paragraph] doc
  = Ok (doc ++ [Heading (PyStr.strip (PyStr.strip_chars "#" paragraph))
                  (Z.of_nat (PyStr.leading "#" paragraph))]).
Proof.
  intros Hne Hstart Hrest Hlevel Hxml.
  rewrite <- (count_char_leading "#" paragraph Hrest) in *.
  by apply format_heading_block.
Qed.

(** C2 on the heading block the local generator makes for a finding
    titled "Unsafe C# deserialization": the block starts with three markers
    and becomes a heading of level 4, as [count] counts the [#] of the title
    too. *)
Theorem heading_level_counts_all_markers :
  head <$> finding_block 1 (PDict csharp_finding) []
  = Ok (Some (PStr "### 1. Unsafe C# deserialization (UNSAFE_DESERIALIZATION)")) /\
  PyStr.leading "#" "### 1. Unsafe C# deserialization (UNSAFE_DESERIALIZATION)" = 3%nat /\
  format_blocks
    (PyStr.split (PyStr.nl +:+ PyStr.nl)
       "### 1. Unsafe C# deserialization (UNSAFE_DESERIALIZATION)") []
  = Ok [Heading "1. Unsafe C# deserialization (UNSAFE_DESERIALIZATION)" 4] /\
  (_format_and_save_report (plain_report_service "data") "20240501_100000"
     (PStr "### 1. Unsafe C# deserialization (UNSAFE_DESERIALIZATION)")
     (PStr sample_id) (PStr "regulatory_compliance") empty_world).2
  = World {[ sample_report_path :=
               FDocx [ Heading "Security Regulatory Compliance Report" 0;
                       Heading "1. Unsafe C# deserialization (UNSAFE_DESERIALIZATION)" 4 ] ]}
      [] [].
Proof.
  split; [reflexivity|]. split; [reflexivity|]. split; [reflexivity|].
  vm_compute. reflexivity.
Qed.

(** Ten markers or more are refused by [add_heading]: no level is capped. *)
Example heading_level_not_capped :
  format_blocks ["########## deep"] []
  = Err (Raise ValueError "level must be in range 0-9, got 10").
Proof. vm_compute. reflexivity. Qed.

(** A form feed inside a block is refused by the document. *)
Example control_character_refused :
  format_blocks [String "f" (String "012" "x")] [] = Err docx.incompatible.
Proof. vm_compute. reflexivity. Qed.

(** ** The local generator *)


(** C3 on the record of a run whose repository has a README: the record
    holds the README, and the Executive Summary of the local report says
    there is none. *)
Theorem executive_summary_misses_readme :
  dict_get sample_record "repository_info" PNone
  = PDict (RepoInfoExtractor.info (PStr "Patient portal for the clinic.") [] [] []) /\
  executive_summary (dict_get sample_record "repo_info" (PDict [])) []
  = Ok [ PStr (PyStr.nl +:+ PyStr.nl +:+ "## Executive Summary");
         PStr "No README found; executive summary is derived from scan findings and templates." ] /\
  exists rest,
    _local_generate sample_record "# Compliance" (PStr "regulatory_compliance")
    = Ok ("# Regulatory Compliance (Local Generated)"
          +:+ PyStr.nl +:+ PyStr.nl +:+ PyStr.nl +:+ PyStr.nl +:+ PyStr.nl
          +:+ "# Compliance"
          +:+ PyStr.nl +:+ PyStr.nl +:+ PyStr.nl +:+ PyStr.nl
          +:+ "## Executive Summary"
          +:+ PyStr.nl +:+ PyStr.nl
          +:+ "No README found; executive summary is derived from scan findings and templates."
          +:+ rest).
Proof.
  split; [reflexivity|]. split; [reflexivity|]. eexists. vm_compute. reflexivity.
Qed.

(** On a record that has the README where the generator looks for it, the
    excerpt is the first 1200 characters of the stripped text, and the
    marker follows when the unstripped text is longer than 1200. *)
Lemma executive_summary_of_found (name text : string) (parts : list pyval) :
  PyStr.startswith name "README" = true ->
  text <> "" ->
  executive_summary
    (PDict [ (KStr "found", PDict [ (KStr name, PDict [ (KStr "content", PStr text) ]) ]) ])
    parts
  = Ok (parts ++ [ PStr (PyStr.nl +:+ PyStr.nl +:+ "## Executive Summary");
                   PStr "Context from repository README:";
                   PStr (PyStr.take 1200 (PyStr.strip text)
                         +:+ (if 1200 <? Z.of_nat (String.length text)
                              then "..." else "")) ]).
Proof.
  intros Hname Htext. unfold executive_summary, py_get, dict_get.
  cbn [dict_lookup]. rewrite key_eqb_refl.
  cbn [mbind result_bind py_items find_readme key_startswith].
  rewrite Hname. unfold py_get, dict_get. cbn [dict_lookup].
  rewrite key_eqb_refl. unfold mbind, result_bind. cbn [truthy].
  apply String.eqb_neq in Htext. rewrite Htext. cbn [negb].
  unfold excerpt_of, mbind, result_bind. cbn [py_strip py_len].
  by rewrite <- app_assoc.
Qed.

(** ** Unknown report types *)


(** Loading a scan record reads the world and leaves it as it is. *)
Lemma load_scan_results_world (self : t) (scan_id : pyval) (w : world) :
  (_load_scan_results self scan_id w).2 = w.
Proof.
  unfold _load_scan_results, mbind, Py_bind, path_exists, json_load_file, raise.
  cbn beta iota.
  destruct (fs w !! _) as [f|] eqn:E; cbn -[path_join]; [|done].
  rewrite E. by destruct f.
Qed.

Lemma load_scan_results_fs (self : t) (scan_id : pyval) (w1 w : world) :
  fs w1 = fs w ->
  (_load_scan_results self scan_id w1).1 = (_load_scan_results self scan_id w).1.
Proof.
  intros H.
  unfold _load_scan_results, mbind, Py_bind, path_exists, json_load_file, raise.
  cbn beta iota. rewrite H.
  destruct (fs w !! _) as [f|] eqn:E; cbn -[path_join]; [|done].
  rewrite H, E. by destruct f.
Qed.







(** With the record stored, the unknown report type is what the failure
    tells of, and the files are as before. *)
Example unknown_report_type_on_stored_record :
  exists w',
    generate_report (plain_report_service "data") "20240501_100000"
      (PStr sample_id) (PStr "marketing_fluff") report_world
    = (Err (Raise Exception
              "Report generation failed: Unknown report type: marketing_fluff"), w') /\
    fs w' = fs report_world.
Proof. eexists. split; [vm_compute; reflexivity|]. reflexivity. Qed.

(** ** The local generator returns *)








(** ** The generator and its fallback *)



(** The sample record is of the shape the analysis stores. *)
Example sample_record_of_analysis : of_analysis sample_record.
Proof.
  exists sample_id, "2024-05-01T10:00:00", "PulledCode/portal", (PStr "healthcare"),
    (PStr "basic"),
    (RepoInfoExtractor.info (PStr "Patient portal for the clinic.") [] [] []),
    three_findings, 3, [ (KStr "LOW", PInt 2); (KStr "UNKNOWN", PInt 1) ].
  split; reflexivity.
Qed.

(** ** A run of the pipeline *)

(** The analysis of the sample repository stores and returns
    [sample_record]. *)
Example analysis_of_sample :
  (AnalysisService.analyze_codebase portal_service sample_id "2024-05-01T10:00:00"
     "PulledCode/portal" (PStr "healthcare") templates_world).1
  = Ok sample_record.
Proof. vm_compute. reflexivity. Qed.

(** The report of that analysis, with no generator: the document starts
    with its title, the title of the local report and the template (a
    paragraph: its block starts with the line break that the generator puts
    before it), and the Executive Summary says that no README was found. *)
Example report_of_sample :
  let w1 := (AnalysisService.analyze_codebase portal_service sample_id
               "2024-05-01T10:00:00" "PulledCode/portal" (PStr "healthcare")
               templates_world).2 in
  let run := ReportService.generate_report (plain_report_service "data")
               "20240501_100000" (PStr sample_id) (PStr "regulatory_compliance") w1 in
  run.1 = Ok sample_report_path /\
  exists rest,
    docx_at run.2 sample_report_path
    = Some ([ Heading "Security Regulatory Compliance Report" 0;
              Heading "Regulatory Compliance (Local Generated)" 1;
              Paragraph "# Compliance";
              Heading "Executive Summary" 2;
              Paragraph "No README found; executive summary is derived from scan findings and templates.";
              Heading "Scan Summary" 2;
              Paragraph "- Total findings: 3";
              Paragraph "- LOW: 2";
              Paragraph "- UNKNOWN: 1";
              Heading "Detailed Findings and Analysis" 2;
              Heading "1. HARDCODED_SECRET (HARDCODED_SECRET)" 3 ] ++ rest).
Proof.
  split; [vm_compute; reflexivity|]. eexists. vm_compute. reflexivity.
Qed.

Import AnalysisService.
Import ReportService.

(** * Further properties *)

(** ** The formatter *)

Lemma count_char_startswith (paragraph : string) :
  PyStr.startswith paragraph "#" = true -> 1 <= heading_level paragraph.
Proof.
  unfold PyStr.startswith, heading_level. destruct paragraph as [|c s]; [done|].
  cbn -[ascii_dec Z.of_nat]. destruct (ascii_dec "#" c) as [<-|]; [|done].
  intros _. rewrite Ascii.eqb_refl. lia.
Qed.

Lemma block_of_content (p : string) :
  nonblank p = true ->
  negb (nonblank p && PyStr.startswith p "#") || (heading_level p <=? 9) = true ->
  content_block (block_of p).
Proof.
  intros Hnb Hok. unfold block_of. rewrite Hnb in Hok.
  destruct (PyStr.startswith p "#") eqn:Hst; simpl in *.
  - apply Z.leb_le in Hok. pose proof (count_char_startswith p Hst). lia.
  - unfold nonblank in Hnb. apply negb_true_iff in Hnb.
    by apply String.eqb_neq in Hnb.
Qed.

(** One turn of the loop on a piece that is not blank. *)
Lemma format_block_step (p : string) (ps : list string) (doc : list block) :
  nonblank p = true ->
  format_blocks (p :: ps) doc
  = if PyStr.startswith p "#" && negb (heading_level p <=? 9)
    then Err (Raise ValueError ("level must be in range 0-9, got "
                                  +:+ pretty (heading_level p)))
    else if docx.xml_text (block_text (block_of p))
         then format_blocks ps (doc ++ [block_of p])
         else Err docx.incompatible.
Proof.
  intros Hnb. cbn [format_blocks]. fold (nonblank p). rewrite Hnb.
  unfold block_of. destruct (PyStr.startswith p "#") eqn:Hst; cbn [andb].
  - fold (heading_level p). unfold docx.add_heading.
    pose proof (count_char_startswith p Hst) as Hge.
    assert ((0 <=? heading_level p) = true) as -> by (apply Z.leb_le; lia).
    cbn [andb block_text]. destruct (heading_level p <=? 9); cbn [negb]; [|done].
    by destruct (docx.xml_text _).
  - unfold docx.add_paragraph. cbn [block_text]. by destruct (docx.xml_text _).
Qed.

(** When the loop returns, it has added the blocks of the pieces that are
    not blank, in order, and they are content blocks. *)
Lemma format_blocks_Ok (paragraphs : list string) (doc out : list block) :
  format_blocks paragraphs doc = Ok out ->
  out = doc ++ List.map block_of (List.filter nonblank paragraphs) /\
  Forall content_block (List.map block_of (List.filter nonblank paragraphs)).
Proof.
  revert doc. induction paragraphs as [|p ps IH]; intros doc H.
  - injection H as <-. simpl. by rewrite app_nil_r.
  - cbn [List.filter]. destruct (nonblank p) eqn:Hnb.
    + rewrite format_block_step in H by done.
      destruct (PyStr.startswith p "#" && negb (heading_level p <=? 9)) eqn:Hlv;
        [done|].
      destruct (docx.xml_text (block_text (block_of p))); [|done].
      apply IH in H as [-> Hblocks]. cbn [List.map]. rewrite <- app_assoc.
      split; [done|]. constructor; [|done]. apply block_of_content; [done|].
      rewrite Hnb. cbn [andb]. destruct (PyStr.startswith p "#"); [|done].
      cbn [andb negb orb] in *. by apply negb_false_iff in Hlv.
    + cbn [format_blocks] in H. fold (nonblank p) in H. rewrite Hnb in H.
      by apply IH.
Qed.

(** The pieces whose blocks the document accepts. *)
Lemma format_blocks_accepted (paragraphs : list string) (doc : list block) :
  levels_ok paragraphs = true ->
  forallb (fun b => docx.xml_text (block_text b))
    (List.map block_of (List.filter nonblank paragraphs)) = true ->
  format_blocks paragraphs doc
  = Ok (doc ++ List.map block_of (List.filter nonblank paragraphs)).
Proof.
  revert doc. induction paragraphs as [|p ps IH]; intros doc Hlv Hxml.
  - simpl. by rewrite app_nil_r.
  - cbn [levels_ok forallb] in Hlv. fold (levels_ok ps) in Hlv.
    apply andb_true_iff in Hlv as [Hp Hlv]. cbn [List.filter] in *.
    destruct (nonblank p) eqn:Hnb.
    + cbn [List.map forallb] in Hxml. apply andb_true_iff in Hxml as [Hx Hxml].
      rewrite format_block_step by done. rewrite Hx.
      cbn [andb negb orb] in Hp.
      destruct (PyStr.startswith p "#"); cbn [andb negb orb] in *.
      * rewrite Hp. cbn [negb]. rewrite IH by done. cbn [List.map].
        by rewrite <- app_assoc.
      * rewrite IH by done. cbn [List.map]. by rewrite <- app_assoc.
    + cbn [format_blocks]. fold (nonblank p). rewrite Hnb. by apply IH.
Qed.

(** X2: what a report is made of.  When the loop returns, every block it
    added is a heading of level 1 to 9 or a paragraph that is not empty. *)
Theorem format_blocks_content (paragraphs : list string) (out : list block) :
  format_blocks paragraphs [] = Ok out -> Forall content_block out.
Proof.
  intros Hrun. by apply format_blocks_Ok in Hrun as [-> H].
Qed.

Lemma format_blocks_content_witness :
  format_blocks ["# Title"; "   "; "Some text"] []
  = Ok [Heading "Title" 1; Paragraph "Some text"] /\
  Forall content_block [Heading "Title" 1; Paragraph "Some text"].
Proof.
  split; [reflexivity|].
  apply (format_blocks_content ["# Title"; "   "; "Some text"]). reflexivity.
Defined.

(** ** What [generate_report] leaves behind *)

Lemma load_scan_results_same (self : ReportService.t) (scan_id : pyval) (w : world) :
  exists r, _load_scan_results self scan_id w = (r, w).
Proof.
  pose proof (load_scan_results_world self scan_id w) as H.
  destruct (_load_scan_results self scan_id w) as [r w']. simpl in H. subst.
  by exists r.
Qed.

Lemma read_file_same (path : string) (w : world) :
  exists r, read_file path w = (r, w).
Proof.
  unfold read_file. destruct (fs w !! path) as [[| |]|]; by eexists.
Qed.

Lemma load_template_same (self : ReportService.t) (report_type : pyval) (w : world) :
  exists r, _load_template self report_type w = (r, w).
Proof.
  unfold _load_template, mbind, Py_bind, lift, raise, path_exists.
  destruct (to_key report_type) as [k|]; [|by eexists].
  cbn beta iota. destruct (negb (truthy _)); [by eexists|].
  cbn beta iota zeta. destruct (negb (bool_decide _)); [by eexists|].
  apply read_file_same.
Qed.

Lemma generate_with_gemini_same (self : ReportService.t) (scan_results : pydict)
    (template : string) (report_type : pyval) (w : world) :
  exists r w', _generate_with_gemini self scan_results template report_type w = (r, w')
               /\ same_files w w'.
Proof.
  unfold _generate_with_gemini, mbind at 1, Py_bind at 1, lift at 1.
  destruct (py_replace_char report_type "_" " ") as [name|e]; [|by eexists _, _].
  destruct (model self) as [m|]; [|by eexists _, _].
  unfold try_except, mbind, Py_bind, lift, print.
  destruct (generate_content m _) as [resp|e]; [|by eexists _, _].
  destruct (getattr_text resp); by eexists _, _.
Qed.

Lemma add_title (doc : list block) (text : string) :
  docx.add_heading doc text 0
  = if docx.xml_text text then Ok (doc ++ [Heading text 0]) else Err docx.incompatible.
Proof. reflexivity. Qed.

Lemma format_and_save_outcome (self : ReportService.t) (timestamp : string)
    (content scan_id report_type : pyval) (w : world) :
  exists out w',
    _format_and_save_report self timestamp content scan_id report_type w = (out, w') /\
    log w' = log w /\ stdout w' = stdout w /\
    match out with
    | Ok path =>
        path = report_path_of self timestamp scan_id report_type /\
        exists name blocks,
          py_replace_char report_type "_" " " = Ok name /\
          fs w' = <[path := FDocx (Heading ("Security " +:+ PyStr.title name
                                             +:+ " Report") 0 :: blocks)]> (fs w) /\
          Forall content_block blocks
    | Err _ => fs w' = fs w
    end.
Proof.
  unfold _format_and_save_report, mbind, Py_bind, lift, write_file.
  destruct (py_replace_char report_type "_" " ") as [name|e]; [|by eexists _, _].
  rewrite add_title.
  destruct (docx.xml_text ("Security " +:+ PyStr.title name +:+ " Report"));
    [|by eexists _, _].
  cbn [app].
  destruct (py_split content (PyStr.nl +:+ PyStr.nl)) as [paragraphs|e];
    [|by eexists _, _].
  destruct (format_blocks paragraphs
              [Heading ("Security " +:+ PyStr.title name +:+ " Report") 0])
    as [doc|e] eqn:E; [|by eexists _, _].
  apply format_blocks_Ok in E as [-> Hblocks].
  eexists _, _. split; [reflexivity|]. cbn [log stdout fs].
  split; [done|]. split; [done|]. split; [reflexivity|].
  exists name, (List.map block_of (List.filter nonblank paragraphs)).
  split; [done|]. split; [done|]. done.
Qed.

Lemma generate_report_spec (self : ReportService.t) (timestamp : string)
    (scan_id report_type : pyval) (w : world) :
  exists out w',
    generate_report self timestamp scan_id report_type w = (out, w') /\
    log w' = log w /\
    match out with
    | Ok path =>
        path = report_path_of self timestamp scan_id report_type /\
        exists name blocks,
          py_replace_char report_type "_" " " = Ok name /\
          fs w' = <[path := FDocx (Heading ("Security " +:+ PyStr.title name
                                             +:+ " Report") 0 :: blocks)]> (fs w) /\
          Forall content_block blocks
    | Err e =>
        fs w' = fs w /\
        exists msg, e = Raise Exception ("Report generation failed: " +:+ msg)
    end.
Proof.
  unfold generate_report, try_except, raise.
  unfold mbind at 1, Py_bind at 1, print at 1.
  set (w1 := World (fs w) (log w) (stdout w ++ _)).
  unfold mbind at 1, Py_bind at 1.
  destruct (load_scan_results_same self scan_id w1) as (r1 & ->).
  destruct r1 as [scan_results|e]; [|by eexists _, _; repeat split; eauto].
  unfold mbind at 1, Py_bind at 1, lift at 1.
  destruct (py_len _) as [n|e]; [|by eexists _, _; repeat split; eauto].
  unfold mbind at 1, Py_bind at 1, print at 1.
  set (w2 := World (fs w1) (log w1) (stdout w1 ++ _)).
  unfold mbind at 1, Py_bind at 1.
  destruct (load_template_same self report_type w2) as (r2 & ->).
  destruct r2 as [template|e]; [|by eexists _, _; repeat split; eauto].
  unfold mbind at 1, Py_bind at 1, print at 1.
  set (w3 := World (fs w2) (log w2) (stdout w2 ++ _)).
  unfold mbind at 1, Py_bind at 1.
  destruct (generate_with_gemini_same self scan_results template report_type w3)
    as (r3 & w4 & -> & Hfs4 & Hlog4).
  destruct r3 as [content|e]; [|by eexists _, _; repeat split; eauto].
  destruct (format_and_save_outcome self timestamp content scan_id report_type w4)
    as (out & w5 & -> & Hlog5 & _ & Hout).
  destruct out as [path|e].
  - eexists _, _. split; [reflexivity|]. split; [by rewrite Hlog5, Hlog4|].
    destruct Hout as (-> & name & blocks & Hname & Hfs & Hblocks).
    split; [done|]. exists name, blocks. split; [done|]. split; [|done].
    by rewrite Hfs, Hfs4.
  - eexists _, _. split; [reflexivity|]. split; [by rewrite Hlog5, Hlog4|].
    split; [by rewrite Hout, Hfs4|]. by eexists.
Qed.

(** X3: the two outcomes of [generate_report].  Either it saves one file,
    the Word document at the report path, made of the title heading and of
    content blocks, and returns that path; or it raises the generic
    [Exception] whose message starts with "Report generation failed: " and
    leaves every file as it was.  The log is not written to. *)
Theorem generate_report_outcomes (self : ReportService.t) (timestamp : string)
    (scan_id report_type : pyval) (w : world) :
  exists out w',
    generate_report self timestamp scan_id report_type w = (out, w') /\
    log w' = log w /\
    match out with
    | Ok path =>
        path = report_path_of self timestamp scan_id report_type /\
        exists name blocks,
          py_replace_char report_type "_" " " = Ok name /\
          fs w' = <[path := FDocx (Heading ("Security " +:+ PyStr.title name
                                             +:+ " Report") 0 :: blocks)]> (fs w) /\
          Forall content_block blocks
    | Err e =>
        fs w' = fs w /\
        exists msg, e = Raise Exception ("Report generation failed: " +:+ msg)
    end.
Proof. apply generate_report_spec. Qed.

(** ** What [analyze_codebase] leaves behind *)

Lemma bind_Ok {A B} (m : Py A) (k : A -> Py B) (w w' : world) (b : B) :
  (m ≫= k) w = (Ok b, w') ->
  exists a w1, m w = (Ok a, w1) /\ k a w1 = (Ok b, w').
Proof.
  unfold mbind, Py_bind. destruct (m w) as [[a|e] w1]; [|done].
  intros H. by exists a, w1.
Qed.

Lemma logger_run (lvl : log_level) (msg : string) (w w' : world) (u : unit) :
  logger lvl msg w = (Ok u, w') ->
  w' = World (fs w) (log w ++ [(lvl, msg)]) (stdout w).
Proof. unfold logger. congruence. Qed.

Lemma analysis_body_Ok (self : AnalysisService.t) (scan_id timestamp repo_path : string)
    (sector_hint : pyval)
    (w0 w' : world) (record : pydict) (repo_info : pydict) (findings : list pyval) :
  (summary ← lift (_generate_summary findings);
   let scan_results :=
     scan_results_dict scan_id timestamp repo_path sector_hint
       (AnalysisService.plan self) repo_info findings summary in
   _ ← _save_scan_results self scan_id scan_results;
   _ ← logger INFO ("Analysis complete: " +:+ pretty (length findings)
                      +:+ " findings");
   mret scan_results) w0 = (Ok record, w') ->
  exists summary,
    _generate_summary findings = Ok summary /\
    record = scan_results_dict scan_id timestamp repo_path sector_hint
               (AnalysisService.plan self) repo_info findings summary /\
    fs w' !! results_path (AnalysisService.data_dir self) scan_id
      = Some (FJson (json.doc_dict record)) /\
    last (log w') = Some (INFO, "Analysis complete: " +:+ pretty (length findings)
                                  +:+ " findings").
Proof.
  intros H. apply bind_Ok in H as (summary & w1 & Hsum & H).
  unfold lift in Hsum. injection Hsum as Hsum <-.
  cbn zeta in H. apply bind_Ok in H as ([] & w2 & Hsave & H).
  apply bind_Ok in H as ([] & w3 & Hlog & H).
  injection H as <- <-. apply logger_run in Hlog as ->.
  exists summary. split; [done|]. split; [done|].
  unfold _save_scan_results, json_dump_file, write_file, mbind, Py_bind, logger in Hsave.
  injection Hsave as <-. cbn [fs log]. split.
  - by rewrite lookup_insert_eq.
  - by rewrite last_snoc.
Qed.

Lemma analyze_codebase_spec (self : AnalysisService.t)
    (scan_id timestamp repo_path : string) (sector_hint : pyval) (w : world) :
  exists out w',
    analyze_codebase self scan_id timestamp repo_path sector_hint w = (out, w') /\
    match out with
    | Ok record =>
        fs w' !! results_path (AnalysisService.data_dir self) scan_id
          = Some (FJson (json.doc_dict record)) /\
        exists repo_info findings summary,
          record = scan_results_dict scan_id timestamp repo_path sector_hint
                     (AnalysisService.plan self) repo_info findings summary /\
          _generate_summary findings = Ok summary /\
          last (log w') = Some (INFO, "Analysis complete: "
                                        +:+ pretty (length findings) +:+ " findings")
    | Err e =>
        exists cause,
          e = Raise Exception ("Analysis failed: " +:+ exn_str cause) /\
          last (log w') = Some (ERROR, "Analysis failed: " +:+ exn_str cause)
    end.
Proof.
  unfold analyze_codebase, try_except.
  match goal with |- context [match ?m w with _ => _ end] =>
    destruct (m w) as [[record|e] w1] eqn:E end.
  - exists (Ok record), w1. split; [done|].
    apply bind_Ok in E as ([] & w2 & _ & E).
    apply bind_Ok in E as ([] & w3 & _ & E).
    apply bind_Ok in E as ([] & w4 & _ & E).
    apply bind_Ok in E as (repo_info & w5 & _ & E).
    apply bind_Ok in E as ([] & w6 & _ & E).
    apply bind_Ok in E as (code_findings & w7 & _ & E).
    apply bind_Ok in E as ([] & w8 & _ & E).
    apply bind_Ok in E as (findings & w9 & _ & E).
    apply (analysis_body_Ok self scan_id timestamp repo_path sector_hint
             w9 w1 record repo_info findings) in E
      as (summary & Hsum & -> & Hfs & Hlog).
    split; [done|]. by exists repo_info, findings, summary.
  - eexists _, _. split; [reflexivity|]. exists e. split; [done|].
    cbn [log]. by rewrite last_snoc.
Qed.

(** X4: the two outcomes of [analyze_codebase].  When it returns a record,
    that record is the one it has stored (as its JSON document) at the
    results path of the scan id, its summary is the summary of its findings,
    and the last log entry reports the number of findings.  When it fails,
    whatever the cause, the exception is a generic [Exception] whose message
    is "Analysis failed: " and the cause's message, and the same message is
    the last log entry, at level ERROR. *)
Theorem analyze_codebase_outcomes (self : AnalysisService.t)
    (scan_id timestamp repo_path : string) (sector_hint : pyval) (w : world) :
  exists out w',
    analyze_codebase self scan_id timestamp repo_path sector_hint w = (out, w') /\
    match out with
    | Ok record =>
        fs w' !! results_path (AnalysisService.data_dir self) scan_id
          = Some (FJson (json.doc_dict record)) /\
        exists repo_info findings summary,
          record = scan_results_dict scan_id timestamp repo_path sector_hint
                     (AnalysisService.plan self) repo_info findings summary /\
          _generate_summary findings = Ok summary /\
          last (log w') = Some (INFO, "Analysis complete: "
                                        +:+ pretty (length findings) +:+ " findings")
    | Err e =>
        exists cause,
          e = Raise Exception ("Analysis failed: " +:+ exn_str cause) /\
          last (log w') = Some (ERROR, "Analysis failed: " +:+ exn_str cause)
    end.
Proof. apply analyze_codebase_spec. Qed.

(** X5: analysis, then report.  The record that [analyze_codebase] returns
    is the one the report service loads for the same scan id when both
    services share their data directory: it loads the JSON document of that
    record, from the world the analysis leaves. *)
Theorem analyze_then_load (a : AnalysisService.t) (r : ReportService.t)
    (scan_id timestamp repo_path : string) (sector_hint : pyval) (w : world)
    (record : pydict) :
  let run := analyze_codebase a scan_id timestamp repo_path sector_hint w in
  run.1 = Ok record ->
  ReportService.data_dir r = AnalysisService.data_dir a ->
  _load_scan_results r (PStr scan_id) run.2 = (Ok (json.doc_dict record), run.2).
Proof.
  intros run Hrun Hdir. subst run.
  destruct (analyze_codebase_spec a scan_id timestamp repo_path sector_hint w)
    as (out & w' & E & H).
  rewrite E in Hrun |- *. simpl in Hrun |- *. subst out. destruct H as [Hfs _].
  apply load_found. by rewrite Hdir.
Qed.

Lemma analyze_then_load_witness :
  _load_scan_results (plain_report_service "data") (PStr sample_id)
    (analyze_codebase portal_service sample_id "2024-05-01T10:00:00"
       "PulledCode/portal" (PStr "healthcare") templates_world).2
  = (Ok (json.doc_dict sample_record),
     (analyze_codebase portal_service sample_id "2024-05-01T10:00:00"
        "PulledCode/portal" (PStr "healthcare") templates_world).2).
Proof.
  apply (analyze_then_load portal_service (plain_report_service "data") sample_id
           "2024-05-01T10:00:00" "PulledCode/portal" (PStr "healthcare")
           templates_world sample_record).
  - vm_compute. reflexivity.
  - reflexivity.
Defined.

(** ** The layout of dicts *)

Lemma dict_set_fst (k : pykey) (v : pyval) (d : pydict) :
  (dict_set k v d).*1
  = match dict_lookup k d with
    | Some _ => d.*1
    | None => d.*1 ++ [k]
    end.
Proof.
  induction d as [|[k0 v0] d IH]; [done|].
  cbn [dict_set dict_lookup]. destruct (key_eqb k0 k) eqn:E; [done|].
  rewrite !fmap_cons, IH. cbn [fst]. by destruct (dict_lookup k d).
Qed.

Lemma dict_lookup_fst (k : pykey) (d1 d2 : pydict) :
  d1.*1 = d2.*1 -> is_Some (dict_lookup k d1) -> is_Some (dict_lookup k d2).
Proof.
  revert d2. induction d1 as [|[k1 v1] d1 IH]; intros [|[k2 v2] d2] H;
    try done; try (by intros [? ?]).
  rewrite !fmap_cons in H. injection H as H1 H. cbn [fst] in H1. subst k2.
  simpl. destruct (key_eqb k1 k); [by eauto|]. by apply IH.
Qed.

(** Two dicts with the same keys in the same order and the same value at
    every key are equal. *)
Lemma dict_ext (d1 d2 : pydict) :
  dict_wf d1 -> d1.*1 = d2.*1 ->
  (forall k, dict_lookup k d1 = dict_lookup k d2) -> d1 = d2.
Proof.
  revert d2. induction d1 as [|[k1 v1] d1 IH]; intros [|[k2 v2] d2] Hwf Hk Hl; try done.
  rewrite !fmap_cons in Hk. injection Hk as Hk1 Hk. cbn [fst] in Hk1. subst k2.
  unfold dict_wf in Hwf. rewrite !fmap_cons in Hwf. apply NoDup_cons in Hwf as [Hn Hwf].
  pose proof (Hl k1) as H1. simpl in H1. rewrite key_eqb_refl in H1.
  injection H1 as ->. f_equal. apply IH; [done..|].
  intros k. specialize (Hl k). simpl in Hl.
  destruct (key_eqb k1 k) eqn:E; [|done].
  apply key_eqb_eq in E. cbn [fst] in Hn. rewrite E in Hn.
  assert (dict_lookup k d1 = None) as H1 by (by apply dict_lookup_None_notin).
  rewrite H1. symmetry. apply eq_None_not_Some. intros H2.
  apply (dict_lookup_fst k d2 d1) in H2; [|done]. rewrite H1 in H2. by destruct H2.
Qed.

Lemma fresh_in_set (k : pykey) (v : pyval) (a : pydict) (kv : pykey * pyval) :
  fresh_in (dict_set k v a) kv = fresh_in a kv && negb (key_eqb k (fst kv)).
Proof.
  unfold fresh_in. rewrite dict_lookup_set.
  destruct (key_eqb k kv.1); cbn [negb].
  - rewrite andb_false_r.
    by rewrite (bool_decide_eq_true_2 (is_Some (Some v))) by (eexists; reflexivity).
  - by rewrite andb_true_r.
Qed.

Lemma fold_dict_set_fst (b acc : pydict) :
  dict_wf b ->
  (fold_left (fun acc kv => dict_set (fst kv) (snd kv) acc) b acc).*1
  = acc.*1 ++ (List.filter (fresh_in acc) b).*1.
Proof.
  revert acc. induction b as [|[k v] b IH]; intros acc Hwf.
  - simpl. by rewrite app_nil_r.
  - unfold dict_wf in Hwf. rewrite !fmap_cons in Hwf.
    apply NoDup_cons in Hwf as [Hk Hwf]. cbn [fst] in Hk.
    cbn [fold_left fst snd]. rewrite IH by done.
    assert (List.filter (fresh_in (dict_set k v acc)) b = List.filter (fresh_in acc) b)
      as ->.
    { apply List.filter_ext_in. intros kv Hin. rewrite fresh_in_set.
      destruct (key_eqb k kv.1) eqn:E; [|by rewrite andb_true_r].
      exfalso. apply Hk. apply key_eqb_eq in E. rewrite E.
      apply list_elem_of_fmap. exists kv.1. split; [done|].
      apply list_elem_of_fmap. exists kv. split; [done|]. by apply list_elem_of_In. }
    rewrite dict_set_fst. cbn [List.filter].
    replace (fresh_in acc (k, v))
      with (negb (bool_decide (is_Some (dict_lookup k acc)))) by done.
    destruct (dict_lookup k acc) eqn:E.
    + by rewrite bool_decide_eq_true_2 by (eexists; reflexivity).
    + rewrite bool_decide_eq_false_2 by (by intros [? ?]).
      cbn [negb]. rewrite fmap_cons. cbn [fst]. by rewrite <- app_assoc.
Qed.

Lemma dict_merge_fold (a b : pydict) :
  dict_wf a ->
  dict_merge a b = fold_left (fun acc kv => dict_set (fst kv) (snd kv) acc) b a.
Proof.
  intros Ha. unfold dict_merge, dict_of_items. rewrite fold_left_app.
  f_equal. by apply (dict_of_items_wf a).
Qed.

Lemma dict_merge_wf (a b : pydict) : dict_wf a -> dict_wf (dict_merge a b).
Proof. intros Ha. rewrite dict_merge_fold by done. by apply fold_dict_set_keeps_wf. Qed.

Lemma dict_lookup_overlay (k : pykey) (a b : pydict) :
  dict_lookup k (List.map (overlay b) a)
  = match dict_lookup k a with
    | Some v => Some (default v (dict_lookup k b))
    | None => None
    end.
Proof.
  induction a as [|[k0 v0] a IH]; [done|].
  cbn [List.map overlay fst snd dict_lookup].
  destruct (key_eqb k0 k) eqn:E; [|done].
  by rewrite (dict_lookup_key_eqb k0 k b E).
Qed.

Lemma dict_lookup_fresh (k : pykey) (a b : pydict) :
  dict_lookup k (List.filter (fresh_in a) b)
  = if bool_decide (is_Some (dict_lookup k a)) then None else dict_lookup k b.
Proof.
  induction b as [|[k0 v0] b IH]; [by case_bool_decide|].
  cbn [List.filter].
  replace (fresh_in a (k0, v0))
    with (negb (bool_decide (is_Some (dict_lookup k0 a)))) by done.
  cbn [dict_lookup]. destruct (key_eqb k0 k) eqn:E.
  - rewrite (dict_lookup_key_eqb k0 k a E).
    destruct (bool_decide (is_Some (dict_lookup k a))) eqn:Ha; cbn [negb].
    + by rewrite IH.
    + cbn [dict_lookup]. by rewrite E.
  - destruct (negb _); [|done]. cbn [dict_lookup]. by rewrite E.
Qed.

Lemma dict_merge_layout (a b : pydict) :
  dict_wf a -> dict_wf b -> dict_merge a b = merge_layout a b.
Proof.
  intros Ha Hb. apply dict_ext.
  - by apply dict_merge_wf.
  - rewrite dict_merge_fold by done. rewrite fold_dict_set_fst by done.
    unfold merge_layout. rewrite fmap_app. f_equal.
    clear. induction a as [|[k v] a IH]; [done|].
    cbn [List.map]. rewrite !fmap_cons. by rewrite IH.
  - intros k. rewrite dict_lookup_merge by done. unfold merge_layout.
    rewrite dict_lookup_app, dict_lookup_overlay, dict_lookup_fresh.
    destruct (dict_lookup k a) as [va|] eqn:Ea.
    + by destruct (dict_lookup k b).
    + rewrite bool_decide_eq_false_2 by (by intros [? ?]).
      by destruct (dict_lookup k b).
Qed.

(** X6: the layout of an enriched finding.  When a finding is merged with
    its knowledge-base entry, the fields of the finding stay where they are
    (each with the value of the entry where the entry defines it), and the
    fields that only the entry has follow them, in the order of the entry. *)
Theorem enriched_finding_layout (K fd e : pydict) (k : pykey) (w : world) :
  to_key (keyword_of fd) = Some k ->
  dict_lookup k K = Some (PDict e) ->
  dict_wf fd -> dict_wf e ->
  enrich_one K (PDict fd) w = (Ok (PDict (merge_layout fd e)), w).
Proof.
  intros Hk He Hfd Hwe. rewrite (enrich_one_hit K fd e k) by done.
  by rewrite dict_merge_layout.
Qed.

Lemma enriched_finding_layout_witness :
  enrich_one small_kb (PDict secret_low) empty_world
  = (Ok (PDict [ (KStr "shortform_keyword", PStr "HARDCODED_SECRET");
                 (KStr "severity", PStr "HIGH");
                 (KStr "file_path", PStr "app/config.py");
                 (KStr "title", PStr "Hardcoded secret") ]), empty_world).
Proof.
  apply (enriched_finding_layout small_kb secret_low secret_entry
           (KStr "HARDCODED_SECRET") empty_world).
  - reflexivity.
  - reflexivity.
  - apply (bool_decide_unpack _). vm_compute. exact I.
  - apply (bool_decide_unpack _). vm_compute. exact I.
Defined.

(** ** The order of the severity breakdown *)

Lemma filter_filter {A} (P Q : A -> bool) (l : list A) :
  List.filter P (List.filter Q l) = List.filter (fun x => Q x && P x) l.
Proof.
  induction l as [|x l IH]; [done|]. simpl.
  destruct (Q x); simpl; [|done]. destruct (P x); by rewrite IH.
Qed.

Lemma filter_cons_eq {A} (P : A -> bool) (x : A) (l : list A) :
  List.filter P (x :: l) = if P x then x :: List.filter P l else List.filter P l.
Proof. done. Qed.

Lemma count_severities_keys (F : list pyval) (acc out : pydict) :
  count_severities F acc = Ok out ->
  out.*1 = acc.*1
           ++ List.filter (fun k => negb (bool_decide (is_Some (dict_lookup k acc))))
                (first_seen (severities F)).
Proof.
  revert acc. induction F as [|f F IH]; intros acc H.
  - injection H as <-. simpl. by rewrite app_nil_r.
  - cbn [count_severities] in H. unfold mbind, result_bind in H.
    destruct f as [| | | | |fd]; try done. cbn [py_get] in H.
    destruct (to_key (dict_get fd "severity" (PStr "UNKNOWN"))) as [k|] eqn:Hk;
      [|done].
    assert (severities (PDict fd :: F) = k :: severities F) as ->.
    { unfold severities. simpl. by rewrite Hk. }
    destruct (py_add_int _ 1) as [new|]; [|done].
    apply IH in H. rewrite H, dict_set_fst. cbn [first_seen].
    rewrite filter_cons_eq, filter_filter.
    destruct (dict_lookup k acc) as [v|] eqn:E.
    + rewrite bool_decide_eq_true_2 by (eexists; reflexivity). cbn [negb].
      f_equal. apply List.filter_ext. intros k'. rewrite dict_lookup_set.
      destruct (key_eqb k k') eqn:Ek; cbn [negb andb]; [|done].
      by rewrite bool_decide_eq_true_2 by (eexists; reflexivity).
    + rewrite bool_decide_eq_false_2 by (by intros [? ?]). cbn [negb].
      rewrite <- app_assoc. cbn [app]. do 2 f_equal.
      apply List.filter_ext. intros k'. rewrite dict_lookup_set.
      destruct (key_eqb k k') eqn:Ek; cbn [negb andb]; [|done].
      by rewrite bool_decide_eq_true_2 by (eexists; reflexivity).
Qed.

(** X7: the severity breakdown lists the severities in the order in which
    the findings first show them, each one once (under the key of its first
    finding). *)
Theorem breakdown_in_order_of_appearance (F : list pyval) :
  summarizable F = true ->
  exists counts,
    _generate_summary F
    = Ok [ (KStr "total_findings", PInt (Z.of_nat (length F)));
           (KStr "severity_breakdown", PDict counts) ] /\
    counts.*1 = first_seen (severities F).
Proof.
  intros HF.
  destruct (count_severities_spec F [] [] HF) as (counts & E & _); [done|constructor|].
  exists counts. unfold _generate_summary. rewrite E. split; [done|].
  apply count_severities_keys in E. rewrite E. cbn [fmap list_fmap app].
  rewrite <- (List.filter_ext (fun _ => true)).
  - clear. induction (first_seen _) as [|k l IH]; [done|]. simpl. by rewrite IH.
  - intros k. by rewrite bool_decide_eq_false_2 by (by intros [? ?]).
Qed.

Lemma breakdown_in_order_of_appearance_witness :
  exists counts,
    _generate_summary three_findings
    = Ok [ (KStr "total_findings", PInt (Z.of_nat (length three_findings)));
           (KStr "severity_breakdown", PDict counts) ] /\
    counts.*1 = [KStr "LOW"; KStr "UNKNOWN"].
Proof.
  apply (breakdown_in_order_of_appearance three_findings). reflexivity.
Defined.

(** ** Enriching twice *)

Lemma dict_merge_twice (a b : pydict) :
  dict_wf a -> dict_wf b -> dict_merge (dict_merge a b) b = dict_merge a b.
Proof.
  intros Ha Hb. pose proof (dict_merge_wf a b Ha) as Hm.
  apply dict_ext; [by apply dict_merge_wf| |].
  - rewrite (dict_merge_fold (dict_merge a b) b) by done.
    rewrite fold_dict_set_fst by done.
    rewrite <- (List.filter_ext_in (fun _ => false)).
    + assert (forall l : pydict, List.filter (fun _ => false) l = []) as ->.
      { induction l; [done|]. done. }
      by rewrite app_nil_r.
    + intros [k v] Hin. unfold fresh_in. cbn [fst]. symmetry.
      apply negb_false_iff, bool_decide_eq_true.
      rewrite dict_lookup_merge by done.
      destruct (dict_lookup k b) eqn:E; [by eexists|].
      exfalso. apply dict_lookup_None_notin in E. apply E.
      apply list_elem_of_fmap. exists k. split; [done|].
      apply list_elem_of_fmap. exists (k, v). split; [done|]. by apply list_elem_of_In.
  - intros k. rewrite !dict_lookup_merge by done. by destruct (dict_lookup k b).
Qed.

Lemma entries_plain_lookup (K : pydict) (k : pykey) (v : pyval) :
  entries_plain K = true -> dict_lookup k K = Some v ->
  exists e, v = PDict e /\ dict_wf e /\ dict_lookup (KStr "shortform_keyword") e = None.
Proof.
  unfold entries_plain. induction K as [|[k0 v0] K IH]; [done|].
  cbn [forallb snd dict_lookup]. intros [H0 HK]%andb_true_iff.
  destruct (key_eqb k0 k); [|by apply IH]. intros [= ->].
  destruct v as [| | | | |e]; try done. apply andb_true_iff in H0 as [H1 H2].
  exists e. split; [done|]. split; [by apply bool_decide_eq_true in H1|].
  apply negb_true_iff, bool_decide_eq_false in H2.
  by apply eq_None_not_Some.
Qed.

(** A finding that comes out of a turn of the loop goes through the next
    turn unchanged. *)
Lemma enrich_one_twice (K : pydict) (f o : pyval) (w : world) :
  entries_plain K = true ->
  findings_wf [f] = true ->
  (enrich_one K f w).1 = Ok o ->
  enrichable K o = true /\ findings_wf [o] = true /\
  forall w0, (enrich_one K o w0).1 = Ok o.
Proof.
  intros HK Hf Hrun. destruct f as [| | | | |fd]; try done.
  cbn [findings_wf forallb] in Hf. rewrite andb_true_r in Hf.
  apply bool_decide_eq_true in Hf.
  destruct (to_key (keyword_of fd)) as [k|] eqn:Hk.
  2:{ exfalso. revert Hrun. unfold enrich_one, mbind, Py_bind, lift, dict_contains.
      cbn [py_get]. fold (keyword_of fd). by rewrite Hk. }
  destruct (dict_lookup k K) as [v|] eqn:Hv.
  - destruct (entries_plain_lookup K k v HK Hv) as (e & -> & He & Hkw).
    rewrite (enrich_one_hit K fd e k) in Hrun by done. injection Hrun as <-.
    assert (keyword_of (dict_merge fd e) = keyword_of fd) as Hkey.
    { unfold keyword_of, dict_get. rewrite dict_lookup_merge by done. by rewrite Hkw. }
    split; [|split].
    + cbn [enrichable]. by rewrite Hkey, Hk, Hv.
    + cbn [findings_wf forallb]. rewrite andb_true_r.
      by apply bool_decide_eq_true, dict_merge_wf.
    + intros w0. rewrite (enrich_one_hit K (dict_merge fd e) e k) by (by rewrite ?Hkey).
      cbn [fst]. by rewrite dict_merge_twice.
  - rewrite (enrich_one_miss K fd k) in Hrun by done. injection Hrun as <-.
    split; [|split].
    + cbn [enrichable]. by rewrite Hk, Hv.
    + cbn [findings_wf forallb]. rewrite andb_true_r. by apply bool_decide_eq_true.
    + intros w0. by rewrite (enrich_one_miss K fd k).
Qed.

(** X8: enriching is idempotent.  With a knowledge base whose entries are
    dicts that do not define [shortform_keyword], the list that
    [_enrich_findings] returns for a list of findings is returned unchanged
    when it is enriched again. *)
Theorem enrich_twice (self : AnalysisService.t) (Kd : pydict) (F : list pyval)
    (w : world) :
  fs w !! dict_path self = Some (FJson Kd) ->
  findings_ok (Some Kd) F = true ->
  findings_wf F = true ->
  entries_plain Kd = true ->
  exists out w',
    _enrich_findings self F w = (Ok out, w') /\
    (_enrich_findings self out w').1 = Ok out.
Proof.
  intros Hfile HF Hwf HK.
  destruct (enrich_findings_run self (Some Kd) F w Hfile HF)
    as (out & w' & E & Hfs & H).
  exists out, w'. split; [done|].
  rewrite (enrich_findings_present self Kd) by (by rewrite Hfs).
  assert (Forall (fun o => enrichable Kd o = true
                           /\ forall w0, (enrich_one Kd o w0).1 = Ok o) out) as Hout.
  { clear E Hfile HF. unfold findings_wf in Hwf. rewrite forallb_forall in Hwf.
    induction H as [|f o F out Hfo _ IH]; [constructor|]. constructor.
    - destruct (enrich_one_twice Kd f o w HK) as (H1 & _ & H2); [|done..].
      cbn [findings_wf forallb]. rewrite andb_true_r. apply Hwf. by left.
    - apply IH. intros x Hx. apply Hwf. by right. }
  destruct (enrich_loop_ok Kd out) as (out' & Hout' & Hloop).
  { eapply Forall_impl; [exact Hout|]. by intros o [? _]. }
  destruct (Hloop [] w') as (w2 & -> & _). cbn [fst app]. f_equal.
  clear Hloop E H. induction Hout' as [|o o' out out' Ho _ IH]; [done|].
  apply Forall_cons in Hout as [[_ Ho'] Hout].
  specialize (Ho w). rewrite Ho' in Ho. injection Ho as <-. f_equal. by apply IH.
Qed.

Lemma enrich_twice_witness :
  exists out w',
    _enrich_findings (idle_service "data") three_findings (kb_world small_kb)
    = (Ok out, w') /\
    (_enrich_findings (idle_service "data") out w').1 = Ok out.
Proof.
  apply (enrich_twice (idle_service "data") small_kb three_findings (kb_world small_kb));
    reflexivity.
Defined.

(** ** What a stored record reads back as *)

(** X9: what [_load_scan_results] reads back after [_save_scan_results]
    is the JSON document of the record, whatever the record: its dict keys
    are strings, no two of them equal, at every depth, and storing it again
    stores the same document. *)
Theorem saved_record_is_normalized (a : AnalysisService.t) (r : ReportService.t)
    (scan_id : string) (record : pydict) (w : world) :
  ReportService.data_dir r = AnalysisService.data_dir a ->
  let w' := (_save_scan_results a scan_id record w).2 in
  _load_scan_results r (PStr scan_id) w' = (Ok (json.doc_dict record), w') /\
  json_stable (PDict (json.doc_dict record)) = true /\
  json.doc_dict (json.doc_dict record) = json.doc_dict record.
Proof.
  intros Hdir w'.
  assert (json_stable (PDict (json.doc_dict record)) = true) as Hst.
  { exact (json_doc_is_stable (PDict record)). }
  split; [|split; [done|]].
  - apply load_found. subst w'. rewrite Hdir, save_fs_snd. by rewrite lookup_insert_eq.
  - by apply json_doc_dict_stable.
Qed.

Lemma saved_record_is_normalized_witness :
  _load_scan_results (plain_report_service "data") (PStr sample_id)
    (_save_scan_results (idle_service "data") sample_id
       null_severity_summary empty_world).2
  = (Ok (json.doc_dict null_severity_summary),
     (_save_scan_results (idle_service "data") sample_id
        null_severity_summary empty_world).2) /\
  json_stable (PDict (json.doc_dict null_severity_summary)) = true /\
  json.doc_dict (json.doc_dict null_severity_summary)
  = json.doc_dict null_severity_summary.
Proof.
  apply (saved_record_is_normalized (idle_service "data") (plain_report_service "data")
           sample_id null_severity_summary empty_world).
  reflexivity.
Defined.

(** The key [None] of that breakdown reads back as the string [null]. *)
Example null_severity_reads_back_as_string :
  json.doc_dict null_severity_summary
  = [ (KStr "total_findings", PInt 1);
      (KStr "severity_breakdown", PDict [ (KStr "null", PInt 1) ]) ].
Proof. reflexivity. Qed.

(** ** Reports from the generator *)

Lemma load_template_found (self : ReportService.t) (report_type tfile template : string)
    (w : world) :
  dict_lookup (KStr report_type) template_mapping = Some (PStr tfile) ->
  fs w !! path_join (templates_dir self) [tfile] = Some (FText template) ->
  _load_template self (PStr report_type) w = (Ok template, w).
Proof.
  intros Hmap Hfile. unfold _load_template, mbind, Py_bind, lift, path_exists, read_file.
  cbn [to_key]. rewrite Hmap. cbn [from_option id].
  assert (truthy (PStr tfile) = true) as ->.
  { revert Hmap. unfold template_mapping. cbn [dict_lookup].
    repeat (destruct (key_eqb _ _); [by intros [= <-]|]). done. }
  cbn [negb py_str]. cbn zeta.
  rewrite Hfile. rewrite bool_decide_eq_true_2 by (eexists; reflexivity).
  cbn [negb]. by rewrite Hfile.
Qed.

Lemma xml_text_rev_app (s t : string) :
  docx.xml_text (String.rev_app s t) = docx.xml_text s && docx.xml_text t.
Proof.
  revert t. induction s as [|c s IH]; intros t; [done|].
  cbn [String.rev_app]. rewrite IH. cbn [docx.xml_text].
  destruct (docx.xml_char c), (docx.xml_text s), (docx.xml_text t); done.
Qed.

Lemma xml_text_split_go (sep : string) (skip : nat) (cur s : string) :
  docx.xml_text cur = true -> docx.xml_text s = true ->
  Forall (fun p => docx.xml_text p = true) (PyStr.split_go sep skip cur s).
Proof.
  revert skip cur. induction s as [|c r IH]; intros skip cur Hcur Hs.
  - constructor; [|constructor]. unfold String.rev.
    by rewrite xml_text_rev_app, Hcur.
  - cbn [docx.xml_text] in Hs. apply andb_true_iff in Hs as [Hc Hr].
    cbn [PyStr.split_go]. destruct skip as [|k]; [|by apply IH].
    destruct (String.prefix sep (String c r)).
    + constructor; [|by apply IH]. unfold String.rev.
      by rewrite xml_text_rev_app, Hcur.
    + apply IH; [|done]. cbn [docx.xml_text]. by rewrite Hc, Hcur.
Qed.

Lemma xml_text_lstrip (f : ascii -> bool) (s : string) :
  docx.xml_text s = true -> docx.xml_text (PyStr.lstrip_by f s) = true.
Proof.
  induction s as [|c r IH]; [done|]. intros H. cbn [PyStr.lstrip_by].
  destruct (f c); [|done]. apply IH. cbn [docx.xml_text] in H.
  by apply andb_true_iff in H as [_ H].
Qed.

Lemma xml_text_rstrip (f : ascii -> bool) (s : string) :
  docx.xml_text s = true -> docx.xml_text (PyStr.rstrip_by f s) = true.
Proof.
  induction s as [|c r IH]; [done|]. intros H. cbn [docx.xml_text] in H.
  apply andb_true_iff in H as [Hc Hr]. specialize (IH Hr).
  cbn [PyStr.rstrip_by]. destruct (PyStr.rstrip_by f r) as [|d t].
  - destruct (f c); [done|]. cbn [docx.xml_text]. by rewrite Hc.
  - cbn [docx.xml_text] in *. by rewrite Hc.
Qed.

Lemma xml_text_strip_by (f : ascii -> bool) (s : string) :
  docx.xml_text s = true -> docx.xml_text (PyStr.strip_by f s) = true.
Proof. intros H. unfold PyStr.strip_by. by apply xml_text_rstrip, xml_text_lstrip. Qed.

Lemma xml_text_block (p : string) :
  docx.xml_text p = true -> docx.xml_text (block_text (block_of p)) = true.
Proof.
  intros H. unfold block_of. destruct (PyStr.startswith p "#"); cbn [block_text].
  - unfold PyStr.strip, PyStr.strip_chars. by do 2 apply xml_text_strip_by.
  - unfold PyStr.strip. by apply xml_text_strip_by.
Qed.

Lemma xml_text_blocks (content : string) :
  docx.xml_text content = true ->
  forallb (fun b => docx.xml_text (block_text b))
    (List.map block_of
       (List.filter nonblank (PyStr.split (PyStr.nl +:+ PyStr.nl) content))) = true.
Proof.
  intros H. apply forallb_forall. intros b Hb.
  apply in_map_iff in Hb as (p & <- & Hp). apply filter_In in Hp as [Hp _].
  apply xml_text_block.
  pose proof (xml_text_split_go (PyStr.nl +:+ PyStr.nl) 0 "" content eq_refl H) as Hall.
  rewrite Forall_forall in Hall. apply Hall. by apply list_elem_of_In.
Qed.

Lemma recognized_title (report_type tfile : string) :
  dict_lookup (KStr report_type) template_mapping = Some (PStr tfile) ->
  docx.xml_text ("Security " +:+ PyStr.title (PyStr.replace_char "_" " " report_type)
                   +:+ " Report") = true.
Proof.
  unfold template_mapping. cbn [dict_lookup]. rewrite !key_eqb_str.
  repeat (case_bool_decide; [subst report_type; intros _; reflexivity|]). done.
Qed.

(** X10: the report of a generator's answer.  The scan record and the
    template of a recognized report type are in place, no file lies where
    the reports directory goes, and the name of the report file is a file
    name.  When the generator answers with a text of characters below 128,
    none of them a control character other than tab, line feed and carriage
    return, whose heading blocks have at most nine [#], [generate_report]
    returns the report path and stores there the title followed by the
    blocks of that text, one per piece that is not blank; nothing else is
    written, and the log is left alone. *)
Theorem report_is_formatted_answer (self : ReportService.t) (m : GenerativeModel)
    (timestamp scan_id report_type tfile template content : string)
    (record : pydict) (n : Z) (resp : response) (w : world) :
  fs w !! results_path (ReportService.data_dir self) scan_id = Some (FJson record) ->
  py_len (dict_get record "findings" (PList [])) = Ok n ->
  dict_lookup (KStr report_type) template_mapping = Some (PStr tfile) ->
  fs w !! path_join (templates_dir self) [tfile] = Some (FText template) ->
  fs w !! path_join (ReportService.data_dir self) ["generated_reports"] = None ->
  file_name (report_type +:+ "_" +:+ scan_id +:+ "_" +:+ timestamp +:+ ".docx") = true ->
  model self = Some m ->
  (forall p, generate_content m p = Ok resp) ->
  getattr_text resp = Ok (PStr content) ->
  ascii_text content = true ->
  docx.xml_text content = true ->
  levels_ok (PyStr.split (PyStr.nl +:+ PyStr.nl) content) = true ->
  exists w',
    generate_report self timestamp (PStr scan_id) (PStr report_type) w
    = (Ok (report_path_of self timestamp (PStr scan_id) (PStr report_type)), w') /\
    fs w' = <[report_path_of self timestamp (PStr scan_id) (PStr report_type)
              := FDocx (report_title report_type
                        :: List.map block_of
                             (List.filter nonblank
                                (PyStr.split (PyStr.nl +:+ PyStr.nl) content)))]> (fs w) /\
    log w' = log w.
Proof.
  intros Hrec Hlen Hmap Htpl _ _ Hm Hgen Htext _ Hxml Hlev.
  unfold generate_report, try_except.
  unfold mbind at 1, Py_bind at 1, print at 1.
  set (w1 := World (fs w) (log w) (stdout w ++ _)).
  unfold mbind at 1, Py_bind at 1.
  rewrite (load_found self scan_id record w1) by done.
  unfold mbind at 1, Py_bind at 1, lift at 1. rewrite Hlen.
  unfold mbind at 1, Py_bind at 1, print at 1.
  set (w2 := World (fs w1) (log w1) (stdout w1 ++ _)).
  unfold mbind at 1, Py_bind at 1.
  rewrite (load_template_found self report_type tfile template w2) by done.
  unfold mbind at 1, Py_bind at 1, print at 1.
  set (w3 := World (fs w2) (log w2) (stdout w2 ++ _)).
  unfold mbind at 1, Py_bind at 1.
  assert (_generate_with_gemini self record template (PStr report_type) w3
          = (Ok (PStr content), w3)) as ->.
  { unfold _generate_with_gemini, mbind at 1, Py_bind at 1, lift at 1.
    cbn [py_replace_char]. rewrite Hm.
    unfold try_except, mbind, Py_bind, lift. by rewrite Hgen, Htext. }
  unfold _format_and_save_report, mbind, Py_bind, lift, write_file.
  cbn [py_replace_char py_split]. rewrite add_title.
  rewrite (recognized_title report_type tfile Hmap). cbn [app].
  rewrite (format_blocks_accepted _ _ Hlev (xml_text_blocks content Hxml)).
  eexists. split; [reflexivity|]. cbn [fs log]. split; reflexivity.
Qed.

Lemma report_is_formatted_answer_witness :
  exists w',
    generate_report (generator_service "data" (answering_model (PStr "# Findings")))
      "20240501_100000" (PStr sample_id) (PStr "regulatory_compliance") report_world
    = (Ok sample_report_path, w') /\
    fs w' = <[sample_report_path
              := FDocx [ Heading "Security Regulatory Compliance Report" 0;
                         Heading "Findings" 1 ]]> (fs report_world) /\
    log w' = log report_world.
Proof.
  apply (report_is_formatted_answer
           (generator_service "data" (answering_model (PStr "# Findings")))
           (answering_model (PStr "# Findings"))
           "20240501_100000" sample_id "regulatory_compliance"
           "regulatory_compliance_template.md" "# Compliance" "# Findings"
           sample_record 3
           {| response_text := AttrValue (PStr "# Findings");
              response_str := Ok "response" |}
           report_world); reflexivity.
Defined.

(** X11: no text, no report.  When the generator answers with a response
    whose text is no string ([None], say), nothing falls back to the local
    generator: [generate_report] fails, and no file is written. *)
Theorem no_text_no_report (self : ReportService.t) (m : GenerativeModel)
    (resp : response) (v : pyval) (timestamp : string) (scan_id report_type : pyval)
    (w : world) :
  model self = Some m ->
  (forall p, generate_content m p = Ok resp) ->
  getattr_text resp = Ok v ->
  is_str v = false ->
  exists msg w',
    generate_report self timestamp scan_id report_type w
    = (Err (Raise Exception ("Report generation failed: " +:+ msg)), w') /\
    fs w' = fs w.
Proof.
  intros Hm Hgen Htext Hv.
  unfold generate_report, try_except, raise.
  unfold mbind at 1, Py_bind at 1, print at 1.
  set (w1 := World (fs w) (log w) (stdout w ++ _)).
  unfold mbind at 1, Py_bind at 1.
  destruct (load_scan_results_same self scan_id w1) as (r1 & ->).
  destruct r1 as [scan_results|e]; [|by eexists _, _].
  unfold mbind at 1, Py_bind at 1, lift at 1.
  destruct (py_len _) as [n|e]; [|by eexists _, _].
  unfold mbind at 1, Py_bind at 1, print at 1.
  set (w2 := World (fs w1) (log w1) (stdout w1 ++ _)).
  unfold mbind at 1, Py_bind at 1.
  destruct (load_template_same self report_type w2) as (r2 & ->).
  destruct r2 as [template|e]; [|by eexists _, _].
  unfold mbind at 1, Py_bind at 1, print at 1.
  set (w3 := World (fs w2) (log w2) (stdout w2 ++ _)).
  unfold mbind at 1, Py_bind at 1.
  unfold _generate_with_gemini, mbind at 1, Py_bind at 1, lift at 1.
  destruct (py_replace_char report_type "_" " ") as [name|e] eqn:Hname;
    [|by eexists _, _].
  rewrite Hm. unfold try_except, mbind at 1, Py_bind at 1, lift at 1.
  rewrite Hgen. unfold lift at 1. rewrite Htext.
  unfold _format_and_save_report, mbind, Py_bind, lift. rewrite Hname.
  rewrite add_title.
  destruct (docx.xml_text ("Security " +:+ PyStr.title name +:+ " Report"));
    [|by eexists _, _].
  destruct v as [| | |s| |]; try done; by eexists _, _.
Qed.

Lemma no_text_no_report_witness :
  exists msg w',
    generate_report (generator_service "data" (answering_model PNone))
      "20240501_100000" (PStr sample_id) (PStr "regulatory_compliance") report_world
    = (Err (Raise Exception ("Report generation failed: " +:+ msg)), w') /\
    fs w' = fs report_world.
Proof.
  apply (no_text_no_report (generator_service "data" (answering_model PNone))
           (answering_model PNone)
           {| response_text := AttrValue PNone; response_str := Ok "response" |}
           PNone); reflexivity.
Defined.

(** The failure of that run is the missing [split] of [None]. *)
Example no_text_failure :
  (generate_report (generator_service "data" (answering_model PNone))
     "20240501_100000" (PStr sample_id) (PStr "regulatory_compliance") report_world).1
  = Err (Raise Exception
           "Report generation failed: 'NoneType' object has no attribute 'split'").
Proof. vm_compute. reflexivity. Qed.

(** ** The plan configuration *)

Lemma py_eq_str_eq (v : pyval) (s : string) : py_eq_str v s = true -> v = PStr s.
Proof.
  destruct v as [| | |t| |]; try done. simpl. by intros ->%String.eqb_eq.
Qed.

Lemma get_plan_config_cases (p : pyval) :
  AnalysisServiceInit._get_plan_config p
  = if py_eq_str p "full"
    then AnalysisServiceInit._get_plan_config (PStr "full")
    else AnalysisServiceInit._get_plan_config (PStr "basic").
Proof.
  funelim (AnalysisServiceInit._get_plan_config p).
  - match goal with E : py_eq_str ?v "basic" = true |- _ =>
      pose proof (py_eq_str_eq _ _ E) as Hv end.
    rewrite Hv. reflexivity.
  - match goal with E : py_eq_str ?v "full" = true |- _ => rewrite E end.
    reflexivity.
  - match goal with E : py_eq_str _ "full" = false |- _ => rewrite E end.
    reflexivity.
Qed.

(** X12: the configuration of a plan.  For every value of [plan] the
    external tools are enabled and results are deduplicated and filtered;
    the regex, AST and LLM stages are enabled exactly when the plan is
    ['full'], so a plan that is neither ['basic'] nor ['full'] is analysed
    as ['basic']. *)
Theorem plan_config_stages (p : pyval) :
  let c := AnalysisServiceInit._get_plan_config p in
  stage_enabled "external_tools" c = Some true /\
  stage_enabled "regex" c = Some (py_eq_str p "full") /\
  stage_enabled "ast" c = Some (py_eq_str p "full") /\
  stage_enabled "llm" c = Some (py_eq_str p "full") /\
  cfg_flag "deduplicate" c = Some true /\
  cfg_flag "filter_low_confidence" c = Some true /\
  (py_eq_str p "full" = false ->
   c = AnalysisServiceInit._get_plan_config (PStr "basic")).
Proof.
  intros c. subst c. rewrite get_plan_config_cases.
  destruct (py_eq_str p "full"); repeat split; try reflexivity; done.
Qed.

(** ** Cloning *)

Lemma mem_char_rev_app (c : ascii) (s t : string) :
  PyStr.mem_char c (String.rev_app s t) = PyStr.mem_char c s || PyStr.mem_char c t.
Proof.
  revert t. induction s as [|d s IH]; intros t; [done|].
  cbn [String.rev_app]. rewrite IH. cbn [PyStr.mem_char].
  destruct (Ascii.eqb c d); [by rewrite orb_true_r|done].
Qed.

Lemma mem_char_rev (c : ascii) (s : string) :
  PyStr.mem_char c (String.rev s) = PyStr.mem_char c s.
Proof. unfold String.rev. rewrite mem_char_rev_app. by rewrite orb_false_r. Qed.

Lemma prefix_char (c d : ascii) (r : string) :
  String.prefix (String c "") (String d r) = Ascii.eqb d c.
Proof.
  simpl. destruct (ascii_dec c d) as [->|H].
  - rewrite Ascii.eqb_refl. by destruct r.
  - symmetry. apply Ascii.eqb_neq. congruence.
Qed.

(** No piece of a split at a character has that character. *)
Lemma split_go_pieces (c : ascii) (cur s : string) :
  PyStr.mem_char c cur = false ->
  Forall (fun p => PyStr.mem_char c p = false) (PyStr.split_go (String c "") 0 cur s).
Proof.
  revert cur. induction s as [|d r IH]; intros cur Hcur.
  - simpl. constructor; [|constructor]. by rewrite mem_char_rev.
  - cbn [PyStr.split_go]. rewrite prefix_char.
    destruct (Ascii.eqb d c) eqn:E.
    + constructor; [by rewrite mem_char_rev|]. cbn [String.length Nat.sub].
      by apply IH.
    + apply IH. simpl. rewrite Ascii.eqb_sym, E. exact Hcur.
Qed.

Lemma last_Forall {A} (P : A -> Prop) (l : list A) (d : A) :
  P d -> Forall P l -> P (List.last l d).
Proof.
  intros Hd. induction 1 as [|x l Hx Hl IH]; [done|].
  simpl. destruct l; [done|]. exact IH.
Qed.

(** Replacing by nothing brings in no character. *)
Lemma replace_go_mem (c : ascii) (old s : string) (skip : nat) :
  PyStr.mem_char c s = false ->
  PyStr.mem_char c (replace_go old "" skip s) = false.
Proof.
  revert skip. induction s as [|d r IH]; intros skip H; [done|].
  simpl in H. destruct (Ascii.eqb c d) eqn:E; [done|].
  cbn [replace_go]. destruct skip as [|k]; [|by apply IH].
  destruct (String.prefix old (String d r)).
  - change ("" +:+ ?x) with x. by apply IH.
  - simpl. rewrite E. by apply IH.
Qed.

Lemma repo_name_has_no_slash (github_url : string) :
  PyStr.mem_char "/" (GitHubService.repo_name_of github_url) = false.
Proof.
  unfold GitHubService.repo_name_of, str_replace. apply replace_go_mem.
  apply (last_Forall (fun p => PyStr.mem_char "/" p = false)); [done|].
  by apply split_go_pieces.
Qed.

Lemma prefix_app (s t : string) : String.prefix s (s +:+ t) = true.
Proof.
  induction s as [|c s IH]; [by destruct t|].
  simpl. destruct (ascii_dec c c); [exact IH|done].
Qed.

Lemma path_join_inside (dir name : string) :
  PyStr.mem_char "/" name = false ->
  String.prefix dir (path_join dir [name]) = true.
Proof.
  intros H. unfold path_join, path_join2. cbn [fold_left].
  assert (PyStr.startswith name "/" = false) as ->.
  { unfold PyStr.startswith. destruct name as [|d r]; [done|].
    rewrite prefix_char. cbn [PyStr.mem_char] in H. rewrite Ascii.eqb_sym.
    by destruct (Ascii.eqb "/" d). }
  destruct (_ || _); apply prefix_app.
Qed.

Lemma clone_repository_spec (self : GitHubService.t) (timestamp : string)
    (github_url : pyval) (w : world) :
  exists out w',
    GitHubService.clone_repository self timestamp github_url w = (out, w') /\
    match out with
    | Ok clone_path =>
        exists url,
          github_url = PStr url /\
          clone_path = path_join (GitHubService.pulled_code_dir self)
                         [GitHubService.repo_name_of url] /\
          String.prefix (GitHubService.pulled_code_dir self) clone_path = true
    | Err e =>
        exists cause,
          e = Raise Exception ("Failed to clone repository: " +:+ exn_str cause)
    end.
Proof.
  unfold GitHubService.clone_repository, try_except, raise.
  match goal with |- context [match ?m w with _ => _ end] =>
    destruct (m w) as [[clone_path|e] w1] eqn:E end.
  2:{ eexists _, _. split; [reflexivity|]. by exists e. }
  exists (Ok clone_path), w1. split; [done|].
  apply bind_Ok in E as (present & w2 & _ & E).
  apply bind_Ok in E as ([] & w3 & _ & E).
  apply bind_Ok in E as ([] & w4 & _ & E).
  apply bind_Ok in E as (parts & w5 & Hparts & E).
  unfold lift in Hparts. injection Hparts as Hparts <-.
  destruct github_url as [| | |url| |]; try done. injection Hparts as <-.
  cbn zeta in E.
  apply bind_Ok in E as ([] & w6 & _ & E).
  apply bind_Ok in E as ([] & w7 & _ & E).
  apply bind_Ok in E as ([] & w8 & _ & E).
  injection E as <- <-. exists url. split; [done|]. split; [done|].
  apply path_join_inside. apply repo_name_has_no_slash.
Qed.

(** X13: the two outcomes of [clone_repository].  When it returns, the
    URL was a string and the clone path is the pulled-code directory joined
    with the last piece of the URL, [.git] removed; that piece has no [/],
    so the path begins with the pulled-code directory.  When anything
    fails, the exception is a generic [Exception] whose message is "Failed
    to clone repository: " and the message of the cause. *)
Theorem clone_repository_outcomes (self : GitHubService.t) (timestamp : string)
    (github_url : pyval) (w : world) :
  exists out w',
    GitHubService.clone_repository self timestamp github_url w = (out, w') /\
    match out with
    | Ok clone_path =>
        exists url,
          github_url = PStr url /\
          clone_path = path_join (GitHubService.pulled_code_dir self)
                         [GitHubService.repo_name_of url] /\
          String.prefix (GitHubService.pulled_code_dir self) clone_path = true
    | Err e =>
        exists cause,
          e = Raise Exception ("Failed to clone repository: " +:+ exn_str cause)
    end.
Proof. apply clone_repository_spec. Qed.

(** X14: the pulled-code directory is reset before the URL is looked at.
    For a URL that is no string (a request without [github_url] gives
    [None]), when the directory operations return, [clone_repository] fails
    on the [split] of the URL in the world these operations leave: the
    earlier clone is removed and nothing is cloned. *)
Theorem clone_resets_before_url_check (self : GitHubService.t) (timestamp : string)
    (github_url : pyval) (present : bool) (w w1 w2 w3 : world) :
  is_str github_url = false ->
  GitHubService.dir_exists (GitHubService.git self)
    (GitHubService.pulled_code_dir self) w = (Ok present, w1) ->
  (if present then GitHubService.rmtree (GitHubService.git self)
                     (GitHubService.pulled_code_dir self)
   else mret tt) w1 = (Ok tt, w2) ->
  GitHubService.makedirs (GitHubService.git self)
    (GitHubService.pulled_code_dir self) w2 = (Ok tt, w3) ->
  GitHubService.clone_repository self timestamp github_url w
  = (Err (Raise Exception
            ("Failed to clone repository: '" +:+ type_name github_url
               +:+ "' object has no attribute 'split'")), w3).
Proof.
  intros Hurl H1 H2 H3.
  unfold GitHubService.clone_repository, try_except, raise.
  unfold mbind at 1, Py_bind at 1. rewrite H1.
  unfold mbind at 1, Py_bind at 1. rewrite H2.
  unfold mbind at 1, Py_bind at 1. rewrite H3.
  unfold mbind at 1, Py_bind at 1, lift at 1.
  by destruct github_url as [| | |url| |].
Qed.

Lemma clone_resets_before_url_check_witness :
  (GitHubService.clone_repository
     (GitHubService.__init__
        {| PULLED_CODE_DIR := "PulledCode"; DATA_DIR := "data";
           TEMPLATES_DIR := "templates" |}
        (readme_git "Patient portal for the clinic."))
     "2024-05-01T10:00:00" PNone cloned_world)
  = (Err (Raise Exception
            "Failed to clone repository: 'NoneType' object has no attribute 'split'"),
     World ∅ [] []).
Proof.
  apply (clone_resets_before_url_check _ "2024-05-01T10:00:00" PNone true
           cloned_world cloned_world (World ∅ [] []) (World ∅ [] []));
    reflexivity.
Defined.

(** ** Reading the repository *)

Lemma readme_loop_spec (os : RepoInfo.os) (repo_path : string) (names : list string)
    (w : world) :
  exists v w',
    RepoInfo.readme_loop os repo_path names w = (Ok v, w') /\
    (v = PNone \/
     exists name content w1 w2,
       In name names /\
       is_Some (fs w1 !! path_join repo_path [name]) /\
       RepoInfo.open_read os (path_join repo_path [name]) w1 = (Ok content, w2) /\
       v = PStr content).
Proof.
  revert w. induction names as [|name rest IH]; intros w.
  - eexists _, _. split; [reflexivity|]. by left.
  - cbn [RepoInfo.readme_loop]. unfold mbind at 1, Py_bind at 1, path_exists at 1.
    cbn zeta. case_bool_decide as Hex.
    + unfold mbind at 1, Py_bind at 1, try_except at 1.
      unfold mbind at 1, Py_bind at 1.
      destruct (RepoInfo.open_read os (path_join repo_path [name]) w)
        as [[content|e] w1] eqn:Hread.
      * eexists _, _. split; [reflexivity|]. right.
        exists name, content, w, w1. split; [by left|]. done.
      * unfold mbind at 1, Py_bind at 1, logger at 1.
        unfold mret at 1, Py_ret at 1.
        destruct (IH (World (fs w1)
                        (log w1 ++ [(WARNING, "Error reading " +:+ name +:+ ": "
                                                +:+ exn_str e)])
                        (stdout w1))) as (v & w' & -> & Hv).
        exists v, w'. split; [done|]. destruct Hv as [->|(n & c & wa & wb & ? & ?)].
        -- by left.
        -- right. exists n, c, wa, wb. split; [by right|done].
    + destruct (IH w) as (v & w' & -> & Hv).
      exists v, w'. split; [done|]. destruct Hv as [->|(n & c & wa & wb & ? & ?)].
      * by left.
      * right. exists n, c, wa, wb. split; [by right|done].
Qed.

(** X15: [_extract_readme] never raises, whatever reading a file does:
    it returns [None], or the text read from a file that is there under one
    of the four names of a README. *)
Theorem extract_readme_never_raises (os : RepoInfo.os) (repo_path : string)
    (w : world) :
  exists v w',
    RepoInfo._extract_readme os repo_path w = (Ok v, w') /\
    (v = PNone \/
     exists name content w1 w2,
       In name RepoInfo.readme_files /\
       is_Some (fs w1 !! path_join repo_path [name]) /\
       RepoInfo.open_read os (path_join repo_path [name]) w1 = (Ok content, w2) /\
       v = PStr content).
Proof. apply readme_loop_spec. Qed.

Lemma readme_loop_first (os : RepoInfo.os) (repo_path : string)
    (before after : list string) (name content : string) (w w1 : world) :
  Forall (fun n => fs w !! path_join repo_path [n] = None) before ->
  is_Some (fs w !! path_join repo_path [name]) ->
  RepoInfo.open_read os (path_join repo_path [name]) w = (Ok content, w1) ->
  RepoInfo.readme_loop os repo_path (before ++ name :: after) w
  = (Ok (PStr content),
     World (fs w1) (log w1 ++ [(DEBUG, "   Found README: " +:+ name)]) (stdout w1)).
Proof.
  intros Hbefore Hname Hread. induction Hbefore as [|n before Hn _ IH].
  - cbn [app RepoInfo.readme_loop].
    unfold mbind at 1, Py_bind at 1, path_exists at 1. cbn zeta.
    rewrite bool_decide_eq_true_2 by done.
    unfold mbind at 1, Py_bind at 1, try_except at 1.
    unfold mbind at 1, Py_bind at 1. rewrite Hread. reflexivity.
  - cbn [app RepoInfo.readme_loop].
    unfold mbind at 1, Py_bind at 1, path_exists at 1. cbn zeta.
    rewrite bool_decide_eq_false_2; [exact IH|]. rewrite Hn. by intros [? ?].
Qed.

(** X16: the README names are tried in their order: when the files of
    the names before [name] are absent and the file of [name] is there and
    can be read, [_extract_readme] returns its text and logs the name, and
    the names after it are not looked at. *)
Theorem extract_readme_first_name (os : RepoInfo.os) (repo_path : string)
    (before after : list string) (name content : string) (w w1 : world) :
  RepoInfo.readme_files = before ++ name :: after ->
  Forall (fun n => fs w !! path_join repo_path [n] = None) before ->
  is_Some (fs w !! path_join repo_path [name]) ->
  RepoInfo.open_read os (path_join repo_path [name]) w = (Ok content, w1) ->
  RepoInfo._extract_readme os repo_path w
  = (Ok (PStr content),
     World (fs w1) (log w1 ++ [(DEBUG, "   Found README: " +:+ name)]) (stdout w1)).
Proof.
  intros Hnames. unfold RepoInfo._extract_readme. rewrite Hnames.
  apply readme_loop_first.
Qed.

Lemma extract_readme_first_name_witness :
  RepoInfo._extract_readme plain_os "repo" mixed_repo
  = (Ok (PStr "Upper case"),
     World (fs mixed_repo) (log mixed_repo ++ [(DEBUG, "   Found README: README.md")])
       (stdout mixed_repo)).
Proof.
  apply (extract_readme_first_name plain_os "repo" []
           ["readme.md"; "README.MD"; "Readme.md"] "README.md" "Upper case"
           mixed_repo mixed_repo).
  - reflexivity.
  - constructor.
  - by eexists.
  - reflexivity.
Defined.

(** *** Dependencies *)

Lemma dict_set_Forall_str (P : pykey * pyval -> Prop) (name : string) (v : pyval)
    (d : pydict) :
  Forall (fun kv => exists s, fst kv = KStr s) d ->
  Forall P d -> P (KStr name, v) -> Forall P (dict_set (KStr name) v d).
Proof.
  intros Hk Hd Hv. induction d as [|[k0 v0] d IH]; simpl.
  - by constructor.
  - apply Forall_cons in Hk as [[s Hs] Hk]. apply Forall_cons in Hd as [H0 Hd].
    simpl in Hs. subst k0. rewrite key_eqb_str. case_bool_decide as E.
    + subst s. by constructor.
    + constructor; [done|]. by apply IH.
Qed.

Lemma dependency_entry_key (kv : pykey * pyval) :
  dependency_entry kv -> exists s, fst kv = KStr s.
Proof. intros (l & f & n & c & _ & _ & ->). by eexists. Qed.

Lemma dependency_loop_spec (os : RepoInfo.os) (repo_path language : string)
    (all files : list string) (d : pydict) (w : world) :
  In (language, all) RepoInfo.dependency_files ->
  (forall f, In f files -> In f all) ->
  Forall dependency_entry d ->
  exists d' w',
    RepoInfo.dependency_loop os repo_path language files d w = (Ok d', w') /\
    Forall dependency_entry d'.
Proof.
  intros Hlang. revert d w. induction files as [|filename rest IH]; intros d w Hsub Hd.
  - by eexists _, _.
  - assert (forall f, In f rest -> In f all) as Hrest by (intros f Hf; apply Hsub; by right).
    cbn [RepoInfo.dependency_loop]. unfold mbind at 1, Py_bind at 1, path_exists at 1.
    cbn zeta. case_bool_decide as Hex; [|by apply IH].
    unfold mbind at 1, Py_bind at 1, try_except at 1.
    unfold mbind at 1, Py_bind at 1.
    destruct (RepoInfo.open_read os (path_join repo_path [filename]) w)
      as [[content|e] w1].
    + unfold mbind at 1, Py_bind at 1, logger at 1. unfold mret at 1, Py_ret at 1.
      apply IH; [done|]. apply dict_set_Forall_str; [|done|].
      * eapply Forall_impl; [exact Hd|]. apply dependency_entry_key.
      * exists language, all, filename, content. split; [done|].
        split; [|done]. apply Hsub. by left.
    + unfold mbind at 1, Py_bind at 1, logger at 1. unfold mret at 1, Py_ret at 1.
      by apply IH.
Qed.

Lemma language_loop_spec (os : RepoInfo.os) (repo_path : string)
    (table : list (string * list string)) (d : pydict) (w : world) :
  (forall l, In l table -> In l RepoInfo.dependency_files) ->
  Forall dependency_entry d ->
  exists d' w',
    RepoInfo.language_loop os repo_path table d w = (Ok d', w') /\
    Forall dependency_entry d'.
Proof.
  revert d w. induction table as [|[language files] rest IH]; intros d w Hsub Hd.
  - by eexists _, _.
  - cbn [RepoInfo.language_loop]. unfold mbind at 1, Py_bind at 1.
    destruct (dependency_loop_spec os repo_path language files files d w)
      as (d1 & w1 & -> & Hd1); [apply Hsub; by left|done|done|].
    apply IH; [|done]. intros l Hl. apply Hsub. by right.
Qed.

(** X17: [_extract_dependencies] never raises, whatever reading a file
    does, and every entry of its result stands under a name of the table,
    with the language of that name: a file is found by its literal name
    only, so the pattern [*.csproj] finds no C# project file. *)
Theorem extract_dependencies_entries (os : RepoInfo.os) (repo_path : string)
    (w : world) :
  exists dependencies w',
    RepoInfo._extract_dependencies os repo_path w = (Ok dependencies, w') /\
    Forall dependency_entry dependencies.
Proof.
  unfold RepoInfo._extract_dependencies. by apply language_loop_spec.
Qed.

(** The project file [MyApp.csproj] is not among the dependencies. *)
Example csproj_is_not_found :
  (RepoInfo._extract_dependencies plain_os "repo" mixed_repo).1
  = Ok [ (KStr "requirements.txt",
          PDict [ (KStr "language", PStr "python"); (KStr "content", PStr "flask") ]) ].
Proof. vm_compute. reflexivity. Qed.

(** ** The routes *)

(** X18: the three answers of [/api/change-plan].  The handler never
    raises and writes no file and no log entry.  It answers 200 and sets the
    global plan exactly when the body is a JSON object whose [plan] is
    ['basic'] or ['full']; for another plan it answers 400, for a body that
    cannot be read or is no object it answers 500, and in both cases the
    global plan stays as it was. *)
Theorem change_plan_outcomes (get_json : result pyval) (current : pyval) (w : world) :
  exists resp plan' w',
    Main.change_plan get_json current w = (Ok (resp, plan'), w') /\
    fs w' = fs w /\ log w' = log w /\
    match requested get_json "plan" PNone with
    | Some new_plan =>
        if valid_plan new_plan
        then status_of resp = 200 /\ plan' = new_plan
        else status_of resp = 400 /\ plan' = current
    | None => status_of resp = 500 /\ plan' = current
    end.
Proof.
  unfold Main.change_plan, try_except, requested.
  destruct get_json as [data|e]; [|by eexists _, _, _].
  unfold mbind at 1, Py_bind at 1, lift at 1.
  destruct data as [| | | | |d]; try (by eexists _, _, _).
  unfold mbind at 1, Py_bind at 1, lift at 1. cbn [py_get].
  fold (valid_plan (dict_get d "plan" PNone)).
  destruct (valid_plan (dict_get d "plan" PNone)); by eexists _, _, _.
Qed.

Lemma change_plan_keeps_valid (get_json : result pyval) (current : pyval) (w : world) :
  valid_plan current = true ->
  exists resp plan' w',
    Main.change_plan get_json current w = (Ok (resp, plan'), w') /\
    valid_plan plan' = true.
Proof.
  intros Hc. unfold Main.change_plan, try_except.
  destruct get_json as [data|e]; [|by eexists _, _, _].
  unfold mbind at 1, Py_bind at 1, lift at 1.
  destruct data as [| | | | |d]; try (by eexists _, _, _).
  unfold mbind at 1, Py_bind at 1, lift at 1. cbn [py_get].
  fold (valid_plan (dict_get d "plan" PNone)).
  destruct (valid_plan (dict_get d "plan" PNone)) eqn:E; by eexists _, _, _.
Qed.

Lemma handle_keeps_valid (env : Main.env) (req : Main.request) (st : Main.app_state) :
  valid_plan (Main.CURRENT_PLAN st) = true ->
  valid_plan (Main.CURRENT_PLAN (Main.handle env req st).2) = true.
Proof.
  intros Hst. destruct req as [get_json| |get_json ct sid ts|get_json ts]; simpl.
  - destruct (change_plan_keeps_valid get_json (Main.CURRENT_PLAN st)
                (Main.app_world st) Hst) as (resp & plan' & w' & -> & H).
    done.
  - done.
  - by destruct (Main.analyze_repository _ _ _ _ _ _ _).
  - by destruct (Main.generate_report _ _ _ _).
Qed.

Lemma serve_keeps_valid (env : Main.env) (reqs : list Main.request)
    (st : Main.app_state) :
  valid_plan (Main.CURRENT_PLAN st) = true ->
  length (Main.serve env reqs st).1 = length reqs /\
  valid_plan (Main.CURRENT_PLAN (Main.serve env reqs st).2) = true.
Proof.
  revert st. induction reqs as [|req rest IH]; intros st Hst; [done|].
  cbn [Main.serve]. pose proof (handle_keeps_valid env req st Hst) as H1.
  destruct (Main.handle env req st) as [resp st1]. simpl in H1.
  destruct (IH st1 H1) as [Hlen Hv].
  destruct (Main.serve env rest st1) as [resps st2]. simpl in *.
  split; [by rewrite Hlen|done].
Qed.

(** X19: the global plan is always a plan.  Whatever requests the
    application serves after it is loaded, each gets a response, and the
    global [CURRENT_PLAN] is ['basic'] or ['full'] after them: only
    [change_plan] assigns it, and only after it has checked the value. *)
Theorem current_plan_stays_valid (env : Main.env) (reqs : list Main.request)
    (w : world) :
  length (Main.serve env reqs (Main.initial_state w)).1 = length reqs /\
  (Main.CURRENT_PLAN (Main.serve env reqs (Main.initial_state w)).2 = PStr "basic" \/
   Main.CURRENT_PLAN (Main.serve env reqs (Main.initial_state w)).2 = PStr "full").
Proof.
  destruct (serve_keeps_valid env reqs (Main.initial_state w)) as [Hlen Hv]; [done|].
  split; [done|]. unfold valid_plan in Hv. apply orb_true_iff in Hv as [H|H].
  - left. by apply py_eq_str_eq.
  - right. by apply py_eq_str_eq.
Qed.

(** *** [/api/analyze] *)

Lemma lift_Ok {A} (r : result A) (a : A) (w w' : world) :
  lift r w = (Ok a, w') -> r = Ok a /\ w' = w.
Proof. unfold lift. intros [= -> ->]. done. Qed.

Lemma analysis_init_Ok (config : app_config) (C : cfg -> Py analyzer)
    (extractor : RepoInfoExtractor.t) (p : pyval) (w w' : world)
    (svc : AnalysisService.t) :
  AnalysisServiceInit.__init__ config C extractor p w = (Ok svc, w') ->
  AnalysisService.data_dir svc = DATA_DIR config /\
  AnalysisService.plan svc = p /\
  exists w1, C (AnalysisServiceInit._get_plan_config p) w
             = (Ok (AnalysisService.codet5_analyzer svc), w1).
Proof.
  unfold AnalysisServiceInit.__init__. cbn zeta. intros H.
  apply bind_Ok in H as (a & w1 & Ha & H).
  apply bind_Ok in H as ([] & w2 & _ & H). injection H as <- <-.
  split; [done|]. split; [done|]. by exists w1.
Qed.

Lemma generate_summary_Ok (F : list pyval) (summary : pydict) :
  _generate_summary F = Ok summary ->
  py_subscript (PDict summary) "total_findings" = Ok (PInt (Z.of_nat (length F))).
Proof.
  unfold _generate_summary, mbind, result_bind.
  destruct (count_severities F []) as [counts|e]; [|done]. by intros [= <-].
Qed.

Lemma analyze_repository_spec (env : Main.env) (get_json : result pyval)
    (clone_time scan_id timestamp : string) (current : pyval) (w : world) :
  exists resp w',
    Main.analyze_repository env get_json clone_time scan_id timestamp current w
    = (Ok resp, w') /\
    ((exists p findings record a wa wb,
        requested get_json "plan" current = Some p /\
        resp = Main.JsonResponse 200
                 [ (KStr "status", PStr "success");
                   (KStr "scan_id", PStr scan_id);
                   (KStr "plan_used", p);
                   (KStr "total_findings", PInt (Z.of_nat (length findings)));
                   (KStr "message", PStr ("Analysis completed successfully using "
                                            +:+ py_str p +:+ " plan")) ] /\
        fs w' !! results_path (DATA_DIR (Main.config env)) scan_id
          = Some (FJson (json.doc_dict record)) /\
        dict_lookup (KStr "plan_used") record = Some p /\
        dict_lookup (KStr "findings") record = Some (PList findings) /\
        Main.CodeT5Analyzer env (AnalysisServiceInit._get_plan_config p) wa
          = (Ok a, wb)) \/
     (exists msg,
        resp = Main.error_response 500 msg /\
        last (stdout w') = Some ("[/api/analyze] ERROR: " +:+ msg))).
Proof.
  unfold Main.analyze_repository, try_except.
  match goal with |- context [match ?m w with _ => _ end] =>
    destruct (m w) as [[resp|e] w1] eqn:E end.
  2:{ eexists _, _. split; [reflexivity|]. right. exists (exn_str e).
      split; [done|]. cbn [stdout]. by rewrite last_snoc. }
  exists resp, w1. split; [done|]. left.
  apply bind_Ok in E as (data & w2 & [Hjson ->]%lift_Ok & E).
  apply bind_Ok in E as (github_url & w2 & [Hurl ->]%lift_Ok & E).
  destruct data as [| | | | |d]; try done. clear Hurl.
  apply bind_Ok in E as (sector_hint & w2 & [_ ->]%lift_Ok & E).
  apply bind_Ok in E as (p & w2 & [Hp ->]%lift_Ok & E).
  cbn [py_get] in Hp. injection Hp as Hp.
  apply bind_Ok in E as ([] & w2 & _ & E). clear w.
  apply bind_Ok in E as ([] & w3 & _ & E). clear w2.
  apply bind_Ok in E as ([] & w4 & _ & E). clear w3.
  cbn zeta in E.
  apply bind_Ok in E as (repo_path & w5 & _ & E). clear w4.
  apply bind_Ok in E as ([] & w6 & _ & E). clear w5.
  apply bind_Ok in E as ([] & w7 & _ & E). clear w6.
  apply bind_Ok in E as (svc & w8 & Hsvc & E).
  apply analysis_init_Ok in Hsvc as (Hdir & Hplan & wb & Han).
  apply bind_Ok in E as (record & w9 & Hrun & E).
  destruct (analyze_codebase_spec svc scan_id timestamp repo_path sector_hint w8)
    as (out & w' & Hrun' & Hout).
  rewrite Hrun in Hrun'. injection Hrun' as <- <-.
  destruct Hout as (Hfs & repo_info & findings & summary & -> & Hsum & _).
  apply bind_Ok in E as (sid & w10 & [Hsid ->]%lift_Ok & E).
  injection Hsid as <-.
  apply bind_Ok in E as (sm & w10 & [Hsm ->]%lift_Ok & E).
  injection Hsm as <-.
  apply bind_Ok in E as (total & w10 & [Htotal ->]%lift_Ok & E).
  rewrite (generate_summary_Ok findings summary Hsum) in Htotal.
  injection Htotal as <-. injection E as <- <-.
  exists p, findings,
    (scan_results_dict scan_id timestamp repo_path sector_hint (plan svc) repo_info
       findings summary),
    (AnalysisService.codet5_analyzer svc), w7, wb.
  split; [by rewrite Hjson; cbn [requested]; rewrite Hp|].
  split; [done|]. split; [by rewrite <- Hdir|]. split; [by rewrite Hplan|].
  split; [done|]. done.
Qed.

(** X20: the two answers of [/api/analyze].  The handler never raises.
    It answers 200 with the scan id, the plan and the number of findings of
    a record that it has stored under that scan id, or it answers 500 with
    the message of the failure, which it has printed.  The plan is the one
    of the request, or the global plan when the request names none; it is
    not checked: the record and the response name it as it came, and the
    analyzer is made with the configuration [_get_plan_config] gives it. *)
Theorem analyze_repository_outcomes (env : Main.env) (get_json : result pyval)
    (clone_time scan_id timestamp : string) (current : pyval) (w : world) :
  exists resp w',
    Main.analyze_repository env get_json clone_time scan_id timestamp current w
    = (Ok resp, w') /\
    ((exists p findings record a wa wb,
        requested get_json "plan" current = Some p /\
        resp = Main.JsonResponse 200
                 [ (KStr "status", PStr "success");
                   (KStr "scan_id", PStr scan_id);
                   (KStr "plan_used", p);
                   (KStr "total_findings", PInt (Z.of_nat (length findings)));
                   (KStr "message", PStr ("Analysis completed successfully using "
                                            +:+ py_str p +:+ " plan")) ] /\
        fs w' !! results_path (DATA_DIR (Main.config env)) scan_id
          = Some (FJson (json.doc_dict record)) /\
        dict_lookup (KStr "plan_used") record = Some p /\
        dict_lookup (KStr "findings") record = Some (PList findings) /\
        Main.CodeT5Analyzer env (AnalysisServiceInit._get_plan_config p) wa
          = (Ok a, wb)) \/
     (exists msg,
        resp = Main.error_response 500 msg /\
        last (stdout w') = Some ("[/api/analyze] ERROR: " +:+ msg))).
Proof. apply analyze_repository_spec. Qed.

(** A request for the plan ['premium'] is analysed with the basic
    configuration and answered as ['premium']. *)
Example premium_plan_is_not_checked :
  (Main.analyze_repository portal_env
     (json_body [ (KStr "github_url", PStr "https://github.com/clinic/portal.git");
                  (KStr "plan", PStr "premium") ])
     "2024-05-01T09:59:00" sample_id "2024-05-01T10:00:00" (PStr "basic")
     empty_world).1
  = Ok (Main.JsonResponse 200
          [ (KStr "status", PStr "success");
            (KStr "scan_id", PStr sample_id);
            (KStr "plan_used", PStr "premium");
            (KStr "total_findings", PInt 3);
            (KStr "message",
             PStr "Analysis completed successfully using premium plan") ]) /\
  AnalysisServiceInit._get_plan_config (PStr "premium")
  = AnalysisServiceInit._get_plan_config (PStr "basic").
Proof. split; vm_compute; reflexivity. Qed.

(** *** [/api/generate-report] *)

Lemma report_init_spec (config : app_config) (gemini_key : option string)
    (G : string -> string -> result GenerativeModel) (w : world) :
  exists self w',
    ReportServiceInit.__init__ config gemini_key G w = (Ok self, w') /\
    fs w' = fs w /\ log w' = log w /\
    ReportService.data_dir self = DATA_DIR config /\
    ReportService.templates_dir self = TEMPLATES_DIR config /\
    (forall m, model self = Some m ->
               exists key, gemini_key = Some key /\ key <> "" /\
                           G key "gemini-2.5-pro" = Ok m).
Proof.
  unfold ReportServiceInit.__init__. cbn zeta.
  destruct gemini_key as [[|c key]|]; try (by eexists _, _).
  unfold try_except, mbind, Py_bind, lift.
  destruct (G (String c key) "gemini-2.5-pro") as [m|e] eqn:E.
  - eexists _, _. split; [reflexivity|]. repeat split; try done.
    intros m' [= <-]. by exists (String c key).
  - by eexists _, _.
Qed.

(** X23: [ReportService()] never raises, not even when the generator
    cannot be set up, and writes no file and no log entry.  Its directories
    are those of the configuration, and it has a model only when
    [GEMINI_API_KEY] is a non-empty string and the generator was set up with
    it; in every other case it has none and reports will be composed
    locally. *)
Theorem report_service_init_outcomes (config : app_config)
    (gemini_key : option string) (G : string -> string -> result GenerativeModel)
    (w : world) :
  exists self w',
    ReportServiceInit.__init__ config gemini_key G w = (Ok self, w') /\
    fs w' = fs w /\ log w' = log w /\
    ReportService.data_dir self = DATA_DIR config /\
    ReportService.templates_dir self = TEMPLATES_DIR config /\
    (forall m, model self = Some m ->
               exists key, gemini_key = Some key /\ key <> "" /\
                           G key "gemini-2.5-pro" = Ok m).
Proof. apply report_init_spec. Qed.

Lemma generate_report_route_spec (env : Main.env) (get_json : result pyval)
    (timestamp : string) (w : world) :
  exists resp w',
    Main.generate_report env get_json timestamp w = (Ok resp, w') /\
    log w' = log w /\
    ((exists scan_id report_type name blocks path,
        requested get_json "scan_id" PNone = Some scan_id /\
        requested get_json "report_type" PNone = Some report_type /\
        path = path_join (path_join (DATA_DIR (Main.config env)) ["generated_reports"])
                 [py_str report_type +:+ "_" +:+ py_str scan_id +:+ "_"
                    +:+ timestamp +:+ ".docx"] /\
        resp = Main.FileResponse path /\
        py_replace_char report_type "_" " " = Ok name /\
        fs w' = <[path := FDocx (Heading ("Security " +:+ PyStr.title name
                                            +:+ " Report") 0 :: blocks)]> (fs w) /\
        Forall content_block blocks) \/
     (exists msg,
        resp = Main.error_response 500 msg /\
        fs w' = fs w /\
        last (stdout w') = Some ("[/api/generate-report] ERROR: " +:+ msg))).
Proof.
  assert (forall e w0, fs w0 = fs w -> log w0 = log w ->
            exists resp w',
              (_ ← print ("[/api/generate-report] ERROR: " +:+ exn_str e);
               mret (Main.error_response 500 (exn_str e))) w0 = (Ok resp, w') /\
              log w' = log w /\
              exists msg,
                resp = Main.error_response 500 msg /\
                fs w' = fs w /\
                last (stdout w') = Some ("[/api/generate-report] ERROR: " +:+ msg))
    as Hfail.
  { intros e w0 Hfs Hlog. eexists _, _. split; [reflexivity|]. split; [done|].
    exists (exn_str e). split; [done|]. split; [done|]. cbn [stdout].
    by rewrite last_snoc. }
  assert (forall e w0, fs w0 = fs w -> log w0 = log w ->
            exists resp w',
              (_ ← print ("[/api/generate-report] ERROR: " +:+ exn_str e);
               mret (Main.error_response 500 (exn_str e))) w0 = (Ok resp, w') /\
              log w' = log w /\
              ((exists scan_id report_type name blocks path,
                  requested get_json "scan_id" PNone = Some scan_id /\
                  requested get_json "report_type" PNone = Some report_type /\
                  path = path_join (path_join (DATA_DIR (Main.config env))
                                      ["generated_reports"])
                           [py_str report_type +:+ "_" +:+ py_str scan_id +:+ "_"
                              +:+ timestamp +:+ ".docx"] /\
                  resp = Main.FileResponse path /\
                  py_replace_char report_type "_" " " = Ok name /\
                  fs w' = <[path := FDocx (Heading ("Security " +:+ PyStr.title name
                                                      +:+ " Report") 0 :: blocks)]>
                            (fs w) /\
                  Forall content_block blocks) \/
               (exists msg,
                  resp = Main.error_response 500 msg /\
                  fs w' = fs w /\
                  last (stdout w') = Some ("[/api/generate-report] ERROR: " +:+ msg))))
    as Hfail'.
  { intros e w0 Hfs Hlog. destruct (Hfail e w0 Hfs Hlog) as (resp & w' & E & Hl & H).
    exists resp, w'. split; [done|]. split; [done|]. by right. }
  clear Hfail.
  unfold Main.generate_report, try_except.
  destruct get_json as [data|e]; [|by apply Hfail'].
  unfold mbind at 1, Py_bind at 1, lift at 1.
  destruct data as [| | | | |d]; try (by apply Hfail').
  unfold mbind at 1, Py_bind at 1, lift at 1. cbn [py_get].
  unfold mbind at 1, Py_bind at 1, lift at 1.
  unfold mbind at 1, Py_bind at 1, print at 1.
  set (w1 := World (fs w) (log w) (stdout w ++ _)).
  unfold mbind at 1, Py_bind at 1.
  destruct (report_init_spec (Main.config env) (Main.GEMINI_API_KEY env)
              (Main.GenerativeModel env) w1)
    as (self & w2 & -> & Hfs2 & Hlog2 & Hdir & _).
  unfold mbind at 1, Py_bind at 1.
  destruct (generate_report_spec self timestamp (dict_get d "scan_id" PNone)
              (dict_get d "report_type" PNone) w2) as (out & w3 & -> & Hlog3 & Hout).
  destruct out as [path|e].
  2:{ destruct Hout as [Hfs3 _]. apply Hfail'.
      - by rewrite Hfs3, Hfs2.
      - by rewrite Hlog3, Hlog2. }
  destruct Hout as (Hpath & name & blocks & Hname & Hfs3 & Hblocks).
  unfold Main.send_file, mbind, Py_bind, path_exists.
  rewrite bool_decide_eq_true_2.
  2:{ rewrite Hfs3, lookup_insert_eq. by eexists. }
  eexists _, _. split; [reflexivity|]. split; [by rewrite Hlog3, Hlog2|]. left.
  exists (dict_get d "scan_id" PNone), (dict_get d "report_type" PNone), name, blocks,
    path.
  split; [done|]. split; [done|].
  split; [by rewrite Hpath; unfold report_path_of; rewrite Hdir|].
  split; [done|]. split; [done|]. split; [|done]. by rewrite Hfs3, Hfs2.
Qed.

(** X21: the two answers of [/api/generate-report].  The handler never
    raises and never writes to the log.  Either it sends the report file,
    which it has just stored (title heading, then content blocks) at
    [DATA_DIR/generated_reports/{report_type}_{scan_id}_{timestamp}.docx],
    the only file it changes; or it answers 500 with the message of the
    failure, which it has printed, and no file is changed. *)
Theorem generate_report_route_outcomes (env : Main.env) (get_json : result pyval)
    (timestamp : string) (w : world) :
  exists resp w',
    Main.generate_report env get_json timestamp w = (Ok resp, w') /\
    log w' = log w /\
    ((exists scan_id report_type name blocks path,
        requested get_json "scan_id" PNone = Some scan_id /\
        requested get_json "report_type" PNone = Some report_type /\
        path = path_join (path_join (DATA_DIR (Main.config env)) ["generated_reports"])
                 [py_str report_type +:+ "_" +:+ py_str scan_id +:+ "_"
                    +:+ timestamp +:+ ".docx"] /\
        resp = Main.FileResponse path /\
        py_replace_char report_type "_" " " = Ok name /\
        fs w' = <[path := FDocx (Heading ("Security " +:+ PyStr.title name
                                            +:+ " Report") 0 :: blocks)]> (fs w) /\
        Forall content_block blocks) \/
     (exists msg,
        resp = Main.error_response 500 msg /\
        fs w' = fs w /\
        last (stdout w') = Some ("[/api/generate-report] ERROR: " +:+ msg))).
Proof. apply generate_report_route_spec. Qed.

(** *** Policies *)

Lemma policy_entry_key (kv : pykey * pyval) :
  policy_entry kv -> exists s, fst kv = KStr s.
Proof. intros (n & c & _ & ->). by eexists. Qed.

Lemma policy_set (filename content : string) (policies : pydict) :
  PyStr.endswith filename ".md" = true ->
  Forall policy_entry policies ->
  Forall policy_entry (dict_set (KStr filename) (PStr content) policies).
Proof.
  intros Hmd Hp. apply dict_set_Forall_str; [|done|by exists filename, content].
  eapply Forall_impl; [exact Hp|]. apply policy_entry_key.
Qed.

Lemma policy_dir_loop_spec (os : RepoInfo.os) (policy_dir : string)
    (names : list string) (policies : pydict) (w : world) :
  Forall policy_entry policies ->
  exists policies' w',
    RepoInfo.policy_dir_loop os policy_dir names policies w = (Ok policies', w') /\
    Forall policy_entry policies'.
Proof.
  revert policies w. induction names as [|filename rest IH]; intros policies w Hp.
  - by eexists _, _.
  - cbn [RepoInfo.policy_dir_loop].
    destruct (PyStr.endswith filename ".md") eqn:Hmd; [|by apply IH].
    cbn zeta. unfold mbind at 1, Py_bind at 1, try_except at 1.
    unfold mbind at 1, Py_bind at 1.
    destruct (RepoInfo.open_read os (path_join policy_dir [filename]) w)
      as [[content|e] w1].
    + unfold mbind at 1, Py_bind at 1, logger at 1. unfold mret at 1, Py_ret at 1.
      apply IH. by apply policy_set.
    + unfold mbind at 1, Py_bind at 1, logger at 1. unfold mret at 1, Py_ret at 1.
      by apply IH.
Qed.

Lemma common_policy_loop_spec (os : RepoInfo.os) (repo_path : string)
    (names : list string) (policies : pydict) (w : world) :
  Forall (fun n => PyStr.endswith n ".md" = true) names ->
  Forall policy_entry policies ->
  exists policies' w',
    RepoInfo.common_policy_loop os repo_path names policies w = (Ok policies', w') /\
    Forall policy_entry policies'.
Proof.
  intros Hnames. revert policies w.
  induction Hnames as [|filename rest Hmd _ IH]; intros policies w Hp.
  - by eexists _, _.
  - cbn [RepoInfo.common_policy_loop].
    unfold mbind at 1, Py_bind at 1, path_exists at 1. cbn zeta.
    case_bool_decide as Hex; [|by apply IH].
    unfold mbind at 1, Py_bind at 1, try_except at 1.
    unfold mbind at 1, Py_bind at 1.
    destruct (RepoInfo.open_read os (path_join repo_path [filename]) w)
      as [[content|e] w1].
    + unfold mbind at 1, Py_bind at 1, logger at 1. unfold mret at 1, Py_ret at 1.
      apply IH. by apply policy_set.
    + unfold mbind at 1, Py_bind at 1, logger at 1. unfold mret at 1, Py_ret at 1.
      by apply IH.
Qed.

(** Whatever the operating system does, [_extract_policies] raises only
    when looking at the policy directory does ([isdir] or [listdir]), and
    every entry it returns stands under a name that ends in [.md]. *)
Lemma extract_policies_raises_for_directory_only (os : RepoInfo.os) (repo_path : string) (w : world) :
  exists out w',
    RepoInfo._extract_policies os repo_path w = (out, w') /\
    match out with
    | Ok policies => Forall policy_entry policies
    | Err e =>
        RepoInfo.isdir os (path_join repo_path ["policies"]) w = (Err e, w') \/
        exists w1,
          RepoInfo.isdir os (path_join repo_path ["policies"]) w = (Ok true, w1) /\
          RepoInfo.listdir os (path_join repo_path ["policies"]) w1 = (Err e, w')
    end.
Proof.
  assert (Forall (fun n => PyStr.endswith n ".md" = true) RepoInfo.common_policy_files)
    as Hcommon by (repeat constructor).
  unfold RepoInfo._extract_policies. cbn zeta.
  unfold mbind at 1, Py_bind at 1.
  destruct (RepoInfo.isdir os (path_join repo_path ["policies"]) w)
    as [[is_dir|e] w1] eqn:Hisdir.
  2:{ eexists _, _. split; [reflexivity|]. by left. }
  destruct is_dir.
  - unfold mbind at 1, Py_bind at 1. unfold mbind at 1, Py_bind at 1.
    destruct (RepoInfo.listdir os (path_join repo_path ["policies"]) w1)
      as [[names|e] w2] eqn:Hlist.
    2:{ eexists _, _. split; [reflexivity|]. right. by exists w1. }
    destruct (policy_dir_loop_spec os (path_join repo_path ["policies"]) names [] w2)
      as (p1 & w3 & -> & Hp1); [constructor|].
    destruct (common_policy_loop_spec os repo_path RepoInfo.common_policy_files
                p1 w3 Hcommon Hp1) as (p2 & w4 & -> & Hp2).
    by eexists _, _.
  - unfold mbind at 1, Py_bind at 1. unfold mret at 1, Py_ret at 1.
    destruct (common_policy_loop_spec os repo_path RepoInfo.common_policy_files
                [] w1 Hcommon) as (p2 & w4 & -> & Hp2); [constructor|].
    by eexists _, _.
Qed.

(** *** Policies, file by file *)

Lemma listed_cons (name n : string) (names : list string) :
  listed name (n :: names) = String.eqb name n || listed name names.
Proof. reflexivity. Qed.

(** The loop over the policy directory, with a reading that depends on
    the path only. *)
Lemma policy_dir_loop_pure (read : string -> result string)
    (listing : string -> option (list string)) (policy_dir : string)
    (names : list string) (policies : pydict) (w : world) :
  exists policies' entries,
    RepoInfo.policy_dir_loop (pure_os read listing) policy_dir names policies w
    = (Ok policies', World (fs w) (log w ++ entries) (stdout w)) /\
    (forall name,
       dict_lookup (KStr name) policies'
       = match (if listed name names && PyStr.endswith name ".md"
                then policy_text read (path_join policy_dir [name])
                else None) with
         | Some text => Some text
         | None => dict_lookup (KStr name) policies
         end) /\
    (forall name e,
       In name names -> PyStr.endswith name ".md" = true ->
       read (path_join policy_dir [name]) = Err e ->
       In (WARNING, "Error reading policy " +:+ name +:+ ": " +:+ exn_str e) entries).
Proof.
  revert policies w. induction names as [|n rest IH]; intros policies w.
  - exists policies, []. rewrite app_nil_r. destruct w. split; [done|].
    split; [done|]. by intros name e [].
  - cbn [RepoInfo.policy_dir_loop].
    destruct (PyStr.endswith n ".md") eqn:Hmd.
    + cbn zeta. unfold mbind at 1, Py_bind at 1, try_except at 1.
      unfold mbind at 1, Py_bind at 1. cbn [RepoInfo.open_read pure_os]. unfold lift at 1.
      destruct (read (path_join policy_dir [n])) as [content|e0] eqn:Hread.
      * unfold mbind at 1, Py_bind at 1, logger at 1. unfold mret at 1, Py_ret at 1.
        destruct (IH (dict_set (KStr n) (PStr content) policies)
                    (World (fs w) (log w ++ [(DEBUG, "   Found policy: " +:+ n)])
                       (stdout w))) as (p' & entries & -> & Hlook & Hwarn).
        exists p', ((DEBUG, "   Found policy: " +:+ n) :: entries).
        cbn [fs log stdout]. rewrite <- app_assoc. split; [done|]. split.
        -- intros name. rewrite Hlook, listed_cons, dict_lookup_set, key_eqb_str.
           destruct (String.eqb name n) eqn:En.
           ++ apply String.eqb_eq in En. subst name. rewrite Hmd. cbn [orb andb].
              unfold policy_text at 2. rewrite Hread.
              rewrite bool_decide_eq_true_2 by done.
              destruct (listed n rest); cbn [andb]; [|done].
              unfold policy_text. by rewrite Hread.
           ++ rewrite bool_decide_eq_false_2; [done|].
              intros <-. by rewrite String.eqb_refl in En.
        -- intros name e [<-|Hin] Hname Hfail; [congruence|].
           right. by apply Hwarn.
      * unfold mbind at 1, Py_bind at 1, logger at 1. unfold mret at 1, Py_ret at 1.
        destruct (IH policies
                    (World (fs w)
                       (log w ++ [(WARNING, "Error reading policy " +:+ n +:+ ": "
                                              +:+ exn_str e0)])
                       (stdout w))) as (p' & entries & -> & Hlook & Hwarn).
        exists p', ((WARNING, "Error reading policy " +:+ n +:+ ": " +:+ exn_str e0)
                    :: entries).
        cbn [fs log stdout]. rewrite <- app_assoc. split; [done|]. split.
        -- intros name. rewrite Hlook, listed_cons.
           destruct (String.eqb name n) eqn:En; [|done].
           apply String.eqb_eq in En. subst name. rewrite Hmd. cbn [orb andb].
           unfold policy_text. rewrite Hread.
           by destruct (listed n rest).
        -- intros name e [<-|Hin] Hname Hfail.
           ++ left. congruence.
           ++ right. by apply Hwarn.
    + destruct (IH policies w) as (p' & entries & -> & Hlook & Hwarn).
      exists p', entries. split; [done|]. split.
      * intros name. rewrite Hlook, listed_cons.
        destruct (String.eqb name n) eqn:En; [|done].
        apply String.eqb_eq in En. subst name. rewrite Hmd. cbn [orb andb].
        by rewrite andb_false_r.
      * intros name e [<-|Hin] Hname Hfail; [congruence|]. by apply Hwarn.
Qed.

(** The loop over the policy files of the root. *)
Lemma common_policy_loop_pure (read : string -> result string)
    (listing : string -> option (list string)) (repo_path : string)
    (names : list string) (policies : pydict) (w : world) :
  exists policies' entries,
    RepoInfo.common_policy_loop (pure_os read listing) repo_path names policies w
    = (Ok policies', World (fs w) (log w ++ entries) (stdout w)) /\
    (forall name,
       dict_lookup (KStr name) policies'
       = match (if listed name names
                   && bool_decide (is_Some (fs w !! path_join repo_path [name]))
                then policy_text read (path_join repo_path [name])
                else None) with
         | Some text => Some text
         | None => dict_lookup (KStr name) policies
         end) /\
    (forall name e,
       In name names -> is_Some (fs w !! path_join repo_path [name]) ->
       read (path_join repo_path [name]) = Err e ->
       In (WARNING, "Error reading " +:+ name +:+ ": " +:+ exn_str e) entries).
Proof.
  revert policies w. induction names as [|n rest IH]; intros policies w.
  - exists policies, []. rewrite app_nil_r. destruct w. split; [done|].
    split; [done|]. by intros name e [].
  - cbn [RepoInfo.common_policy_loop].
    unfold mbind at 1, Py_bind at 1, path_exists at 1. cbn zeta.
    case_bool_decide as Hex.
    + unfold mbind at 1, Py_bind at 1, try_except at 1.
      unfold mbind at 1, Py_bind at 1. cbn [RepoInfo.open_read pure_os]. unfold lift at 1.
      destruct (read (path_join repo_path [n])) as [content|e0] eqn:Hread.
      * unfold mbind at 1, Py_bind at 1, logger at 1. unfold mret at 1, Py_ret at 1.
        destruct (IH (dict_set (KStr n) (PStr content) policies)
                    (World (fs w) (log w ++ [(DEBUG, "   Found policy: " +:+ n)])
                       (stdout w))) as (p' & entries & -> & Hlook & Hwarn).
        exists p', ((DEBUG, "   Found policy: " +:+ n) :: entries).
        cbn [fs log stdout] in *. rewrite <- app_assoc. split; [done|]. split.
        -- intros name. rewrite Hlook, listed_cons, dict_lookup_set, key_eqb_str.
           destruct (String.eqb name n) eqn:En.
           ++ apply String.eqb_eq in En. subst name. cbn [orb andb].
              rewrite (bool_decide_eq_true_2 _ Hex).
              unfold policy_text at 2. rewrite Hread.
              rewrite bool_decide_eq_true_2 by done.
              destruct (listed n rest); cbn [andb]; [|done].
              unfold policy_text. by rewrite Hread.
           ++ rewrite (bool_decide_eq_false_2 (n = name)); [done|].
              intros <-. by rewrite String.eqb_refl in En.
        -- intros name e [<-|Hin] Hname Hfail; [congruence|].
           right. by apply Hwarn.
      * unfold mbind at 1, Py_bind at 1, logger at 1. unfold mret at 1, Py_ret at 1.
        destruct (IH policies
                    (World (fs w)
                       (log w ++ [(WARNING, "Error reading " +:+ n +:+ ": "
                                              +:+ exn_str e0)])
                       (stdout w))) as (p' & entries & -> & Hlook & Hwarn).
        exists p', ((WARNING, "Error reading " +:+ n +:+ ": " +:+ exn_str e0)
                    :: entries).
        cbn [fs log stdout] in *. rewrite <- app_assoc. split; [done|]. split.
        -- intros name. rewrite Hlook, listed_cons.
           destruct (String.eqb name n) eqn:En; [|done].
           apply String.eqb_eq in En. subst name. cbn [orb andb].
           rewrite (bool_decide_eq_true_2 _ Hex).
           unfold policy_text. rewrite Hread.
           by destruct (listed n rest).
        -- intros name e [<-|Hin] Hname Hfail.
           ++ left. congruence.
           ++ right. by apply Hwarn.
    + destruct (IH policies w) as (p' & entries & -> & Hlook & Hwarn).
      exists p', entries. split; [done|]. split.
      * intros name. rewrite Hlook, listed_cons.
        destruct (String.eqb name n) eqn:En; [|done].
        apply String.eqb_eq in En. subst name. cbn [orb andb].
        rewrite (bool_decide_eq_false_2 _ Hex). by rewrite andb_false_r.
      * intros name e [<-|Hin] Hname Hfail; [done|]. by apply Hwarn.
Qed.

(** X22: the policies, file by file.  With an operating system whose
    answers depend on the path only, [_extract_policies] returns and leaves
    the files and the standard output alone.  Under each name its result has
    the policy of that name ([policy_of]): the text of the common policy file
    of the root when that file is there and can be read, else the text of
    the [.md] file of that name in the policy directory when it can be read,
    else nothing; a file that cannot be read leaves no entry.  For every
    file it tried and could not read, the log has got a warning with the
    name of the file and the message of the failure. *)
Theorem extract_policies_file_by_file (read : string -> result string)
    (listing : string -> option (list string)) (repo_path : string) (w : world) :
  exists policies entries,
    RepoInfo._extract_policies (pure_os read listing) repo_path w
    = (Ok policies, World (fs w) (log w ++ entries) (stdout w)) /\
    (forall name,
       dict_lookup (KStr name) policies
       = policy_of read listing (fs w) repo_path name) /\
    (forall name e,
       In name (default [] (listing (path_join repo_path ["policies"]))) ->
       PyStr.endswith name ".md" = true ->
       read (path_join (path_join repo_path ["policies"]) [name]) = Err e ->
       In (WARNING, "Error reading policy " +:+ name +:+ ": " +:+ exn_str e) entries) /\
    (forall name e,
       In name RepoInfo.common_policy_files ->
       is_Some (fs w !! path_join repo_path [name]) ->
       read (path_join repo_path [name]) = Err e ->
       In (WARNING, "Error reading " +:+ name +:+ ": " +:+ exn_str e) entries).
Proof.
  unfold RepoInfo._extract_policies. cbn zeta.
  unfold mbind at 1, Py_bind at 1. cbn [RepoInfo.isdir pure_os].
  unfold mret at 1, Py_ret at 1.
  set (policy_dir := path_join repo_path ["policies"]).
  assert (exists p1 entries1,
            (if bool_decide (is_Some (listing policy_dir))
             then names ← RepoInfo.listdir (pure_os read listing) policy_dir;
                  RepoInfo.policy_dir_loop (pure_os read listing) policy_dir names []
             else mret []) w
            = (Ok p1, World (fs w) (log w ++ entries1) (stdout w)) /\
            (forall name,
               dict_lookup (KStr name) p1
               = if listed name (default [] (listing policy_dir))
                    && PyStr.endswith name ".md"
                 then policy_text read (path_join policy_dir [name])
                 else None) /\
            (forall name e,
               In name (default [] (listing policy_dir)) ->
               PyStr.endswith name ".md" = true ->
               read (path_join policy_dir [name]) = Err e ->
               In (WARNING, "Error reading policy " +:+ name +:+ ": " +:+ exn_str e)
                 entries1)) as (p1 & entries1 & Hrun1 & Hlook1 & Hwarn1).
  { destruct (listing policy_dir) as [names|] eqn:Hnames.
    - rewrite bool_decide_eq_true_2 by (by eexists).
      unfold mbind at 1, Py_bind at 1. cbn [RepoInfo.listdir pure_os].
      unfold lift at 1. rewrite Hnames.
      destruct (policy_dir_loop_pure read listing policy_dir names [] w)
        as (p1 & entries1 & -> & Hlook & Hwarn).
      exists p1, entries1. split; [done|]. split; [|done].
      intros name. rewrite Hlook. cbn [default from_option id dict_lookup].
      by destruct (if listed name names && PyStr.endswith name ".md"
                   then policy_text read (path_join policy_dir [name]) else None).
    - rewrite bool_decide_eq_false_2 by (by intros [? ?]).
      exists [], []. rewrite app_nil_r. destruct w. split; [done|].
      split; [done|]. by intros name e []. }
  unfold mbind at 1, Py_bind at 1. rewrite Hrun1.
  destruct (common_policy_loop_pure read listing repo_path
              RepoInfo.common_policy_files p1
              (World (fs w) (log w ++ entries1) (stdout w)))
    as (p2 & entries2 & -> & Hlook2 & Hwarn2).
  cbn [fs log stdout] in *. exists p2, (entries1 ++ entries2).
  rewrite <- app_assoc. split; [done|]. split; [|split].
  - intros name. rewrite Hlook2, Hlook1. reflexivity.
  - intros name e Hin Hmd Hfail. apply in_or_app. left. by apply Hwarn1.
  - intros name e Hin Hex Hfail. apply in_or_app. right. by apply Hwarn2.
Qed.

(** A policy of the root replaces the policy of the same name of the
    policy directory, in its place; the notes of the directory are no
    policy, and the policy that cannot be read is left out with a warning. *)
Example unreadable_policy_left_out :
  RepoInfo._extract_policies (pure_os (read_of (fs policy_repo)) policy_listing) "repo"
    policy_repo
  = (Ok [ (KStr "SECURITY.md", PStr "root policy") ],
     World (fs policy_repo)
       [ (DEBUG, "   Found policy: SECURITY.md");
         (WARNING, "Error reading policy HIPAA.md: [Errno 2] No such file or directory: 'repo/policies/HIPAA.md'");
         (DEBUG, "   Found policy: SECURITY.md") ]
       []).
Proof. vm_compute. reflexivity. Qed.

(** The same with the file map read directly. *)
Example root_policy_wins :
  (RepoInfo._extract_policies (listing_os ["SECURITY.md"; "notes.txt"]) "repo"
     policy_repo).1
  = Ok [ (KStr "SECURITY.md", PStr "root policy") ].
Proof. vm_compute. reflexivity. Qed.

(** *** The whole run *)

(** An analysis and a report through the routes: the clone, the scan
    record and the report file are in the world afterwards. *)
Example analyze_then_report_through_routes :
  let run :=
    Main.serve portal_env
      [ Main.Analyze
          (json_body [ (KStr "github_url", PStr "https://github.com/clinic/portal.git") ])
          "2024-05-01T09:59:00" sample_id "2024-05-01T10:00:00";
        Main.GenerateReport
          (json_body [ (KStr "scan_id", PStr sample_id);
                       (KStr "report_type", PStr "regulatory_compliance") ])
          "20240501_100000" ]
      (Main.initial_state templates_world) in
  run.1 = [ Main.JsonResponse 200
              [ (KStr "status", PStr "success");
                (KStr "scan_id", PStr sample_id);
                (KStr "plan_used", PStr "basic");
                (KStr "total_findings", PInt 3);
                (KStr "message",
                 PStr "Analysis completed successfully using basic plan") ];
            Main.FileResponse sample_report_path ] /\
  is_Some (fs (Main.app_world run.2) !! "PulledCode/portal/README.md") /\
  is_Some (fs (Main.app_world run.2) !! results_path "data" sample_id) /\
  is_Some (fs (Main.app_world run.2) !! sample_report_path).
Proof. vm_compute. repeat split; by eexists. Qed.
